(** * minecraft-jars-java-descriptions: the three-stage synchronisation pipeline

    A shallow embedding of [meta.py], [jars.py], [index.py], [util.py] and
    [update.py], followed by the properties of the pipeline that the
    specification states and by further properties of the code.

    Conventions of the embedding.
    - A Python [str] is a Rocq [string] (the bytes of its UTF-8 encoding; the
      byte-wise order of [String.ltb] is the code-point order Python uses).
    - A [datetime] is an integer (a position on the time line); only equality
      and order of datetimes are used by the code.
    - A Python [dict] is an association list in insertion order.  Python
      dicts never hold a key twice; [NoDup (dict_keys d)] says so where a
      statement depends on it.
    - A method that mutates [self] is a function from the state before the call
      to an outcome and the state after it.  A raised exception keeps the
      state reached so far, as in Python.
    - Libraries outside the repository (hashlib, json, requests, zipfile, the
      UTF-8 codec, the mapping-io subprocess) are fields of an environment
      record [Env]; the file system and the calls made to the network and to
      the converter are the [World]. *)

From Stdlib.Strings Require Import String Ascii Byte.
From Stdlib Require Import List ZArith Bool Arith Lia.
From Stdlib Require Import Sorting.Sorted Sorting.Permutation.
From Stdlib Require OrderedTypeEx.
Import ListNotations.

Local Open Scope list_scope.
Local Open Scope string_scope.

Set Implicit Arguments.

(** ** Python runtime: exceptions, outcomes, mutable state *)

Inductive exn : Type :=
| IdentityMismatch
| MultiVersionBundle
| ConversionError
| NotFound (version : string)
| KeyError (k : string)
| IndexError
| FileNotFoundError (path : string)
| TransportError
| BadZipFile
| UnicodeDecodeError
| JSONDecodeError
| ValueError.

Inductive outcome (A : Type) : Type :=
| Return (a : A)
| Raise (e : exn).

Arguments Return {A} a.
Arguments Raise {A} e.

(** A computation over a mutable state [S]: the state survives a raise. *)
Definition M (S A : Type) : Type := S -> outcome A * S.

Definition ret {S A : Type} (a : A) : M S A := fun s => (Return a, s).

Definition raise {S A : Type} (e : exn) : M S A := fun s => (Raise e, s).

Definition bind {S A B : Type} (m : M S A) (f : A -> M S B) : M S B :=
  fun s =>
    match m s with
    | (Return a, s') => f a s'
    | (Raise e, s') => (Raise e, s')
    end.

Definition get {S : Type} : M S S := fun s => (Return s, s).

Definition modify {S : Type} (f : S -> S) : M S unit := fun s => (Return tt, f s).

Definition lift_option {S A : Type} (e : exn) (o : option A) : M S A :=
  match o with
  | Some a => ret a
  | None => raise e
  end.

Declare Scope py_scope.
Delimit Scope py_scope with py.
Notation "x <- m ;; k" := (bind m (fun x => k))
  (at level 61, m at next level, right associativity) : py_scope.
Notation "m ;;; k" := (bind m (fun _ => k))
  (at level 61, right associativity) : py_scope.
Local Open Scope py_scope.

(** Run a method of a sub-object; the sub-object is written back, also when
    the method raises. *)
Definition zoom {S T A : Type} (proj : S -> T) (upd : T -> S -> S) (m : M T A) : M S A :=
  fun s => let (r, t') := m (proj s) in (r, upd t' s).

(** [for x in xs: dirty = dirty or body(x)]; every element is visited. *)
Fixpoint for_dirty {S X : Type} (xs : list X) (body : X -> M S bool) (dirty : bool)
  : M S bool :=
  match xs with
  | [] => ret dirty
  | x :: xs' => d <- body x ;; for_dirty xs' body (dirty || d)
  end.

(** [for x in xs: body(x)] *)
Fixpoint for_each {S X : Type} (xs : list X) (body : X -> M S unit) : M S unit :=
  match xs with
  | [] => ret tt
  | x :: xs' => body x ;;; for_each xs' body
  end.

(** ** Python dicts and lists *)

Definition dict (V : Type) : Type := list (string * V).

Definition dict_keys {V : Type} (d : dict V) : list string := map fst d.

Definition dict_values {V : Type} (d : dict V) : list V := map snd d.

Fixpoint dict_get {V : Type} (k : string) (d : dict V) : option V :=
  match d with
  | [] => None
  | (k', v) :: d' => if String.eqb k' k then Some v else dict_get k d'
  end.

Definition dict_mem {V : Type} (k : string) (d : dict V) : bool :=
  match dict_get k d with
  | Some _ => true
  | None => false
  end.

(** [d[k] = v]: an existing key keeps its position, a new key goes last. *)
Fixpoint dict_set {V : Type} (k : string) (v : V) (d : dict V) : dict V :=
  match d with
  | [] => [(k, v)]
  | (k', v') :: d' =>
      if String.eqb k' k then (k', v) :: d' else (k', v') :: dict_set k v d'
  end.

(** [d[k].method(...)] *)
Definition at_key {V A : Type} (k : string) (m : M V A) : M (dict V) A :=
  fun d =>
    match dict_get k d with
    | None => (Raise (KeyError k), d)
    | Some v => let (r, v') := m v in (r, dict_set k v' d)
    end.

Fixpoint list_set {X : Type} (i : nat) (x : X) (l : list X) : list X :=
  match l, i with
  | [], _ => []
  | _ :: l', O => x :: l'
  | y :: l', S i' => y :: list_set i' x l'
  end.

(** [l[i].method(...)] *)
Definition at_index {X A : Type} (i : nat) (m : M X A) : M (list X) A :=
  fun l =>
    match nth_error l i with
    | None => (Raise IndexError, l)
    | Some x => let (r, x') := m x in (r, list_set i x' l)
    end.

(** ** [sorted] and [list.sort]: a stable sort on a key, optionally reversed *)

Section Sorting.
Variables X K : Type.
Variable lt : K -> K -> bool.

(** [stays_ahead reverse y x]: the already placed [y] stays in front of the
    earlier element [x] only when its key is strictly on the right side. *)
Definition stays_ahead (reverse : bool) (y x : K * X) : bool :=
  if reverse then lt (fst x) (fst y) else lt (fst y) (fst x).

Fixpoint insert_sorted (reverse : bool) (x : K * X) (l : list (K * X)) : list (K * X) :=
  match l with
  | [] => [x]
  | y :: l' =>
      if stays_ahead reverse y x then y :: insert_sorted reverse x l' else x :: l
  end.

Definition sort_decorated (reverse : bool) (l : list (K * X)) : list (K * X) :=
  fold_right (insert_sorted reverse) [] l.

(** The key function is called once per element, in order, before any
    comparison; the first key that raises aborts the sort. *)
Fixpoint decorate (key : X -> outcome K) (xs : list X) : outcome (list (K * X)) :=
  match xs with
  | [] => Return []
  | x :: xs' =>
      match key x with
      | Raise e => Raise e
      | Return k =>
          match decorate key xs' with
          | Raise e => Raise e
          | Return l => Return ((k, x) :: l)
          end
      end
  end.

Definition sorted (key : X -> outcome K) (reverse : bool) (xs : list X)
  : outcome (list X) :=
  match decorate key xs with
  | Return l => Return (map snd (sort_decorated reverse l))
  | Raise e => Raise e
  end.

(** [sorted] with a key function that cannot raise. *)
Definition sorted_total (key : X -> K) (reverse : bool) (xs : list X) : list X :=
  map snd (sort_decorated reverse (map (fun x => (key x, x)) xs)).

(** Order of the result: no element is followed, anywhere later, by one that
    should stand strictly before it. *)
Definition in_order (reverse : bool) (a b : K * X) : Prop :=
  stays_ahead reverse b a = false.
End Sorting.

(** ** pathlib: stem and suffix of a file name *)

(** Split at the last dot: [rsplit_dot "a.b.c" = Some ("a.b", "c")]. *)
Fixpoint rsplit_dot (s : string) : option (string * string) :=
  match s with
  | EmptyString => None
  | String c s' =>
      match rsplit_dot s' with
      | Some (a, b) => Some (String c a, b)
      | None => if Ascii.eqb c "." then Some (EmptyString, s') else None
      end
  end.

Definition is_empty (s : string) : bool :=
  match s with
  | EmptyString => true
  | _ => false
  end.

(** [PurePath.stem]: the name without its last suffix; a leading or a
    trailing dot does not start a suffix. *)
Definition path_stem (name : string) : string :=
  match rsplit_dot name with
  | Some (a, b) => if is_empty a || is_empty b then name else a
  | None => name
  end.

(** [PurePath.with_suffix], on the file name. *)
Definition with_suffix (name suffix : string) : string := path_stem name ++ suffix.

(** ** str.splitlines and str.split *)

Definition is_line_boundary (c : ascii) : bool :=
  match c with
  | "010"%char | "011"%char | "012"%char | "013"%char
  | "028"%char | "029"%char | "030"%char => true
  | _ => false
  end.

(** [splitlines_from cur s]: [cur] is the current line, reversed.  The
    boundaries are the ones of [str.splitlines]: LF, VT, FF, CR, CR LF, FS,
    GS, RS and, in UTF-8, NEL (C2 85), LS (E2 80 A8) and PS (E2 80 A9). *)
Fixpoint splitlines_from (cur : list ascii) (s : string) {struct s} : list string :=
  let line := string_of_list_ascii (rev cur) in
  match s with
  | EmptyString => match cur with [] => [] | _ => [line] end
  | String "013"%char (String "010"%char s') => line :: splitlines_from [] s'
  | String "194"%char (String "133"%char s') => line :: splitlines_from [] s'
  | String "226"%char (String "128"%char (String "168"%char s')) =>
      line :: splitlines_from [] s'
  | String "226"%char (String "128"%char (String "169"%char s')) =>
      line :: splitlines_from [] s'
  | String c s' =>
      if is_line_boundary c then line :: splitlines_from [] s'
      else splitlines_from (c :: cur) s'
  end.

Definition splitlines (s : string) : list string := splitlines_from [] s.

(** [s.split(sep)[-1]] for a one-character separator: the text after the
    last separator, the whole text when there is none. *)
Fixpoint split_last (sep : ascii) (s : string) : string :=
  match s with
  | EmptyString => EmptyString
  | String c s' =>
      if existsb (Ascii.eqb sep) (list_ascii_of_string s') then split_last sep s'
      else if Ascii.eqb c sep then s' else s
  end.

(** ** The environment: libraries and collaborators outside the repository *)

(** One entry of the ["downloads"] object of a descriptor; a missing member
    is [None] and raises [KeyError] when the code indexes it. *)
Record Download : Type := {
  dl_sha1 : option string;
  dl_url : option string
}.

(** A parsed version descriptor, as far as [MetaVersion.update] reads it. *)
Record VersionJson : Type := {
  json_id : option string;
  json_releaseTime : option string;
  json_downloads : option (dict Download)
}.

Record Env : Type := {
  (** [hashlib.sha1(b).hexdigest()] *)
  sha1_hexdigest : list byte -> string;
  (** [json.load]; [None] is a [JSONDecodeError] *)
  json_load : list byte -> option VersionJson;
  (** [datetime.fromisoformat]; [None] is a [ValueError] *)
  fromisoformat : string -> option Z;
  (** [requests.get(url).content]; [None] is a transport error *)
  requests_get : string -> option (list byte);
  (** [ZipFile(path)]: the entries of the archive, [None] is [BadZipFile] *)
  zip_entries : list byte -> option (dict (list byte));
  (** [bytes.decode("utf-8")]; [None] is a [UnicodeDecodeError] *)
  decode_utf8 : list byte -> option string;
  (** the mapping-io converter run on the bytes of an archive; [None] is a
      non-zero exit code *)
  mapping_io : list byte -> option (list byte)
}.

(** The file system below the repository directory, and the calls made so
    far to the content fetcher and to the converter. *)
Record World : Type := {
  files : string -> option (list byte);
  requests : list string;
  conversions : list (string * string)
}.

Definition read_bytes (p : string) : M World (list byte) :=
  fun w =>
    match files w p with
    | Some b => (Return b, w)
    | None => (Raise (FileNotFoundError p), w)
    end.

Definition write_bytes (p : string) (b : list byte) : M World unit :=
  modify (fun w =>
    {| files := fun q => if String.eqb q p then Some b else files w q;
       requests := requests w;
       conversions := conversions w |}).

(** [Path.rename] (POSIX): the target is replaced silently. *)
Definition rename (src dst : string) : M World unit :=
  b <- read_bytes src ;;
  modify (fun w =>
    {| files := fun q =>
         if String.eqb q dst then Some b
         else if String.eqb q src then None
         else files w q;
       requests := requests w;
       conversions := conversions w |}).

(** [requests.get(url).content]; the request is recorded. *)
Definition http_get (E : Env) (url : string) : M World (list byte) :=
  modify (fun w =>
    {| files := files w;
       requests := requests w ++ [url];
       conversions := conversions w |}) ;;;
  lift_option TransportError (requests_get E url).

(** ** util.py *)

Module Util.

(** [sort_dict(dict_in)] with the defaults [key=None, reverse=False]: the
    items [(k, v)] are compared as tuples, and since the keys of a dict are
    pairwise distinct the keys alone decide. *)
Definition sort_dict {V : Type} (dict_in : dict V) : dict V :=
  sorted_total String.ltb fst false dict_in.

(** [sort_dict(dict_in, key=key, reverse=reverse)] with a key function into
    datetimes. *)
Definition sort_dict_key {V : Type} (key : string * V -> outcome Z) (reverse : bool)
  (dict_in : dict V) : outcome (dict V) :=
  sorted Z.ltb key reverse dict_in.

End Util.

(** ** meta.py *)

Definition JAR_NAMES : list string := ["client"; "server"; "windows_server"].

(** A file of the descriptor directory. *)
Record File : Type := {
  file_name : string;
  file_bytes : list byte
}.

Definition file_stem (f : File) : string := path_stem (file_name f).

Module MetaJar.

Record t : Type := mk {
  version_id : string;
  version_file_id : string;
  version_release_time : Z;
  key : string;
  sha1 : string;
  url : string
}.

Definition set_sha1 (x : string) (self : t) : t :=
  mk (version_id self) (version_file_id self) (version_release_time self)
     (key self) x (url self).

Definition set_url (x : string) (self : t) : t :=
  mk (version_id self) (version_file_id self) (version_release_time self)
     (key self) (sha1 self) x.

Definition filename (self : t) (extension : string) : string :=
  version_id self ++ "-" ++ key self ++ "." ++ extension.

(** The four identity comparisons of the [for] loop, in order. *)
Definition identity_matches (self : t)
  (version_id' version_file_id' : string) (version_release_time' : Z) (key' : string)
  : bool :=
  String.eqb (version_id self) version_id'
  && String.eqb (version_file_id self) version_file_id'
  && Z.eqb (version_release_time self) version_release_time'
  && String.eqb (key self) key'.

Definition update_kwargs
  (version_id' version_file_id' : string) (version_release_time' : Z)
  (key' sha1' url' : string) : M t bool :=
  self <- get ;;
  if negb (identity_matches self version_id' version_file_id' version_release_time' key')
  then raise IdentityMismatch
  else
    dirty1 <- (if negb (String.eqb (sha1 self) sha1')
               then modify (set_sha1 sha1') ;;; ret true
               else ret false) ;;
    dirty2 <- (if negb (String.eqb (url self) url')
               then modify (set_url url') ;;; ret true
               else ret dirty1) ;;
    ret dirty2.

Definition update (meta_jar : t) : M t bool :=
  update_kwargs (version_id meta_jar) (version_file_id meta_jar)
    (version_release_time meta_jar) (key meta_jar) (sha1 meta_jar) (url meta_jar).

End MetaJar.

Module MetaVersion.

Record t : Type := mk {
  id : string;
  file_id : string;
  release_time : Z;
  sha1 : string;
  jars : dict MetaJar.t
}.

Definition set_id (x : string) (self : t) : t :=
  mk x (file_id self) (release_time self) (sha1 self) (jars self).

Definition set_file_id (x : string) (self : t) : t :=
  mk (id self) x (release_time self) (sha1 self) (jars self).

Definition set_release_time (x : Z) (self : t) : t :=
  mk (id self) (file_id self) x (sha1 self) (jars self).

Definition set_sha1 (x : string) (self : t) : t :=
  mk (id self) (file_id self) (release_time self) x (jars self).

Definition set_jars (x : dict MetaJar.t) (self : t) : t :=
  mk (id self) (file_id self) (release_time self) (sha1 self) x.

(** [datetime.min] is the least datetime; any fixed value serves, the
    field is overwritten before it is read. *)
Definition datetime_min : Z := 0%Z.

Definition empty : t := mk "" "" datetime_min "" [].

(** The body of the loop over the sorted ["downloads"] items. *)
Definition update_download (download_name : string) (download : Download) : M t unit :=
  if negb (existsb (String.eqb download_name) JAR_NAMES) then ret tt
  else
    self <- get ;;
    sha1' <- lift_option (KeyError "sha1") (dl_sha1 download) ;;
    url' <- lift_option (KeyError "url") (dl_url download) ;;
    let meta_jar :=
      MetaJar.mk (id self) (file_id self) (release_time self) download_name sha1' url' in
    if negb (dict_mem (MetaJar.key meta_jar) (jars self))
    then modify (fun self => set_jars (dict_set (MetaJar.key meta_jar) meta_jar (jars self)) self)
    else
      zoom jars set_jars (at_key (MetaJar.key meta_jar) (MetaJar.update meta_jar)) ;;;
      ret tt.

Definition update (E : Env) (version_json : File) : M t bool :=
  self <- get ;;
  let version_json_sha1 := sha1_hexdigest E (file_bytes version_json) in
  if String.eqb (sha1 self) version_json_sha1 then ret false
  else
    version_json_data <- lift_option JSONDecodeError (json_load E (file_bytes version_json)) ;;
    id' <- lift_option (KeyError "id") (json_id version_json_data) ;;
    modify (set_id id') ;;;
    modify (set_file_id (file_stem version_json)) ;;;
    release_time_text <- lift_option (KeyError "releaseTime")
                           (json_releaseTime version_json_data) ;;
    release_time' <- lift_option ValueError (fromisoformat E release_time_text) ;;
    modify (set_release_time release_time') ;;;
    modify (set_sha1 version_json_sha1) ;;;
    downloads <- lift_option (KeyError "downloads") (json_downloads version_json_data) ;;
    for_each (Util.sort_dict downloads)
      (fun item => update_download (fst item) (snd item)) ;;;
    modify (fun self => set_jars (Util.sort_dict (jars self)) self) ;;;
    ret true.

End MetaVersion.

Module Meta.

Record t : Type := mk {
  commit : string;
  minecraft : list MetaVersion.t
}.

Definition set_commit (x : string) (self : t) : t := mk x (minecraft self).

Definition set_minecraft (x : list MetaVersion.t) (self : t) : t := mk (commit self) x.

Definition empty : t := mk "" [].

(** Position of the first version whose [file_id] is the stem of the file. *)
Fixpoint find_version (stem : string) (vs : list MetaVersion.t) : option nat :=
  match vs with
  | [] => None
  | v :: vs' =>
      if String.eqb (MetaVersion.file_id v) stem then Some O
      else option_map S (find_version stem vs')
  end.

(** The body of the loop of [update]: [file_version] is a reference into
    [self.minecraft], here the position of the version in the list. *)
Definition update_file (E : Env) (file : File) : M t bool :=
  self <- get ;;
  file_version <-
    match find_version (file_stem file) (minecraft self) with
    | Some i => ret i
    | None =>
        modify (fun self => set_minecraft (minecraft self ++ [MetaVersion.empty]) self) ;;;
        ret (List.length (minecraft self))
    end ;;
  zoom minecraft set_minecraft (at_index file_version (MetaVersion.update E file)).

(** [versions_dir] is the listing of [mojang/versions]. *)
Definition update (E : Env) (versions_dir : list File) : M t bool :=
  let version_json_files := sorted_total String.ltb file_name false versions_dir in
  dirty <- for_dirty version_json_files (update_file E) false ;;
  if dirty
  then
    modify (fun self =>
      set_minecraft (sorted_total Z.ltb MetaVersion.release_time true (minecraft self)) self) ;;;
    ret dirty
  else ret dirty.

(** [latest_commit] and [versions_dir] are the head commit and the
    descriptor directory after the pull. *)
Definition pull_and_update (E : Env) (latest_commit : string) (versions_dir : list File)
  : M t bool :=
  self <- get ;;
  if String.eqb (commit self) latest_commit then ret false
  else
    modify (set_commit latest_commit) ;;;
    update E versions_dir ;;;
    ret true.

End Meta.


(** ** jars.py *)

Definition on_self {S W A : Type} (m : M S A) : M (S * W) A :=
  zoom fst (fun s st => (s, snd st)) m.

Definition on_world {S W A : Type} (m : M W A) : M (S * W) A :=
  zoom snd (fun w st => (fst st, w)) m.

(** [ZipFile.read(name)]: the last entry of that name. *)
Definition zip_read (name : string) (jar_zip : dict (list byte)) : option (list byte) :=
  dict_get name (rev jar_zip).

Definition tab : ascii := "009"%char.

Module JarsJar.

Record t : Type := mk {
  version_id : string;
  version_file_id : string;
  version_release_time : Z;
  jar_key : string;
  jar_sha1_meta : string;
  jar_sha1_local : string;
  jar_filename : string;
  map_filename : string
}.

Definition set_jar_sha1_meta (x : string) (self : t) : t :=
  mk (version_id self) (version_file_id self) (version_release_time self) (jar_key self)
     x (jar_sha1_local self) (jar_filename self) (map_filename self).

Definition set_jar_sha1_local (x : string) (self : t) : t :=
  mk (version_id self) (version_file_id self) (version_release_time self) (jar_key self)
     (jar_sha1_meta self) x (jar_filename self) (map_filename self).

(** Paths are relative to the repository directory; [jar_filename] and
    [map_filename] are plain file names. *)
Definition jar_path (self : t) : string := "mappings/" ++ jar_filename self.

Definition map_path (self : t) : string := "mappings/" ++ map_filename self.

(** [self.jar_path.with_suffix(".bundle.jar")] *)
Definition jar_bundle_path (self : t) : string :=
  "mappings/" ++ with_suffix (jar_filename self) ".bundle.jar".

(** [subprocess.call(["java", "-jar", MAPPINGIO_JAR, "convert", jar_path,
    map_path, "TINY_2"])]: the call is recorded; the converter reads the
    archive and writes the mapping file, or exits with a non-zero code. *)
Definition mappingio (E : Env) (self : t) : M World unit :=
  modify (fun w =>
    {| files := files w;
       requests := requests w;
       conversions := conversions w ++ [(jar_path self, map_path self)] |}) ;;;
  w <- get ;;
  match files w (jar_path self) with
  | None => raise ConversionError
  | Some jar_bytes =>
      match mapping_io E jar_bytes with
      | None => raise ConversionError
      | Some tiny => write_bytes (map_path self) tiny
      end
  end.

(** The condition of the download: the canonical file is missing, or its
    hash differs from the meta hash and the bundle file is missing or differs
    as well. *)
Definition download_needed (E : Env) (meta_jar : MetaJar.t) (self : t) (w : World) : bool :=
  match files w (jar_path self) with
  | None => true
  | Some jar_bytes =>
      negb (String.eqb (MetaJar.sha1 meta_jar) (sha1_hexdigest E jar_bytes))
      && match files w (jar_bundle_path self) with
         | None => true
         | Some bundle_bytes =>
             negb (String.eqb (MetaJar.sha1 meta_jar) (sha1_hexdigest E bundle_bytes))
         end
  end.

(** "download jar if necessary" *)
Definition download (E : Env) (meta_jar : MetaJar.t) (self : t) : M World unit :=
  w <- get ;;
  if download_needed E meta_jar self w
  then
    content <- http_get E (MetaJar.url meta_jar) ;;
    write_bytes (jar_path self) content
  else ret tt.

(** The [with ZipFile(self.jar_path)] block: the value of
    [unbundled_jar_bytes] after it. *)
Definition extract_bundle (E : Env) (self : t) : M World (option (list byte)) :=
  jar_bytes <- read_bytes (jar_path self) ;;
  jar_zip <- lift_option BadZipFile (zip_entries E jar_bytes) ;;
  if existsb (String.eqb "META-INF/versions.list") (dict_keys jar_zip)
  then
    versions_list_bytes <- lift_option (KeyError "META-INF/versions.list")
                             (zip_read "META-INF/versions.list" jar_zip) ;;
    versions_list <- lift_option UnicodeDecodeError (decode_utf8 E versions_list_bytes) ;;
    if Nat.ltb 1 (List.length (splitlines versions_list))
    then raise MultiVersionBundle
    else
      let version_path := split_last tab versions_list in
      unbundled_jar_bytes <- lift_option (KeyError ("META-INF/versions/" ++ version_path))
                               (zip_read ("META-INF/versions/" ++ version_path) jar_zip) ;;
      ret (Some unbundled_jar_bytes)
  else ret None.

(** [if unbundled_jar_bytes:] is false for [None] and for empty bytes. *)
Definition unbundle (self : t) (unbundled_jar_bytes : option (list byte)) : M World unit :=
  match unbundled_jar_bytes with
  | Some (b :: bs) =>
      rename (jar_path self) (jar_bundle_path self) ;;;
      write_bytes (jar_path self) (b :: bs)
  | _ => ret tt
  end.

Definition update (E : Env) (meta_jar : MetaJar.t) : M (t * World) bool :=
  self <- on_self get ;;
  if negb (String.eqb (MetaJar.sha1 meta_jar) (jar_sha1_meta self))
  then
    on_world (download E meta_jar self) ;;;
    unbundled_jar_bytes <- on_world (extract_bundle E self) ;;
    on_world (unbundle self unbundled_jar_bytes) ;;;
    on_world (mappingio E self) ;;;
    on_self (modify (set_jar_sha1_meta (MetaJar.sha1 meta_jar))) ;;;
    local_bytes <- on_world (read_bytes (jar_path self)) ;;
    on_self (modify (set_jar_sha1_local (sha1_hexdigest E local_bytes))) ;;;
    ret true
  else ret false.

Definition from_meta_jar (E : Env) (meta_jar : MetaJar.t) : M World t :=
  fun w =>
    let self :=
      mk (MetaJar.version_id meta_jar) (MetaJar.version_file_id meta_jar)
         (MetaJar.version_release_time meta_jar) (MetaJar.key meta_jar)
         "" "" (MetaJar.filename meta_jar "jar") (MetaJar.filename meta_jar "tiny") in
    match update E meta_jar (self, w) with
    | (Return _, (self', w')) => (Return self', w')
    | (Raise e, (_, w')) => (Raise e, w')
    end.

End JarsJar.

Module Jars.

Record t : Type := mk {
  versions : dict (dict JarsJar.t)
}.

Definition all (self : t) : list JarsJar.t :=
  concat (map (@dict_values JarsJar.t) (dict_values (versions self))).

Definition empty : t := mk [].

Definition mentions (version : string) (jar : JarsJar.t) : bool :=
  String.eqb version (JarsJar.version_id jar)
  || String.eqb version (JarsJar.version_file_id jar).

Definition get_version_release_time (self : t) (version : string) : outcome Z :=
  match find (mentions version) (all self) with
  | Some jar => Return (JarsJar.version_release_time jar)
  | None => Raise (NotFound version)
  end.

(** [self.versions[version] = inner] *)
Definition set_version (version : string) (inner : dict JarsJar.t) (self : t) : t :=
  mk (dict_set version inner (versions self)).

(** [self.versions[version][jar_name].method(...)], a method that works on
    the record and on the world. *)
Definition on_jar {A : Type} (version jar_name : string) (m : M (JarsJar.t * World) A)
  : M (t * World) A :=
  fun st =>
    match dict_get version (versions (fst st)) with
    | None => (Raise (KeyError version), st)
    | Some inner =>
        match dict_get jar_name inner with
        | None => (Raise (KeyError jar_name), st)
        | Some jar =>
            let (r, st') := m (jar, snd st) in
            (r, (set_version version (dict_set jar_name (fst st') inner) (fst st), snd st'))
        end
    end.

(** The body of the loop over [mc_version.jars.items()]. *)
Definition update_jar (E : Env) (version jar_name : string) (meta_jar : MetaJar.t)
  : M (t * World) bool :=
  self <- on_self get ;;
  inner <- lift_option (KeyError version) (dict_get version (versions self)) ;;
  if negb (dict_mem jar_name inner)
  then
    jar <- on_world (JarsJar.from_meta_jar E meta_jar) ;;
    on_self (modify (set_version version (dict_set jar_name jar inner))) ;;;
    ret true
  else
    version_dirty <- on_jar version jar_name (JarsJar.update E meta_jar) ;;
    if version_dirty
    then
      self <- on_self get ;;
      inner <- lift_option (KeyError version) (dict_get version (versions self)) ;;
      on_self (modify (set_version version (Util.sort_dict inner))) ;;;
      ret true
    else ret false.

(** The body of the loop over [reversed(meta.minecraft)]. *)
Definition update_version (E : Env) (mc_version : MetaVersion.t) : M (t * World) bool :=
  self <- on_self get ;;
  dirty <- (if negb (dict_mem (MetaVersion.id mc_version) (versions self))
            then on_self (modify (set_version (MetaVersion.id mc_version) [])) ;;; ret true
            else ret false) ;;
  for_dirty (MetaVersion.jars mc_version)
    (fun item => update_jar E (MetaVersion.id mc_version) (fst item) (snd item)) dirty.

(** [meta] is the snapshot that [Meta.load()] reads. *)
Definition update (E : Env) (meta : Meta.t) : M (t * World) bool :=
  dirty <- for_dirty (rev (Meta.minecraft meta)) (update_version E) false ;;
  if dirty
  then
    self <- on_self get ;;
    sorted_versions <-
      (fun st =>
         (Util.sort_dict_key (fun i => get_version_release_time self (fst i)) true
            (versions self), st)) ;;
    on_self (modify (fun _ => mk sorted_versions)) ;;;
    ret dirty
  else ret dirty.

End Jars.

(** ** index.py *)

Definition BASE_URL : string := "https://jackassmc.github.io/minecraft-jars-java-descriptions".

Module IndexMapping.

Record t : Type := mk {
  version_id : string;
  version_file_id : string;
  version_release_time : Z;
  jar_key : string;
  jar_sha1_meta : string;
  path : string;
  url : string
}.

Definition set_jar_sha1_meta (x : string) (self : t) : t :=
  mk (version_id self) (version_file_id self) (version_release_time self) (jar_key self)
     x (path self) (url self).

Definition set_path (x : string) (self : t) : t :=
  mk (version_id self) (version_file_id self) (version_release_time self) (jar_key self)
     (jar_sha1_meta self) x (url self).

Definition set_url (x : string) (self : t) : t :=
  mk (version_id self) (version_file_id self) (version_release_time self) (jar_key self)
     (jar_sha1_meta self) (path self) x.

Definition from_jar (jar : JarsJar.t) : t :=
  mk (JarsJar.version_id jar) (JarsJar.version_file_id jar)
     (JarsJar.version_release_time jar) (JarsJar.jar_key jar) (JarsJar.jar_sha1_meta jar)
     (JarsJar.map_path jar) (BASE_URL ++ "/" ++ JarsJar.map_path jar).

Definition identity_matches (self : t) (jar : JarsJar.t) : bool :=
  String.eqb (version_id self) (JarsJar.version_id jar)
  && String.eqb (version_file_id self) (JarsJar.version_file_id jar)
  && Z.eqb (version_release_time self) (JarsJar.version_release_time jar)
  && String.eqb (jar_key self) (JarsJar.jar_key jar).

Definition update (jar : JarsJar.t) : M t bool :=
  self <- get ;;
  if negb (identity_matches self jar) then raise IdentityMismatch
  else
    dirty1 <- (if negb (String.eqb (jar_sha1_meta self) (JarsJar.jar_sha1_meta jar))
               then modify (set_jar_sha1_meta (JarsJar.jar_sha1_meta jar)) ;;; ret true
               else ret false) ;;
    dirty2 <- (if negb (String.eqb (path self) (JarsJar.map_path jar))
               then modify (set_path (JarsJar.map_path jar)) ;;; ret true
               else ret dirty1) ;;
    let url' := BASE_URL ++ "/" ++ JarsJar.map_path jar in
    dirty3 <- (if negb (String.eqb (url self) url')
               then modify (set_url url') ;;; ret true
               else ret dirty2) ;;
    ret dirty3.

End IndexMapping.

Module Index.

Record t : Type := mk {
  timestamp : Z;
  mappings : dict (dict IndexMapping.t)
}.

Definition all (self : t) : list IndexMapping.t :=
  concat (map (@dict_values IndexMapping.t) (dict_values (mappings self))).

Definition empty : t := mk MetaVersion.datetime_min [].

(** [save]: the time of the save is stamped; the written document is the
    record itself. *)
Definition save (now : Z) : M t unit := modify (fun self => mk now (mappings self)).

Definition mentions (version : string) (mapping : IndexMapping.t) : bool :=
  String.eqb version (IndexMapping.version_id mapping)
  || String.eqb version (IndexMapping.version_file_id mapping).

Definition get_version_release_time (self : t) (version : string) : outcome Z :=
  match find (mentions version) (all self) with
  | Some mapping => Return (IndexMapping.version_release_time mapping)
  | None => Raise (NotFound version)
  end.

Definition set_version (version : string) (inner : dict IndexMapping.t) (self : t) : t :=
  mk (timestamp self) (dict_set version inner (mappings self)).

(** The body of the loop over [Jars.load(jars_json).all]. *)
Definition update_mapping (jar : JarsJar.t) : M t bool :=
  let version := JarsJar.version_id jar in
  self <- get ;;
  (if negb (dict_mem version (mappings self))
   then modify (set_version version [])
   else ret tt) ;;;
  self <- get ;;
  inner <- lift_option (KeyError version) (dict_get version (mappings self)) ;;
  if negb (dict_mem (JarsJar.jar_key jar) inner)
  then
    modify (set_version version (dict_set (JarsJar.jar_key jar) (IndexMapping.from_jar jar) inner)) ;;;
    ret true
  else
    jar_dirty <- zoom mappings (fun m self => mk (timestamp self) m)
                   (at_key version (at_key (JarsJar.jar_key jar) (IndexMapping.update jar))) ;;
    if jar_dirty
    then
      self <- get ;;
      inner <- lift_option (KeyError version) (dict_get version (mappings self)) ;;
      modify (set_version version (Util.sort_dict inner)) ;;;
      ret true
    else ret false.

(** [jars] is the snapshot that [Jars.load(jars_json)] reads. *)
Definition update (jars : Jars.t) : M t bool :=
  dirty <- for_dirty (Jars.all jars) update_mapping false ;;
  if dirty
  then
    self <- get ;;
    sorted_mappings <-
      (fun st =>
         (Util.sort_dict_key (fun i => get_version_release_time self (fst i)) true
            (mappings self), st)) ;;
    modify (fun self => mk (timestamp self) sorted_mappings) ;;;
    ret dirty
  else ret dirty.

End Index.

(** ** update.py *)

Module Update.

(** The snapshot files [meta.json], [jars.json] and [index.json].  [load]
    parses a snapshot into a store and [save] writes the store as it is, so
    each file is modelled by the store it holds. *)
Record Disk : Type := {
  meta_json : Meta.t;
  jars_json : Jars.t;
  index_json : Index.t
}.

Definition set_meta_json (x : Meta.t) (disk : Disk) : Disk :=
  {| meta_json := x; jars_json := jars_json disk; index_json := index_json disk |}.

Definition set_jars_json (x : Jars.t) (disk : Disk) : Disk :=
  {| meta_json := meta_json disk; jars_json := x; index_json := index_json disk |}.

Definition set_index_json (x : Index.t) (disk : Disk) : Disk :=
  {| meta_json := meta_json disk; jars_json := jars_json disk; index_json := x |}.

(** [obj = Cls.load()] *)
Definition load {A : Type} (file : Disk -> A) : M (Disk * World) A :=
  disk <- on_self get ;;
  ret (file disk).

(** [obj.save()] *)
Definition save {A : Type} (set_file : A -> Disk -> Disk) (obj : A) : M (Disk * World) unit :=
  on_self (modify (set_file obj)).

(** A method call on an object in memory: the result and the object after
    the call.  When the method raises, the program ends and the object is
    lost with it. *)
Definition call {S A B : Type} (m : M A B) (obj : A) : M S (B * A) :=
  fun s =>
    match m obj with
    | (Return b, obj') => (Return (b, obj'), s)
    | (Raise e, _) => (Raise e, s)
    end.

(** The same for a method that works on the file system as well; what it
    did to the file system stays when it raises. *)
Definition call_io {D A B : Type} (m : M (A * World) B) (obj : A) : M (D * World) (B * A) :=
  fun st =>
    match m (obj, snd st) with
    | (Return b, (obj', w')) => (Return (b, obj'), (fst st, w'))
    | (Raise e, (_, w')) => (Raise e, (fst st, w'))
    end.

(** [update(push=False)].  [latest_commit] and [versions_dir] are the head
    commit and the descriptor directory after the pull, [now] is the time
    of the index save.  [Jars.update] loads [meta.json] and [Index.update]
    loads [jars.json], each as the stage before has just saved it. *)
Definition update (E : Env) (latest_commit : string) (versions_dir : list File) (now : Z)
  : M (Disk * World) unit :=
  meta <- load meta_json ;;
  r <- call (Meta.pull_and_update E latest_commit versions_dir) meta ;;
  if fst r
  then
    save set_meta_json (snd r) ;;;
    jars <- load jars_json ;;
    meta_loaded <- load meta_json ;;
    r <- call_io (Jars.update E meta_loaded) jars ;;
    if fst r
    then
      save set_jars_json (snd r) ;;;
      index <- load index_json ;;
      jars_loaded <- load jars_json ;;
      r <- call (Index.update jars_loaded) index ;;
      if fst r
      then
        r <- call (Index.save now) (snd r) ;;
        save set_index_json (snd r)
      else ret tt
    else ret tt
  else ret tt.

End Update.


(** ** Concrete environments for the examples *)

Module Example.

Definition bytes (s : string) : list byte := list_byte_of_string s.

Definition text (b : list byte) : string := string_of_list_byte b.

(** A stand-in for SHA-1 in the examples: injective and never empty. *)
Definition toy_sha1 (b : list byte) : string := "sha1:" ++ text b.

Fixpoint parse_digits (acc : Z) (s : string) : option Z :=
  match s with
  | EmptyString => Some acc
  | String c s' =>
      let n := Z.of_nat (nat_of_ascii c) in
      if ((48 <=? n) && (n <=? 57))%Z then parse_digits (acc * 10 + (n - 48)) s'
      else None
  end.

(** An environment given by tables: the descriptors by file content, the
    web by URL, the archives by content.  Datetimes are written as decimal
    numbers; the converter prefixes its input. *)
Definition toy_env (descriptors : dict VersionJson) (web : dict (list byte))
  (archives : dict (dict (list byte))) : Env :=
  {| sha1_hexdigest := toy_sha1;
     json_load := fun b => dict_get (text b) descriptors;
     fromisoformat := parse_digits 0;
     requests_get := fun url => dict_get url web;
     zip_entries := fun b => dict_get (text b) archives;
     decode_utf8 := fun b => Some (text b);
     mapping_io := fun b => Some (bytes ("tiny:" ++ text b)) |}.

Definition empty_world : World :=
  {| files := fun _ => None; requests := []; conversions := [] |}.

(** A world whose files are given by a table. *)
Definition world_of (fs : dict (list byte)) : World :=
  {| files := fun p => dict_get p fs; requests := []; conversions := [] |}.

(** *** A descriptor directory with one version *)

Definition descriptor_1_20_1 : VersionJson :=
  {| json_id := Some "1.20.1";
     json_releaseTime := Some "7";
     json_downloads :=
       Some [("client", {| dl_sha1 := Some "sha1:jar-1"; dl_url := Some "u1" |});
             ("client_mappings", {| dl_sha1 := Some "m"; dl_url := Some "um" |})] |}.

Definition env1 : Env :=
  toy_env [("d1", descriptor_1_20_1)] [("u1", bytes "jar-1"); ("u2", bytes "jar-2")]
    [("jar-1", []); ("jar-2", [])].

Definition dir1 : list File :=
  [{| file_name := "1.20.1.json"; file_bytes := bytes "d1" |}].

Definition meta_jar_1_20_1 : MetaJar.t :=
  MetaJar.mk "1.20.1" "1.20.1" 7 "client" "sha1:jar-1" "u1".

Definition meta_version_1_20_1 : MetaVersion.t :=
  MetaVersion.mk "1.20.1" "1.20.1" 7 "sha1:d1" [("client", meta_jar_1_20_1)].

(** *** A record reconciled against data of another version *)

Definition jar_1_20_1 : JarsJar.t :=
  JarsJar.mk "1.20.1" "1.20.1" 7 "client" "sha1:jar-1" "sha1:jar-1"
    "1.20.1-client.jar" "1.20.1-client.tiny".

Definition meta_jar_other : MetaJar.t :=
  MetaJar.mk "1.19" "1.19-pre" 9 "server" "sha1:jar-2" "u2".

(** *** Worlds for the download condition *)

Definition fresh_jar_1_20_1 : JarsJar.t :=
  JarsJar.mk "1.20.1" "1.20.1" 7 "client" "" "" "1.20.1-client.jar" "1.20.1-client.tiny".

Definition world_bundle_only : World :=
  world_of [("mappings/1.20.1-client.bundle.jar", bytes "jar-1")].

Definition world_canonical : World :=
  world_of [("mappings/1.20.1-client.jar", bytes "jar-1")].

(** *** Bundles *)

Definition manifest_line (path : string) : string :=
  "h" ++ String tab ("1.20.1" ++ String tab path).

Definition manifest_one : string := manifest_line "server-1.20.1.jar".

Definition manifest_two : string :=
  manifest_line "server-1.20.1.jar" ++ String "010"%char (manifest_line "server-1.20.2.jar").

(** [bundle-1] names one inner archive, [bundle-2] names two, and the inner
    entry that [bundle-0] names is empty. *)
Definition env_bundles : Env :=
  toy_env []
    [("us1", bytes "bundle-1"); ("us2", bytes "bundle-2"); ("us0", bytes "bundle-0")]
    [("bundle-1", [("META-INF/versions.list", bytes manifest_one);
                   ("META-INF/versions/server-1.20.1.jar", bytes "inner-1")]);
     ("bundle-2", [("META-INF/versions.list", bytes manifest_two);
                   ("META-INF/versions/server-1.20.1.jar", bytes "inner-1");
                   ("META-INF/versions/server-1.20.2.jar", bytes "inner-2")]);
     ("bundle-0", [("META-INF/versions.list", bytes manifest_one);
                   ("META-INF/versions/server-1.20.1.jar", [])]);
     ("inner-1", [])].

Definition fresh_server : JarsJar.t :=
  JarsJar.mk "1.20.1" "1.20.1" 7 "server" "" "" "1.20.1-server.jar" "1.20.1-server.tiny".

Definition meta_server (n : string) : MetaJar.t :=
  MetaJar.mk "1.20.1" "1.20.1" 7 "server" ("sha1:bundle-" ++ n) ("us" ++ n).

Definition world_with_bundle (n : string) : World :=
  world_of [("mappings/1.20.1-server.jar", bytes ("bundle-" ++ n))].

(** *** Stores *)

(** Every URL [u-x] serves the plain archive [jar-x]. *)
Definition env_store : Env :=
  toy_env []
    [("u-a", bytes "jar-a"); ("u-b", bytes "jar-b"); ("u-c", bytes "jar-c");
     ("u-s", bytes "jar-s"); ("u-w", bytes "jar-w")]
    [("jar-a", []); ("jar-b", []); ("jar-c", []); ("jar-s", []); ("jar-w", [])].

Definition meta_jar_of (version file : string) (time : Z) (key content : string)
  : MetaJar.t :=
  MetaJar.mk version file time key ("sha1:jar-" ++ content) ("u-" ++ content).

Definition jar_of (version file : string) (time : Z) (key content : string) : JarsJar.t :=
  JarsJar.mk version file time key ("sha1:jar-" ++ content) ("sha1:jar-" ++ content)
    (version ++ "-" ++ key ++ ".jar") (version ++ "-" ++ key ++ ".tiny").

(** A version without any allow-listed download. *)
Definition meta_empty_version : Meta.t :=
  Meta.mk "c" [MetaVersion.mk "1.0" "1.0" 3 "sha1:d" []].

(** Version 1.0 was stored with its client and Windows server archives; the
    descriptor now lists a server archive as well. *)
Definition meta_server_added : Meta.t :=
  Meta.mk "c"
    [MetaVersion.mk "1.0" "1.0" 3 "sha1:d"
       [("client", meta_jar_of "1.0" "1.0" 3 "client" "c");
        ("server", meta_jar_of "1.0" "1.0" 3 "server" "s");
        ("windows_server", meta_jar_of "1.0" "1.0" 3 "windows_server" "w")]].

Definition jars_without_server : Jars.t :=
  Jars.mk [("1.0", [("client", jar_of "1.0" "1.0" 3 "client" "c");
                    ("windows_server", jar_of "1.0" "1.0" 3 "windows_server" "w")])].

Definition world_without_server : World :=
  world_of [("mappings/1.0-client.jar", bytes "jar-c");
            ("mappings/1.0-windows_server.jar", bytes "jar-w")].

(** The store holds 1.0 with release time 10 and 2.0 with release time 20;
    the Meta snapshot dates 1.0 at 30 and brings the new version 3.0. *)
Definition meta_redated : Meta.t :=
  Meta.mk "c"
    [MetaVersion.mk "1.0" "1.0" 30 "sha1:d1" [("client", meta_jar_of "1.0" "1.0" 30 "client" "a")];
     MetaVersion.mk "2.0" "2.0" 20 "sha1:d2" [("client", meta_jar_of "2.0" "2.0" 20 "client" "b")];
     MetaVersion.mk "3.0" "3.0" 5 "sha1:d3" [("client", meta_jar_of "3.0" "3.0" 5 "client" "c")]].

Definition jars_dated : Jars.t :=
  Jars.mk [("2.0", [("client", jar_of "2.0" "2.0" 20 "client" "b")]);
           ("1.0", [("client", jar_of "1.0" "1.0" 10 "client" "a")])].

(** Version 1.0 is published under two descriptor files whose client
    archives differ. *)
Definition meta_refiled : Meta.t :=
  Meta.mk "c"
    [MetaVersion.mk "1.0" "1.0" 3 "sha1:d1" [("client", meta_jar_of "1.0" "1.0" 3 "client" "a")];
     MetaVersion.mk "1.0" "1.0-re" 3 "sha1:d2"
       [("client", meta_jar_of "1.0" "1.0-re" 3 "client" "b")]].

(** *** Inputs that name an item twice *)

Definition descriptor_1_0 (content : string) : VersionJson :=
  {| json_id := Some "1.0";
     json_releaseTime := Some "3";
     json_downloads :=
       Some [("client", {| dl_sha1 := Some ("sha1:jar-" ++ content);
                           dl_url := Some ("u-" ++ content) |})] |}.

Definition env_two_files : Env :=
  toy_env [("d-a", descriptor_1_0 "a"); ("d-b", descriptor_1_0 "b")] [] [].

(** A descriptor and a backup copy of an older revision of it: two files
    of the stem [1.0]. *)
Definition dir_same_stem : list File :=
  [{| file_name := "1.0.json"; file_bytes := bytes "d-b" |};
   {| file_name := "1.0.bak"; file_bytes := bytes "d-a" |}].

(** A store that holds two versions of the file id [1.0]. *)
Definition meta_same_file_id : Meta.t :=
  Meta.mk "c"
    [MetaVersion.mk "1.0" "1.0" 1 "sha1:d-0" [];
     MetaVersion.mk "1.0" "1.0" 5 "sha1:d-1" []].

Definition dir_one_file : list File :=
  [{| file_name := "1.0.json"; file_bytes := bytes "d-a" |}].

(** A Jars snapshot with two records of version id [1.0] and key [client]. *)
Definition jars_same_key : Jars.t :=
  Jars.mk [("1.0", [("client", jar_of "1.0" "1.0" 3 "client" "a")]);
           ("1.0-re", [("client", jar_of "1.0" "1.0" 3 "client" "b")])].

End Example.

Unset Implicit Arguments.

(** ** Predicates used in the statements *)

(** The descriptor can be read in full: it parses, carries an id, a release
    time and a ["downloads"] object, and every allow-listed download has a
    hash and a URL. *)
Definition descriptor_reads (E : Env) (file : File) (id : string) (release_time : Z)
  (downloads : dict Download) : Prop :=
  exists data release_time_text,
    json_load E (file_bytes file) = Some data
    /\ json_id data = Some id
    /\ json_releaseTime data = Some release_time_text
    /\ fromisoformat E release_time_text = Some release_time
    /\ json_downloads data = Some downloads
    /\ forall name d, In (name, d) downloads -> In name JAR_NAMES ->
         dl_sha1 d <> None /\ dl_url d <> None.

(** Every allow-listed record of the version carries the given identity. *)
Definition jars_identity (id file_id : string) (release_time : Z) (jars : dict MetaJar.t)
  : Prop :=
  forall k j, In (k, j) jars -> In k JAR_NAMES ->
    MetaJar.identity_matches j id file_id release_time k = true.

(** The update with the gate open, step by step. *)
Definition JarsJar_update_steps (E : Env) (meta_jar : MetaJar.t) (self : JarsJar.t)
  (w : World) : outcome bool * (JarsJar.t * World) :=
  match JarsJar.download E meta_jar self w with
  | (Raise e, w1) => (Raise e, (self, w1))
  | (Return _, w1) =>
      match JarsJar.extract_bundle E self w1 with
      | (Raise e, w2) => (Raise e, (self, w2))
      | (Return unbundled_jar_bytes, w2) =>
          match JarsJar.unbundle self unbundled_jar_bytes w2 with
          | (Raise e, w3) => (Raise e, (self, w3))
          | (Return _, w3) =>
              match JarsJar.mappingio E self w3 with
              | (Raise e, w4) => (Raise e, (self, w4))
              | (Return _, w4) =>
                  let self1 := JarsJar.set_jar_sha1_meta (MetaJar.sha1 meta_jar) self in
                  match files w4 (JarsJar.jar_path self) with
                  | None =>
                      (Raise (FileNotFoundError (JarsJar.jar_path self)), (self1, w4))
                  | Some local_bytes =>
                      (Return true,
                       (JarsJar.set_jar_sha1_local (sha1_hexdigest E local_bytes) self1, w4))
                  end
              end
          end
      end
  end.


(** The file at path [p] holds content whose SHA-1 is [sha1]. *)
Definition holds_content (E : Env) (sha1 : string) (p : string) (w : World) : Prop :=
  exists b, files w p = Some b /\ sha1_hexdigest E b = sha1.

(** The unwrap of [JarsJar.update]: the archive is inspected and, when it is
    a bundle, renamed aside and replaced by its inner archive. *)
Definition JarsJar_unwrap (E : Env) (self : JarsJar.t) : M World unit :=
  unbundled_jar_bytes <- JarsJar.extract_bundle E self ;;
  JarsJar.unbundle self unbundled_jar_bytes.

(** Modelled on the words of the specification ("looked up via MetaStore"):
    the release time of a version as the Meta snapshot records it. *)
Definition meta_release_time (meta : Meta.t) (version : string) : outcome Z :=
  match find (fun v => String.eqb (MetaVersion.id v) version) (Meta.minecraft meta) with
  | Some v => Return (MetaVersion.release_time v)
  | None => Raise (NotFound version)
  end.

(** The pass of [Jars.update] over the versions of the Meta snapshot, before
    the final sort. *)
Definition Jars_update_pass (E : Env) (meta : Meta.t) : M (Jars.t * World) bool :=
  for_dirty (rev (Meta.minecraft meta)) (Jars.update_version E) false.

(** A Meta snapshot with other version-level release times. *)
Definition restamp (f : MetaVersion.t -> Z) (meta : Meta.t) : Meta.t :=
  Meta.mk (Meta.commit meta)
    (map (fun v => MetaVersion.set_release_time (f v) v) (Meta.minecraft meta)).

(** The store holds a version for the descriptor file, with its hash. *)
Definition Meta_settled (E : Env) (file : File) (vs : list MetaVersion.t) : Prop :=
  exists v,
    In v vs
    /\ MetaVersion.file_id v = file_stem file
    /\ MetaVersion.sha1 v = sha1_hexdigest E (file_bytes file).

(** The index holds, under the version id and the key of the archive record,
    the mapping derived from it. *)
Definition Index_settled (jar : JarsJar.t) (mappings : dict (dict IndexMapping.t)) : Prop :=
  exists inner,
    dict_get (JarsJar.version_id jar) mappings = Some inner
    /\ dict_get (JarsJar.jar_key jar) inner = Some (IndexMapping.from_jar jar).

(** The identity under which [Index.update] files an archive record. *)
Definition Index_key (jar : JarsJar.t) : string * string :=
  (JarsJar.version_id jar, JarsJar.jar_key jar).

(** [ms'] is [ms] with the entry [key] of the inner map of [version] set to
    [x]; every other lookup, at both levels, is as before. *)
Definition dict2_updated {V : Type} (version key : string) (x : V)
  (ms ms' : dict (dict V)) : Prop :=
  (forall v, v <> version -> dict_get v ms' = dict_get v ms)
  /\ exists inner',
       dict_get version ms' = Some inner'
       /\ dict_get key inner' = Some x
       /\ forall k, k <> key ->
            dict_get k inner'
            = match dict_get version ms with
              | Some inner => dict_get k inner
              | None => None
              end.

(** The store holds, under the version and the key of the item, a record
    whose recorded upstream hash is the hash of the Meta record. *)
Definition Jars_settled (version : string) (item : string * MetaJar.t)
  (vs : dict (dict JarsJar.t)) : Prop :=
  exists inner jar,
    dict_get version vs = Some inner
    /\ dict_get (fst item) inner = Some jar
    /\ JarsJar.jar_sha1_meta jar = MetaJar.sha1 (snd item).

Definition Jars_version_settled (mc_version : MetaVersion.t) (vs : dict (dict JarsJar.t))
  : Prop :=
  (exists inner, dict_get (MetaVersion.id mc_version) vs = Some inner)
  /\ forall item, In item (MetaVersion.jars mc_version) ->
       Jars_settled (MetaVersion.id mc_version) item vs.

(** The fields other than [jars] that an iteration of the loop leaves alone. *)
Definition same_header (a b : MetaVersion.t) : Prop :=
  MetaVersion.id b = MetaVersion.id a
  /\ MetaVersion.file_id b = MetaVersion.file_id a
  /\ MetaVersion.release_time b = MetaVersion.release_time a
  /\ MetaVersion.sha1 b = MetaVersion.sha1 a.

(** ** Predicates of the further properties *)

(** [has_sort_key key t x]: the sort key of [x] is found and is [t]. *)
Definition has_sort_key {X : Type} (key : X -> outcome Z) (t : Z) (x : X) : bool :=
  match key x with
  | Return z => Z.eqb z t
  | Raise _ => false
  end.

(** The fields of an archive record that only its construction sets. *)
Definition JarsJar_same_identity (a b : JarsJar.t) : Prop :=
  JarsJar.version_id b = JarsJar.version_id a
  /\ JarsJar.version_file_id b = JarsJar.version_file_id a
  /\ JarsJar.version_release_time b = JarsJar.version_release_time a
  /\ JarsJar.jar_key b = JarsJar.jar_key a
  /\ JarsJar.jar_filename b = JarsJar.jar_filename a
  /\ JarsJar.map_filename b = JarsJar.map_filename a.

(** Every record of [vs] is in [vs'] under the same version and key, with
    the same identity. *)
Definition Jars_extends (vs vs' : dict (dict JarsJar.t)) : Prop :=
  forall version inner key jar,
    dict_get version vs = Some inner ->
    dict_get key inner = Some jar ->
    exists inner' jar',
      dict_get version vs' = Some inner'
      /\ dict_get key inner' = Some jar'
      /\ JarsJar_same_identity jar jar'.

(** The loop of [Index.update], before the final sort. *)
Definition Index_update_pass (jars : Jars.t) : M Index.t bool :=
  for_dirty (Jars.all jars) Index.update_mapping false.

(** The requests made between two worlds all satisfy [allowed]. *)
Definition fetched_only (allowed : string -> Prop) (w w' : World) : Prop :=
  exists fetched,
    requests w' = (requests w ++ fetched)%list /\ Forall allowed fetched.

(** The URL is the one of an archive of the Meta snapshot. *)
Definition Meta_url (meta : Meta.t) (url : string) : Prop :=
  exists mc_version jar_name meta_jar,
    In mc_version (Meta.minecraft meta)
    /\ In (jar_name, meta_jar) (MetaVersion.jars mc_version)
    /\ MetaJar.url meta_jar = url.

(** Lookup through both levels of a map of maps. *)
Definition dict2_get {V : Type} (version key : string) (ms : dict (dict V)) : option V :=
  match dict_get version ms with
  | Some inner => dict_get key inner
  | None => None
  end.

(** [Index.update] files the archive record under this version and key. *)
Definition Index_files_under (version key : string) (jar : JarsJar.t) : bool :=
  String.eqb (JarsJar.version_id jar) version && String.eqb (JarsJar.jar_key jar) key.

(** The loop of [Meta.update], before the final sort. *)
Definition Meta_update_pass (E : Env) (versions_dir : list File) : M Meta.t bool :=
  for_dirty (sorted_total String.ltb file_name false versions_dir) (Meta.update_file E) false.

(** [update], stage by stage: what the run returns and leaves behind, given
    the outcome of each stage. *)
Definition Update_stages (E : Env) (latest_commit : string) (versions_dir : list File)
  (now : Z) (disk : Update.Disk) (w : World) : outcome unit * (Update.Disk * World) :=
  match Meta.pull_and_update E latest_commit versions_dir (Update.meta_json disk) with
  | (Raise e, _) => (Raise e, (disk, w))
  | (Return false, _) => (Return tt, (disk, w))
  | (Return true, meta) =>
      let disk1 := Update.set_meta_json meta disk in
      match Jars.update E meta (Update.jars_json disk, w) with
      | (Raise e, (_, w1)) => (Raise e, (disk1, w1))
      | (Return false, (_, w1)) => (Return tt, (disk1, w1))
      | (Return true, (jars, w1)) =>
          let disk2 := Update.set_jars_json jars disk1 in
          match Index.update jars (Update.index_json disk) with
          | (Raise e, _) => (Raise e, (disk2, w1))
          | (Return false, _) => (Return tt, (disk2, w1))
          | (Return true, index) =>
              (Return tt,
               (Update.set_index_json (Index.mk now (Index.mappings index)) disk2, w1))
          end
      end
  end.

(** * Properties *)

(** ** Record-level reconcile: identity fields *)

Lemma MetaJar_update_kwargs_mismatch (self : MetaJar.t)
  (version_id version_file_id : string) (version_release_time : Z) (key sha1 url : string) :
  MetaJar.identity_matches self version_id version_file_id version_release_time key = false ->
  MetaJar.update_kwargs version_id version_file_id version_release_time key sha1 url self
  = (Raise IdentityMismatch, self).
Proof.
  intros H. unfold MetaJar.update_kwargs, bind, get. rewrite H. reflexivity.
Qed.

Lemma MetaJar_identity_matches_false (self meta_jar : MetaJar.t) :
  MetaJar.version_id meta_jar <> MetaJar.version_id self
  \/ MetaJar.version_file_id meta_jar <> MetaJar.version_file_id self
  \/ MetaJar.version_release_time meta_jar <> MetaJar.version_release_time self
  \/ MetaJar.key meta_jar <> MetaJar.key self ->
  MetaJar.identity_matches self (MetaJar.version_id meta_jar)
    (MetaJar.version_file_id meta_jar) (MetaJar.version_release_time meta_jar)
    (MetaJar.key meta_jar) = false.
Proof.
  intros H. unfold MetaJar.identity_matches.
  repeat rewrite andb_false_iff.
  destruct H as [H | [H | [H | H]]].
  - left. left. left. apply String.eqb_neq. congruence.
  - left. left. right. apply String.eqb_neq. congruence.
  - left. right. apply Z.eqb_neq. congruence.
  - right. apply String.eqb_neq. congruence.
Qed.

Lemma IndexMapping_identity_matches_false (self : IndexMapping.t) (jar : JarsJar.t) :
  JarsJar.version_id jar <> IndexMapping.version_id self
  \/ JarsJar.version_file_id jar <> IndexMapping.version_file_id self
  \/ JarsJar.version_release_time jar <> IndexMapping.version_release_time self
  \/ JarsJar.jar_key jar <> IndexMapping.jar_key self ->
  IndexMapping.identity_matches self jar = false.
Proof.
  intros H. unfold IndexMapping.identity_matches.
  repeat rewrite andb_false_iff.
  destruct H as [H | [H | [H | H]]].
  - left. left. left. apply String.eqb_neq. congruence.
  - left. left. right. apply String.eqb_neq. congruence.
  - left. right. apply Z.eqb_neq. congruence.
  - right. apply String.eqb_neq. congruence.
Qed.

(** C3 (as amended): [MetaJar.update] and [IndexMapping.update] raise the
    identity-mismatch error as soon as the version id, the version-file id,
    the release time or the key of the incoming data differs from the
    record's, and the record after the raise is the record before the call. *)
Theorem identity_mismatch_raises_without_mutation :
  (forall self meta_jar : MetaJar.t,
      MetaJar.version_id meta_jar <> MetaJar.version_id self
      \/ MetaJar.version_file_id meta_jar <> MetaJar.version_file_id self
      \/ MetaJar.version_release_time meta_jar <> MetaJar.version_release_time self
      \/ MetaJar.key meta_jar <> MetaJar.key self ->
      MetaJar.update meta_jar self = (Raise IdentityMismatch, self))
  /\ (forall (self : IndexMapping.t) (jar : JarsJar.t),
      JarsJar.version_id jar <> IndexMapping.version_id self
      \/ JarsJar.version_file_id jar <> IndexMapping.version_file_id self
      \/ JarsJar.version_release_time jar <> IndexMapping.version_release_time self
      \/ JarsJar.jar_key jar <> IndexMapping.jar_key self ->
      IndexMapping.update jar self = (Raise IdentityMismatch, self)).
Proof.
  split.
  - intros self meta_jar H. unfold MetaJar.update.
    apply MetaJar_update_kwargs_mismatch, MetaJar_identity_matches_false, H.
  - intros self jar H. unfold IndexMapping.update, bind, get.
    rewrite (IndexMapping_identity_matches_false self jar H). reflexivity.
Qed.

Lemma identity_mismatch_raises_without_mutation_witness :
  MetaJar.update
    (MetaJar.mk "1.20.2" "1.20.1" 7 "client" "h2" "u2")
    (MetaJar.mk "1.20.1" "1.20.1" 7 "client" "h1" "u1")
  = (Raise IdentityMismatch, MetaJar.mk "1.20.1" "1.20.1" 7 "client" "h1" "u1")
  /\ IndexMapping.update
       (JarsJar.mk "1.20.1" "1.20.1" 7 "server" "h2" "l2" "a.jar" "a.tiny")
       (IndexMapping.mk "1.20.1" "1.20.1" 7 "client" "h1" "p" "u")
     = (Raise IdentityMismatch, IndexMapping.mk "1.20.1" "1.20.1" 7 "client" "h1" "p" "u").
Proof.
  split.
  - apply (proj1 identity_mismatch_raises_without_mutation).
    left. simpl. discriminate.
  - apply (proj2 identity_mismatch_raises_without_mutation).
    right. right. right. simpl. discriminate.
Defined.

(** C3, as stated, fails for [JarsJar.update]: reconciled against data whose
    version id, version-file id, release time and key all differ from the
    record's, it raises nothing, returns dirty and overwrites the recorded
    hashes. *)
Lemma JarsJar_update_ignores_identity :
  MetaJar.version_id Example.meta_jar_other <> JarsJar.version_id Example.jar_1_20_1
  /\ MetaJar.version_file_id Example.meta_jar_other
     <> JarsJar.version_file_id Example.jar_1_20_1
  /\ MetaJar.version_release_time Example.meta_jar_other
     <> JarsJar.version_release_time Example.jar_1_20_1
  /\ MetaJar.key Example.meta_jar_other <> JarsJar.jar_key Example.jar_1_20_1
  /\ ~ (fst (JarsJar.update Example.env1 Example.meta_jar_other
               (Example.jar_1_20_1, Example.empty_world)) = Raise IdentityMismatch
        /\ fst (snd (JarsJar.update Example.env1 Example.meta_jar_other
                       (Example.jar_1_20_1, Example.empty_world))) = Example.jar_1_20_1).
Proof.
  repeat split; try (vm_compute; discriminate).
  intros [H _]. vm_compute in H. discriminate.
Qed.

Example JarsJar_update_other_identity_run :
  let r := JarsJar.update Example.env1 Example.meta_jar_other
             (Example.jar_1_20_1, Example.empty_world) in
  fst r = Return true
  /\ fst (snd r)
     = JarsJar.mk "1.20.1" "1.20.1" 7 "client" "sha1:jar-2" "sha1:jar-2"
         "1.20.1-client.jar" "1.20.1-client.tiny".
Proof. vm_compute. split; reflexivity. Qed.

(** ** Meta: the commit gate of [pull_and_update] *)

Ltac munfold :=
  unfold lift_option, on_self, on_world, at_index, at_key, zoom, bind, ret, raise, get,
    modify in *.

(** A property of the state that every iteration keeps is kept by the loop. *)
Lemma for_dirty_preserves {S X : Type} (P : S -> Prop) (body : X -> M S bool) (xs : list X) :
  (forall x s r s', In x xs -> body x s = (r, s') -> P s -> P s') ->
  forall dirty s r s', for_dirty xs body dirty s = (r, s') -> P s -> P s'.
Proof.
  induction xs as [| x xs IH]; intros Hbody dirty s r s' Hrun Hs.
  - simpl in Hrun. munfold. congruence.
  - simpl in Hrun. unfold bind in Hrun.
    destruct (body x s) as [[d | e] s1] eqn:Hx.
    + eapply IH; [| exact Hrun |].
      * intros y t r0 t' Hy. apply Hbody. right. exact Hy.
      * eapply Hbody; [left; reflexivity | exact Hx | exact Hs].
    + inversion Hrun; subst. eapply Hbody; [left; reflexivity | exact Hx | exact Hs].
Qed.

Lemma Meta_update_file_commit (E : Env) (file : File) (self : Meta.t) r self' :
  Meta.update_file E file self = (r, self') -> Meta.commit self' = Meta.commit self.
Proof.
  unfold Meta.update_file. munfold. intros H.
  destruct (Meta.find_version (file_stem file) (Meta.minecraft self));
    simpl in H;
    match type of H with
    | context [nth_error ?l ?i] => destruct (nth_error l i)
    end;
    try match type of H with
    | context [MetaVersion.update ?E ?f ?v] => destruct (MetaVersion.update E f v)
    end;
    inversion H; reflexivity.
Qed.

Lemma Meta_update_commit (E : Env) (versions_dir : list File) (self : Meta.t) r self' :
  Meta.update E versions_dir self = (r, self') -> Meta.commit self' = Meta.commit self.
Proof.
  unfold Meta.update. unfold bind at 1. intros H.
  destruct (for_dirty _ _ false self) as [[d | e] s1] eqn:Hloop.
  - assert (Hs1 : Meta.commit s1 = Meta.commit self).
    { eapply (for_dirty_preserves (fun s => Meta.commit s = Meta.commit self));
        [| exact Hloop | reflexivity].
      intros x s r0 s0 _ Hx Hs. rewrite <- Hs. eapply Meta_update_file_commit, Hx. }
    destruct d; munfold; inversion H; subst; simpl; exact Hs1.
  - inversion H; subst.
    eapply (for_dirty_preserves (fun s => Meta.commit s = Meta.commit self));
      [| exact Hloop | reflexivity].
    intros x s r0 s0 _ Hx Hs. rewrite <- Hs. eapply Meta_update_file_commit, Hx.
Qed.

(** C9: after the pull, [Meta.pull_and_update] returns not-dirty and leaves
    the whole store as it was when the head commit equals the stored one.
    When it differs, the new hash is stored, [Meta.update] runs over the
    descriptor files on the re-stamped store, and whenever that run returns
    (dirty or not) the result is dirty; the store then carries the new
    commit hash.  An exception of the reconcile propagates. *)
Theorem pull_and_update_commit_gate (E : Env) (latest_commit : string)
  (versions_dir : list File) (self : Meta.t) :
  (Meta.commit self = latest_commit ->
   Meta.pull_and_update E latest_commit versions_dir self = (Return false, self))
  /\ (Meta.commit self <> latest_commit ->
      forall r self',
        Meta.update E versions_dir (Meta.set_commit latest_commit self) = (r, self') ->
        Meta.pull_and_update E latest_commit versions_dir self
        = (match r with Return _ => Return true | Raise e => Raise e end, self')
        /\ Meta.commit self' = latest_commit).
Proof.
  split.
  - intros H. unfold Meta.pull_and_update. munfold.
    apply String.eqb_eq in H. rewrite H. reflexivity.
  - intros H r self' Hupd. split.
    + unfold Meta.pull_and_update. munfold.
      apply String.eqb_neq in H. rewrite H. rewrite Hupd. destruct r; reflexivity.
    + apply Meta_update_commit in Hupd. rewrite Hupd. reflexivity.
Qed.

Lemma pull_and_update_commit_gate_witness :
  Meta.pull_and_update Example.env1 "c1" Example.dir1
    (Meta.mk "c1" [Example.meta_version_1_20_1])
  = (Return false, Meta.mk "c1" [Example.meta_version_1_20_1])
  /\ Meta.pull_and_update Example.env1 "c2" Example.dir1
       (Meta.mk "c1" [Example.meta_version_1_20_1])
     = (Return true, Meta.mk "c2" [Example.meta_version_1_20_1]).
Proof.
  split.
  - apply (proj1 (pull_and_update_commit_gate Example.env1 "c1" Example.dir1
                    (Meta.mk "c1" [Example.meta_version_1_20_1]))).
    reflexivity.
  - apply (proj2 (pull_and_update_commit_gate Example.env1 "c2" Example.dir1
                    (Meta.mk "c1" [Example.meta_version_1_20_1]))
             ltac:(simpl; discriminate) (Return false)).
    vm_compute. reflexivity.
Defined.

(** ** The stable sort: permutation, lookups, order *)

Section SortingFacts.
Variables X K : Type.
Variable lt : K -> K -> bool.

Lemma insert_sorted_perm (reverse : bool) (x : K * X) (l : list (K * X)) :
  Permutation (insert_sorted lt reverse x l) (x :: l).
Proof.
  induction l as [| y l IH]; simpl.
  - apply Permutation_refl.
  - destruct (stays_ahead lt reverse y x).
    + eapply Permutation_trans; [apply perm_skip, IH | apply perm_swap].
    + apply Permutation_refl.
Qed.

Lemma sort_decorated_perm (reverse : bool) (l : list (K * X)) :
  Permutation (sort_decorated lt reverse l) l.
Proof.
  induction l as [| x l IH]; simpl.
  - apply perm_nil.
  - eapply Permutation_trans; [apply insert_sorted_perm | apply perm_skip, IH].
Qed.

Lemma sorted_total_perm (key : X -> K) (reverse : bool) (xs : list X) :
  Permutation (sorted_total lt key reverse xs) xs.
Proof.
  unfold sorted_total.
  eapply Permutation_trans; [apply Permutation_map, sort_decorated_perm |].
  rewrite map_map. simpl. rewrite map_id. apply Permutation_refl.
Qed.

Lemma decorate_Return (key : X -> outcome K) (xs : list X) (l : list (K * X)) :
  decorate key xs = Return l ->
  map snd l = xs /\ Forall (fun p => key (snd p) = Return (fst p)) l.
Proof.
  revert l. induction xs as [| x xs IH]; simpl; intros l H.
  - inversion H. split; [reflexivity | constructor].
  - destruct (key x) as [k | e] eqn:Hk; [| discriminate].
    destruct (decorate key xs) as [l' | e]; [| discriminate].
    inversion H; subst. destruct (IH l' eq_refl) as [Hm Hf].
    split; simpl; [congruence | constructor; [exact Hk | exact Hf]].
Qed.

Hypothesis lt_asym : forall a b, lt a b = true -> lt b a = false.
Hypothesis lt_trans_neg :
  forall a b c, lt b a = false -> lt c b = false -> lt c a = false.

Lemma insert_sorted_order (reverse : bool) (x : K * X) (l : list (K * X)) :
  StronglySorted (in_order lt reverse) l ->
  StronglySorted (in_order lt reverse) (insert_sorted lt reverse x l).
Proof.
  induction l as [| y l IH]; simpl; intros Hs.
  - constructor; [constructor | constructor].
  - apply StronglySorted_inv in Hs. destruct Hs as [Hl Hy].
    destruct (stays_ahead lt reverse y x) eqn:Hyx.
    + constructor; [apply IH, Hl |].
      assert (Hin : Forall (in_order lt reverse y) (x :: l)).
      { constructor; [| exact Hy].
        unfold in_order, stays_ahead in *. destruct reverse; apply lt_asym, Hyx. }
      eapply Permutation_Forall; [| exact Hin].
      apply Permutation_sym, insert_sorted_perm.
    + constructor; [constructor; assumption |].
      constructor; [exact Hyx |].
      eapply Forall_impl; [| exact Hy].
      intros z Hz. unfold in_order, stays_ahead in *.
      destruct reverse; eapply lt_trans_neg; eassumption.
Qed.

Lemma sort_decorated_order (reverse : bool) (l : list (K * X)) :
  StronglySorted (in_order lt reverse) (sort_decorated lt reverse l).
Proof.
  induction l as [| x l IH]; simpl.
  - constructor.
  - apply insert_sorted_order, IH.
Qed.

End SortingFacts.

Lemma Z_ltb_asym (a b : Z) : Z.ltb a b = true -> Z.ltb b a = false.
Proof. intros H. apply Z.ltb_lt in H. apply Z.ltb_ge. lia. Qed.

Lemma Z_ltb_trans_neg (a b c : Z) :
  Z.ltb b a = false -> Z.ltb c b = false -> Z.ltb c a = false.
Proof. rewrite !Z.ltb_ge. lia. Qed.

(** ** Dicts: lookups and assignments *)

Section DictFacts.
Variable V : Type.

Lemma dict_get_set_same (k : string) (v : V) (d : dict V) :
  dict_get k (dict_set k v d) = Some v.
Proof.
  induction d as [| [k' v'] d IH]; simpl.
  - rewrite String.eqb_refl. reflexivity.
  - destruct (String.eqb k' k) eqn:Hk; simpl; rewrite Hk; [reflexivity | exact IH].
Qed.

Lemma dict_get_set_other (k k' : string) (v : V) (d : dict V) :
  k <> k' -> dict_get k' (dict_set k v d) = dict_get k' d.
Proof.
  intros Hne. induction d as [| [k0 v0] d IH]; simpl.
  - apply String.eqb_neq in Hne. rewrite Hne. reflexivity.
  - destruct (String.eqb k0 k) eqn:Hk; simpl.
    + apply String.eqb_eq in Hk. subst k0.
      apply String.eqb_neq in Hne. rewrite Hne. reflexivity.
    + destruct (String.eqb k0 k'); [reflexivity | exact IH].
Qed.

(** Assigning the value a key already has changes nothing. *)
Lemma dict_set_get_id (k : string) (v : V) (d : dict V) :
  dict_get k d = Some v -> dict_set k v d = d.
Proof.
  induction d as [| [k' v'] d IH]; simpl; intros H.
  - discriminate.
  - destruct (String.eqb k' k) eqn:Hk.
    + inversion H. reflexivity.
    + rewrite IH by exact H. reflexivity.
Qed.

Lemma dict_set_In (k : string) (v : V) (d : dict V) (x : string * V) :
  In x (dict_set k v d) -> x = (k, v) \/ In x d.
Proof.
  induction d as [| [k' v'] d IH]; simpl; intros H.
  - destruct H as [H | []]. left. congruence.
  - destruct (String.eqb k' k) eqn:Hk; simpl in H.
    + apply String.eqb_eq in Hk. subst k'. destruct H as [H | H]; auto.
    + destruct H as [H | H]; auto. destruct (IH H); auto.
Qed.

Lemma dict_get_In (k : string) (v : V) (d : dict V) :
  dict_get k d = Some v -> In (k, v) d.
Proof.
  induction d as [| [k' v'] d IH]; simpl; intros H.
  - discriminate.
  - destruct (String.eqb k' k) eqn:Hk.
    + apply String.eqb_eq in Hk. inversion H. subst. left. reflexivity.
    + right. apply IH, H.
Qed.

Lemma dict_mem_false (k : string) (d : dict V) :
  dict_mem k d = false <-> dict_get k d = None.
Proof. unfold dict_mem. destruct (dict_get k d); split; congruence. Qed.

Lemma dict_mem_true (k : string) (d : dict V) :
  dict_mem k d = true <-> exists v, dict_get k d = Some v.
Proof.
  unfold dict_mem. destruct (dict_get k d) as [v |]; split; intros H;
    try discriminate; try reflexivity.
  - exists v. reflexivity.
  - destruct H as [v H]. discriminate.
Qed.

(** A stable sort on keys that depend on the dict key only keeps every
    lookup: items of equal dict key are never reordered. *)
Lemma dict_get_insert_sorted (K : Type) (lt : K -> K -> bool) (f : string -> K)
  (reverse : bool) (k : string) (x : K * (string * V)) (l : list (K * (string * V))) :
  (forall a, lt a a = false) ->
  fst x = f (fst (snd x)) ->
  Forall (fun p => fst p = f (fst (snd p))) l ->
  dict_get k (map snd (insert_sorted lt reverse x l)) = dict_get k (map snd (x :: l)).
Proof.
  intros Hirr Hx. induction l as [| y l IH]; intros Hl; simpl.
  - reflexivity.
  - inversion Hl as [| y0 l0 Hy Hl']; subst.
    destruct (stays_ahead lt reverse y x) eqn:Hyx.
    + simpl. rewrite IH by exact Hl'. simpl.
      destruct x as [kx [dx vx]], y as [ky [dy vy]]. simpl in *.
      destruct (String.eqb dy k) eqn:E1; destruct (String.eqb dx k) eqn:E2;
        try reflexivity.
      apply String.eqb_eq in E1, E2. subst dy dx. subst kx ky.
      unfold stays_ahead in Hyx. simpl in Hyx. rewrite Hirr in Hyx.
      destruct reverse; discriminate.
    + reflexivity.
Qed.

Lemma dict_get_sort_decorated (K : Type) (lt : K -> K -> bool) (f : string -> K)
  (reverse : bool) (k : string) (l : list (K * (string * V))) :
  (forall a, lt a a = false) ->
  Forall (fun p => fst p = f (fst (snd p))) l ->
  dict_get k (map snd (sort_decorated lt reverse l)) = dict_get k (map snd l).
Proof.
  intros Hirr. induction l as [| x l IH]; intros Hl; simpl.
  - reflexivity.
  - inversion Hl as [| x0 l0 Hx Hl']; subst.
    rewrite dict_get_insert_sorted with (f := f); try assumption.
    + simpl. rewrite IH by exact Hl'. reflexivity.
    + eapply Permutation_Forall; [| exact Hl'].
      apply Permutation_sym, sort_decorated_perm.
Qed.

Lemma String_ltb_irrefl (a : string) : String.ltb a a = false.
Proof.
  unfold String.ltb.
  pose proof (String.compare_antisym a a) as H.
  destruct (String.compare a a); simpl in H; try discriminate; reflexivity.
Qed.

Lemma dict_get_sort_dict (k : string) (d : dict V) :
  dict_get k (Util.sort_dict d) = dict_get k d.
Proof.
  unfold Util.sort_dict, sorted_total.
  rewrite dict_get_sort_decorated with (f := fun s => s).
  - rewrite map_map. simpl. rewrite map_id. reflexivity.
  - apply String_ltb_irrefl.
  - apply Forall_forall. intros p Hp. apply in_map_iff in Hp.
    destruct Hp as [x [Hx _]]. subst p. reflexivity.
Qed.

Lemma dict_get_sort_dict_key (key : string -> outcome Z) (reverse : bool)
  (d d' : dict V) (k : string) :
  Util.sort_dict_key (fun i => key (fst i)) reverse d = Return d' ->
  dict_get k d' = dict_get k d.
Proof.
  unfold Util.sort_dict_key, sorted.
  destruct (decorate _ d) as [l | e] eqn:Hd; [| discriminate].
  intros H. inversion H; subst. clear H.
  destruct (decorate_Return _ _ _ _ _ Hd) as [Hm Hf].
  rewrite dict_get_sort_decorated
    with (f := fun s => match key s with Return z => z | Raise _ => 0%Z end).
  - rewrite Hm. reflexivity.
  - apply Z.ltb_irrefl.
  - eapply Forall_impl; [| exact Hf]. intros p Hp. simpl in Hp. rewrite Hp. reflexivity.
Qed.

Lemma sort_dict_perm (d : dict V) : Permutation (Util.sort_dict d) d.
Proof. apply sorted_total_perm. Qed.

End DictFacts.

(** ** MetaVersion: the hash gate *)

Lemma for_each_preserves {S X : Type} (P : S -> Prop) (body : X -> M S unit) (xs : list X) :
  (forall x s r s', In x xs -> body x s = (r, s') -> P s -> P s') ->
  forall s r s', for_each xs body s = (r, s') -> P s -> P s'.
Proof.
  induction xs as [| x xs IH]; intros Hbody s r s' Hrun Hs.
  - simpl in Hrun. munfold. congruence.
  - simpl in Hrun. unfold bind in Hrun.
    destruct (body x s) as [[[] | e] s1] eqn:Hx.
    + eapply IH; [| exact Hrun |].
      * intros y t r0 t' Hy. apply Hbody. right. exact Hy.
      * eapply Hbody; [left; reflexivity | exact Hx | exact Hs].
    + inversion Hrun; subst. eapply Hbody; [left; reflexivity | exact Hx | exact Hs].
Qed.

Lemma for_each_returns {S X : Type} (P : S -> Prop) (body : X -> M S unit) (xs : list X) :
  (forall x s, In x xs -> P s -> exists s', body x s = (Return tt, s') /\ P s') ->
  forall s, P s -> exists s', for_each xs body s = (Return tt, s') /\ P s'.
Proof.
  induction xs as [| x xs IH]; intros Hbody s Hs.
  - exists s. split; [reflexivity | exact Hs].
  - destruct (Hbody x s (or_introl eq_refl) Hs) as [s1 [Hx Hs1]].
    destruct (IH (fun y t Hy => Hbody y t (or_intror Hy)) s1 Hs1) as [s2 [Hrun Hs2]].
    exists s2. split; [| exact Hs2].
    simpl. unfold bind. rewrite Hx. exact Hrun.
Qed.

Lemma MetaVersion_update_download_header (name : string) (d : Download)
  (self : MetaVersion.t) r self' :
  MetaVersion.update_download name d self = (r, self') -> same_header self self'.
Proof.
  unfold MetaVersion.update_download, same_header. munfold.
  destruct (negb (existsb (String.eqb name) JAR_NAMES)).
  - intros H. inversion H. auto.
  - destruct (dl_sha1 d); [| intros H; inversion H; auto].
    destruct (dl_url d); [| intros H; inversion H; auto].
    simpl. destruct (negb (dict_mem name (MetaVersion.jars self))).
    + intros H. inversion H. simpl. auto.
    + destruct (dict_get name (MetaVersion.jars self)) as [j |].
      * destruct (MetaJar.update _ j) as [[b | e] j']; intros H; inversion H; simpl; auto.
      * intros H. inversion H. simpl. auto.
Qed.

Lemma MetaVersion_update_skip (E : Env) (file : File) (self : MetaVersion.t) :
  MetaVersion.sha1 self = sha1_hexdigest E (file_bytes file) ->
  MetaVersion.update E file self = (Return false, self).
Proof.
  intros H. unfold MetaVersion.update. munfold.
  apply String.eqb_eq in H. rewrite H. reflexivity.
Qed.

(** When the hashes differ and the call returns, it returns dirty, and the
    version then carries the hash and the stem of the file. *)
Lemma MetaVersion_update_Return (E : Env) (file : File) (self : MetaVersion.t) r self' :
  MetaVersion.sha1 self <> sha1_hexdigest E (file_bytes file) ->
  MetaVersion.update E file self = (r, self') ->
  (exists e, r = Raise e)
  \/ (r = Return true
      /\ MetaVersion.sha1 self' = sha1_hexdigest E (file_bytes file)
      /\ MetaVersion.file_id self' = file_stem file).
Proof.
  intros Hne. unfold MetaVersion.update.
  unfold bind at 1. unfold get at 1.
  apply String.eqb_neq in Hne. rewrite Hne.
  unfold bind at 1. unfold lift_option at 1.
  destruct (json_load E (file_bytes file)) as [data |];
    [| unfold raise; intros H; inversion H; left; eauto].
  unfold ret at 1. unfold bind at 1. unfold lift_option at 1.
  destruct (json_id data) as [id' |];
    [| unfold raise; intros H; inversion H; left; eauto].
  unfold ret at 1. unfold bind at 1, modify at 1. unfold bind at 1, modify at 1.
  unfold bind at 1. unfold lift_option at 1.
  destruct (json_releaseTime data) as [rtt |];
    [| unfold raise; intros H; inversion H; left; eauto].
  unfold ret at 1. unfold bind at 1. unfold lift_option at 1.
  destruct (fromisoformat E rtt) as [rt |];
    [| unfold raise; intros H; inversion H; left; eauto].
  unfold ret at 1. unfold bind at 1, modify at 1. unfold bind at 1, modify at 1.
  unfold bind at 1. unfold lift_option at 1.
  destruct (json_downloads data) as [dl |];
    [| unfold raise; intros H; inversion H; left; eauto].
  unfold ret at 1. unfold bind at 1.
  match goal with
  | |- context [for_each ?xs ?body ?s] =>
      destruct (for_each xs body s) as [[[] | e] s1] eqn:Hloop
  end.
  - assert (Hh : same_header
                   (MetaVersion.set_sha1 (sha1_hexdigest E (file_bytes file))
                      (MetaVersion.set_release_time rt
                         (MetaVersion.set_file_id (file_stem file)
                            (MetaVersion.set_id id' self)))) s1).
    { eapply (for_each_preserves (fun s => same_header _ s)); [| exact Hloop |].
      - intros x s r0 s0 _ Hx [H1 [H2 [H3 H4]]].
        apply MetaVersion_update_download_header in Hx.
        destruct Hx as [G1 [G2 [G3 G4]]].
        unfold same_header. repeat split; congruence.
      - unfold same_header. auto. }
    destruct Hh as [_ [H2 [_ H4]]].
    munfold. intros H. inversion H; subst. right. simpl in *. auto.
  - intros H. inversion H. left. eauto.
Qed.

Lemma MetaJar_update_matching (self meta_jar : MetaJar.t) :
  MetaJar.identity_matches self (MetaJar.version_id meta_jar)
    (MetaJar.version_file_id meta_jar) (MetaJar.version_release_time meta_jar)
    (MetaJar.key meta_jar) = true ->
  exists d, MetaJar.update meta_jar self = (Return d, meta_jar).
Proof.
  unfold MetaJar.identity_matches. rewrite !andb_true_iff.
  intros [[[H1 H2] H3] H4].
  apply String.eqb_eq in H1, H2, H4. apply Z.eqb_eq in H3.
  destruct self as [a b c d s u], meta_jar as [a' b' c' d' s' u']. simpl in *. subst.
  unfold MetaJar.update, MetaJar.update_kwargs, MetaJar.identity_matches. munfold. simpl.
  rewrite !String.eqb_refl, Z.eqb_refl. simpl.
  destruct (String.eqb s s') eqn:Hs; destruct (String.eqb u u') eqn:Hu; simpl;
    try (apply String.eqb_eq in Hs; subst); try (apply String.eqb_eq in Hu; subst);
    eexists; reflexivity.
Qed.

Lemma In_JAR_NAMES (name : string) :
  existsb (String.eqb name) JAR_NAMES = true <-> In name JAR_NAMES.
Proof.
  rewrite existsb_exists. split.
  - intros [x [Hx He]]. apply String.eqb_eq in He. subst. exact Hx.
  - intros H. exists name. split; [exact H | apply String.eqb_refl].
Qed.

Lemma MetaVersion_update_download_returns (name : string) (d : Download)
  (self : MetaVersion.t) :
  (In name JAR_NAMES -> dl_sha1 d <> None /\ dl_url d <> None) ->
  jars_identity (MetaVersion.id self) (MetaVersion.file_id self)
    (MetaVersion.release_time self) (MetaVersion.jars self) ->
  exists self',
    MetaVersion.update_download name d self = (Return tt, self')
    /\ same_header self self'
    /\ jars_identity (MetaVersion.id self) (MetaVersion.file_id self)
         (MetaVersion.release_time self) (MetaVersion.jars self').
Proof.
  intros Hd Hj. unfold MetaVersion.update_download.
  destruct (existsb (String.eqb name) JAR_NAMES) eqn:Hn; simpl.
  2:{ exists self. unfold ret, same_header. repeat split; auto. }
  apply In_JAR_NAMES in Hn. destruct (Hd Hn) as [Hs Hu].
  destruct (dl_sha1 d) as [s |]; [| congruence].
  destruct (dl_url d) as [u |]; [| congruence].
  munfold. simpl.
  destruct (dict_mem name (MetaVersion.jars self)) eqn:Hm; simpl.
  - apply dict_mem_true in Hm. destruct Hm as [j Hget]. rewrite Hget.
    pose proof (Hj name j (dict_get_In _ _ _ _ Hget) Hn) as Hid.
    destruct (MetaJar_update_matching j
                (MetaJar.mk (MetaVersion.id self) (MetaVersion.file_id self)
                   (MetaVersion.release_time self) name s u) Hid) as [b Hupd].
    rewrite Hupd. eexists. split; [reflexivity |]. split.
    + unfold same_header. simpl. auto.
    + simpl. intros k j0 Hin Hk. apply dict_set_In in Hin. destruct Hin as [Hin | Hin].
      * inversion Hin; subst. unfold MetaJar.identity_matches. simpl.
        rewrite !String.eqb_refl, Z.eqb_refl. reflexivity.
      * apply Hj; assumption.
  - eexists. split; [reflexivity |]. split.
    + unfold same_header. simpl. auto.
    + simpl. intros k j0 Hin Hk. apply dict_set_In in Hin. destruct Hin as [Hin | Hin].
      * inversion Hin; subst. unfold MetaJar.identity_matches. simpl.
        rewrite !String.eqb_refl, Z.eqb_refl. reflexivity.
      * apply Hj; assumption.
Qed.

(** A descriptor that reads in full, met by records of the same identity,
    is reconciled without an exception. *)
Lemma MetaVersion_update_returns (E : Env) (file : File) (self : MetaVersion.t)
  (id : string) (release_time : Z) (downloads : dict Download) :
  MetaVersion.sha1 self <> sha1_hexdigest E (file_bytes file) ->
  descriptor_reads E file id release_time downloads ->
  jars_identity id (file_stem file) release_time (MetaVersion.jars self) ->
  exists self',
    MetaVersion.update E file self = (Return true, self')
    /\ MetaVersion.sha1 self' = sha1_hexdigest E (file_bytes file).
Proof.
  intros Hne [data [rtt [H1 [H2 [H3 [H4 [H5 H6]]]]]]] Hj.
  unfold MetaVersion.update.
  unfold bind at 1. unfold get at 1.
  apply String.eqb_neq in Hne. rewrite Hne.
  rewrite H1. unfold bind at 1. unfold lift_option at 1, ret at 1.
  rewrite H2. unfold bind at 1. unfold lift_option at 1, ret at 1.
  unfold bind at 1, modify at 1. unfold bind at 1, modify at 1.
  rewrite H3. unfold bind at 1. unfold lift_option at 1, ret at 1.
  rewrite H4. unfold bind at 1. unfold lift_option at 1, ret at 1.
  unfold bind at 1, modify at 1. unfold bind at 1, modify at 1.
  rewrite H5. unfold bind at 1. unfold lift_option at 1, ret at 1.
  unfold bind at 1.
  set (s0 := MetaVersion.set_sha1 _ _).
  destruct (for_each_returns
              (fun s => same_header s0 s
                        /\ jars_identity id (file_stem file) release_time
                             (MetaVersion.jars s))
              (fun item => MetaVersion.update_download (fst item) (snd item))
              (Util.sort_dict downloads)) with (s := s0) as [s1 [Hrun [Hh _]]].
  - intros [name d] s Hin [[G1 [G2 [G3 G4]]] Hjs]. simpl.
    assert (Hin' : In (name, d) downloads).
    { eapply Permutation_in; [apply sort_dict_perm | exact Hin]. }
    destruct (MetaVersion_update_download_returns name d s) as [s' [Hs' [Hh' Hj']]].
    + intros Hn. eapply H6; eassumption.
    + rewrite G1, G2, G3. exact Hjs.
    + exists s'. split; [exact Hs' |]. split.
      * destruct Hh' as [K1 [K2 [K3 K4]]]. unfold same_header. repeat split; congruence.
      * rewrite G1, G2, G3 in Hj'. exact Hj'.
  - split; [unfold same_header; auto | exact Hj].
  - rewrite Hrun. munfold. eexists. split; [reflexivity |].
    simpl. destruct Hh as [_ [_ [_ Hh]]]. rewrite Hh. reflexivity.
Qed.

(** C2: [MetaVersion.update] returns not-dirty and leaves the version,
    its jars map included, as it was when the SHA-1 of the descriptor file
    equals the stored one.  When the SHA-1 differs the outcome is never
    not-dirty: the call returns dirty or raises, and it does return dirty for
    every descriptor that reads in full and meets records of the same
    identity, whether or not a per-jar field changes. *)
Theorem MetaVersion_update_hash_gate (E : Env) (file : File) (self : MetaVersion.t) :
  (MetaVersion.sha1 self = sha1_hexdigest E (file_bytes file) ->
   MetaVersion.update E file self = (Return false, self))
  /\ (MetaVersion.sha1 self <> sha1_hexdigest E (file_bytes file) ->
      (forall r self', MetaVersion.update E file self = (r, self') ->
         r = Return true \/ exists e, r = Raise e)
      /\ (forall id release_time downloads,
            descriptor_reads E file id release_time downloads ->
            jars_identity id (file_stem file) release_time (MetaVersion.jars self) ->
            exists self',
              MetaVersion.update E file self = (Return true, self')
              /\ MetaVersion.sha1 self' = sha1_hexdigest E (file_bytes file))).
Proof.
  split; [apply MetaVersion_update_skip |].
  intros Hne. split.
  - intros r self' H.
    destruct (MetaVersion_update_Return E file self r self' Hne H) as [He | [Hr _]]; auto.
  - intros id rt dl Hd Hj. eapply MetaVersion_update_returns; eassumption.
Qed.

Lemma MetaVersion_update_hash_gate_witness :
  MetaVersion.update Example.env1
    {| file_name := "1.20.1.json"; file_bytes := Example.bytes "d1" |}
    Example.meta_version_1_20_1
  = (Return false, Example.meta_version_1_20_1)
  /\ exists self',
       MetaVersion.update Example.env1
         {| file_name := "1.20.1.json"; file_bytes := Example.bytes "d1" |}
         (MetaVersion.set_sha1 "sha1:d0" Example.meta_version_1_20_1)
       = (Return true, self')
       /\ MetaVersion.sha1 self' = "sha1:d1".
Proof.
  split.
  - apply (proj1 (MetaVersion_update_hash_gate Example.env1
                    {| file_name := "1.20.1.json"; file_bytes := Example.bytes "d1" |}
                    Example.meta_version_1_20_1)).
    reflexivity.
  - apply (proj2 (proj2 (MetaVersion_update_hash_gate Example.env1
                    {| file_name := "1.20.1.json"; file_bytes := Example.bytes "d1" |}
                    (MetaVersion.set_sha1 "sha1:d0" Example.meta_version_1_20_1))
                   ltac:(simpl; discriminate))
             "1.20.1" 7%Z
             [("client", {| dl_sha1 := Some "sha1:jar-1"; dl_url := Some "u1" |});
              ("client_mappings", {| dl_sha1 := Some "m"; dl_url := Some "um" |})]).
    + exists Example.descriptor_1_20_1, "7". repeat split; try reflexivity.
      * destruct H as [H | [H | []]]; inversion H; subst; simpl; discriminate.
      * destruct H as [H | [H | []]]; inversion H; subst; simpl; discriminate.
    + intros k j [H | []] _. inversion H; subst. reflexivity.
Defined.

(** The hash of the descriptor changed and no per-jar field did: the call is
    dirty all the same, and only the stored descriptor hash moves. *)
Example MetaVersion_update_dirty_without_jar_change :
  MetaVersion.update Example.env1
    {| file_name := "1.20.1.json"; file_bytes := Example.bytes "d1" |}
    (MetaVersion.set_sha1 "sha1:d0" Example.meta_version_1_20_1)
  = (Return true, Example.meta_version_1_20_1).
Proof. vm_compute. reflexivity. Qed.

(** ** JarsJar: download, unwrap, convert *)

Lemma JarsJar_update_open (E : Env) (meta_jar : MetaJar.t) (self : JarsJar.t) (w : World) :
  MetaJar.sha1 meta_jar <> JarsJar.jar_sha1_meta self ->
  JarsJar.update E meta_jar (self, w) = JarsJar_update_steps E meta_jar self w.
Proof.
  intros Hne. apply String.eqb_neq in Hne.
  unfold JarsJar.update, JarsJar_update_steps.
  unfold bind, on_self, on_world, zoom, get, modify, ret, read_bytes.
  cbn [fst snd]. rewrite Hne. cbn [negb fst snd].
  destruct (JarsJar.download E meta_jar self w) as [[[] | e] w1];
    cbn [fst snd]; [| reflexivity].
  destruct (JarsJar.extract_bundle E self w1) as [[ub | e] w2];
    cbn [fst snd]; [| reflexivity].
  destruct (JarsJar.unbundle self ub w2) as [[[] | e] w3];
    cbn [fst snd]; [| reflexivity].
  destruct (JarsJar.mappingio E self w3) as [[[] | e] w4];
    cbn [fst snd]; [| reflexivity].
  destruct (files w4 (JarsJar.jar_path self)); reflexivity.
Qed.

Lemma JarsJar_update_closed (E : Env) (meta_jar : MetaJar.t) (self : JarsJar.t) (w : World) :
  MetaJar.sha1 meta_jar = JarsJar.jar_sha1_meta self ->
  JarsJar.update E meta_jar (self, w) = (Return false, (self, w)).
Proof.
  intros H. apply String.eqb_eq in H.
  unfold JarsJar.update.
  unfold bind at 1. unfold on_self at 1, zoom at 1, get at 1. cbn [fst snd]. rewrite H.
  reflexivity.
Qed.

Lemma JarsJar_extract_bundle_world (E : Env) (self : JarsJar.t) (w : World) r w' :
  JarsJar.extract_bundle E self w = (r, w') -> w' = w.
Proof.
  unfold JarsJar.extract_bundle, read_bytes. munfold.
  destruct (files w (JarsJar.jar_path self)) as [b |]; [| intros H; inversion H; reflexivity].
  destruct (zip_entries E b) as [z |]; [| intros H; inversion H; reflexivity].
  destruct (existsb (String.eqb "META-INF/versions.list") (dict_keys z));
    [| intros H; inversion H; reflexivity].
  destruct (zip_read "META-INF/versions.list" z) as [lb |];
    [| intros H; inversion H; reflexivity].
  destruct (decode_utf8 E lb) as [vl |]; [| intros H; inversion H; reflexivity].
  destruct (Nat.ltb 1 (List.length (splitlines vl)));
    [intros H; inversion H; reflexivity |].
  destruct (zip_read _ z); intros H; inversion H; reflexivity.
Qed.

Lemma JarsJar_unbundle_requests (self : JarsJar.t) (ub : option (list byte)) (w : World) :
  requests (snd (JarsJar.unbundle self ub w)) = requests w.
Proof.
  unfold JarsJar.unbundle, rename, write_bytes, read_bytes. munfold.
  destruct ub as [[| b bs] |]; try reflexivity.
  destruct (files w (JarsJar.jar_path self)); reflexivity.
Qed.

Lemma JarsJar_mappingio_requests (E : Env) (self : JarsJar.t) (w : World) :
  requests (snd (JarsJar.mappingio E self w)) = requests w.
Proof.
  unfold JarsJar.mappingio, write_bytes. munfold. simpl.
  destruct (files w (JarsJar.jar_path self)) as [b |]; [| reflexivity].
  destruct (mapping_io E b); reflexivity.
Qed.

(** Only the download step talks to the network. *)
Lemma JarsJar_update_steps_requests (E : Env) (meta_jar : MetaJar.t) (self : JarsJar.t)
  (w : World) :
  requests (snd (snd (JarsJar_update_steps E meta_jar self w)))
  = requests (snd (JarsJar.download E meta_jar self w)).
Proof.
  unfold JarsJar_update_steps.
  destruct (JarsJar.download E meta_jar self w) as [[[] | e] w1]; [| reflexivity].
  destruct (JarsJar.extract_bundle E self w1) as [[ub | e] w2] eqn:Hx;
    apply JarsJar_extract_bundle_world in Hx; subst w2; [| reflexivity].
  pose proof (JarsJar_unbundle_requests self ub w1) as Hu.
  destruct (JarsJar.unbundle self ub w1) as [[[] | e] w3]; simpl in Hu; [| exact Hu].
  pose proof (JarsJar_mappingio_requests E self w3) as Hm.
  destruct (JarsJar.mappingio E self w3) as [[[] | e] w4]; simpl in Hm;
    [| simpl; congruence].
  destruct (files w4 (JarsJar.jar_path self)); simpl; congruence.
Qed.

Lemma JarsJar_download_needed_iff (E : Env) (meta_jar : MetaJar.t) (self : JarsJar.t)
  (w : World) :
  JarsJar.download_needed E meta_jar self w = true
  <-> files w (JarsJar.jar_path self) = None
      \/ (~ holds_content E (MetaJar.sha1 meta_jar) (JarsJar.jar_path self) w
          /\ ~ holds_content E (MetaJar.sha1 meta_jar) (JarsJar.jar_bundle_path self) w).
Proof.
  unfold JarsJar.download_needed, holds_content.
  destruct (files w (JarsJar.jar_path self)) as [jb |].
  - destruct (String.eqb_spec (MetaJar.sha1 meta_jar) (sha1_hexdigest E jb)) as [He | He];
      simpl.
    + split; [discriminate |].
      intros [H | [H _]]; [discriminate |]. exfalso. apply H. exists jb. auto.
    + destruct (files w (JarsJar.jar_bundle_path self)) as [bb |].
      * destruct (String.eqb_spec (MetaJar.sha1 meta_jar) (sha1_hexdigest E bb))
          as [Hb | Hb]; simpl.
        -- split; [discriminate |].
           intros [H | [_ H]]; [discriminate |]. exfalso. apply H. exists bb. auto.
        -- split; [| reflexivity]. intros _. right. split.
           ++ intros [b [H1 H2]]. inversion H1; subst. congruence.
           ++ intros [b [H1 H2]]. inversion H1; subst. congruence.
      * split; [| reflexivity]. intros _. right. split.
        -- intros [b [H1 H2]]. inversion H1; subst. congruence.
        -- intros [b [H1 H2]]. discriminate.
  - split; [auto | reflexivity].
Qed.

Lemma JarsJar_download_skipped (E : Env) (meta_jar : MetaJar.t) (self : JarsJar.t)
  (w : World) :
  JarsJar.download_needed E meta_jar self w = false ->
  JarsJar.download E meta_jar self w = (Return tt, w).
Proof. intros H. unfold JarsJar.download. munfold. rewrite H. reflexivity. Qed.

Lemma JarsJar_download_done (E : Env) (meta_jar : MetaJar.t) (self : JarsJar.t)
  (w : World) :
  JarsJar.download_needed E meta_jar self w = true ->
  requests (snd (JarsJar.download E meta_jar self w))
  = (requests w ++ [MetaJar.url meta_jar])%list
  /\ forall content,
       requests_get E (MetaJar.url meta_jar) = Some content ->
       fst (JarsJar.download E meta_jar self w) = Return tt
       /\ files (snd (JarsJar.download E meta_jar self w)) (JarsJar.jar_path self)
          = Some content.
Proof.
  intros H. unfold JarsJar.download, http_get, write_bytes. munfold. rewrite H. simpl.
  destruct (requests_get E (MetaJar.url meta_jar)) as [c |]; simpl.
  - split; [reflexivity |]. intros content Hc. inversion Hc; subst.
    rewrite String.eqb_refl. auto.
  - split; [reflexivity |]. intros content Hc. discriminate.
Qed.

(** C4 (as amended): with the upstream hash different from the recorded one,
    [JarsJar.update] fetches from the meta URL, and writes the fetched bytes
    to the canonical path, if and only if the canonical file is missing or
    neither the canonical file nor the bundle-variant file holds content
    whose SHA-1 equals the upstream hash; otherwise no request is made and
    the download step changes nothing. *)
Theorem JarsJar_update_fetches_iff (E : Env) (meta_jar : MetaJar.t) (self : JarsJar.t)
  (w : World) :
  MetaJar.sha1 meta_jar <> JarsJar.jar_sha1_meta self ->
  let fetch_condition :=
    files w (JarsJar.jar_path self) = None
    \/ (~ holds_content E (MetaJar.sha1 meta_jar) (JarsJar.jar_path self) w
        /\ ~ holds_content E (MetaJar.sha1 meta_jar) (JarsJar.jar_bundle_path self) w) in
  let after_update := snd (snd (JarsJar.update E meta_jar (self, w))) in
  (fetch_condition ->
   requests after_update = (requests w ++ [MetaJar.url meta_jar])%list
   /\ forall content,
        requests_get E (MetaJar.url meta_jar) = Some content ->
        fst (JarsJar.download E meta_jar self w) = Return tt
        /\ files (snd (JarsJar.download E meta_jar self w)) (JarsJar.jar_path self)
           = Some content)
  /\ (~ fetch_condition ->
      requests after_update = requests w
      /\ JarsJar.download E meta_jar self w = (Return tt, w)).
Proof.
  intros Hne fetch_condition after_update. subst after_update.
  rewrite JarsJar_update_open by exact Hne. rewrite JarsJar_update_steps_requests.
  split; intros Hc.
  - apply JarsJar_download_needed_iff in Hc. apply JarsJar_download_done, Hc.
  - assert (Hn : JarsJar.download_needed E meta_jar self w = false).
    { destruct (JarsJar.download_needed E meta_jar self w) eqn:Hd; [| reflexivity].
      exfalso. apply Hc. apply JarsJar_download_needed_iff. exact Hd. }
    rewrite JarsJar_download_skipped by exact Hn. auto.
Qed.

Lemma JarsJar_update_fetches_iff_witness :
  requests (snd (snd (JarsJar.update Example.env1 Example.meta_jar_1_20_1
                        (Example.fresh_jar_1_20_1, Example.empty_world))))
  = ["u1"]
  /\ requests (snd (snd (JarsJar.update Example.env1 Example.meta_jar_1_20_1
                           (Example.fresh_jar_1_20_1, Example.world_canonical))))
     = [].
Proof.
  assert (Hne : MetaJar.sha1 Example.meta_jar_1_20_1
                <> JarsJar.jar_sha1_meta Example.fresh_jar_1_20_1)
    by (simpl; discriminate).
  split.
  - apply (proj1 (JarsJar_update_fetches_iff Example.env1 Example.meta_jar_1_20_1
                    Example.fresh_jar_1_20_1 Example.empty_world Hne)).
    left. reflexivity.
  - apply (proj2 (JarsJar_update_fetches_iff Example.env1 Example.meta_jar_1_20_1
                    Example.fresh_jar_1_20_1 Example.world_canonical Hne)).
    intros [H | [H _]].
    + vm_compute in H. discriminate.
    + apply H. exists (Example.bytes "jar-1"). split; reflexivity.
Defined.

(** C4, as stated, fails: with the canonical file missing the bytes are
    fetched although the bundle-variant file holds the upstream content. *)
Lemma JarsJar_update_fetches_despite_bundle :
  MetaJar.sha1 Example.meta_jar_1_20_1 <> JarsJar.jar_sha1_meta Example.fresh_jar_1_20_1
  /\ ~ (requests (snd (snd (JarsJar.update Example.env1 Example.meta_jar_1_20_1
                              (Example.fresh_jar_1_20_1, Example.world_bundle_only))))
        = (requests Example.world_bundle_only ++ [MetaJar.url Example.meta_jar_1_20_1])%list
        <-> (~ holds_content Example.env1 (MetaJar.sha1 Example.meta_jar_1_20_1)
                 (JarsJar.jar_path Example.fresh_jar_1_20_1) Example.world_bundle_only
             /\ ~ holds_content Example.env1 (MetaJar.sha1 Example.meta_jar_1_20_1)
                    (JarsJar.jar_bundle_path Example.fresh_jar_1_20_1)
                    Example.world_bundle_only)).
Proof.
  split; [simpl; discriminate |].
  intros [Hfetch _].
  destruct Hfetch as [_ Hb]; [vm_compute; reflexivity |].
  apply Hb. exists (Example.bytes "jar-1"). split; reflexivity.
Qed.

(** ** JarsJar: bundles *)

Lemma zip_read_in_namelist (name : string) (jar_zip : dict (list byte)) (b : list byte) :
  zip_read name jar_zip = Some b ->
  existsb (String.eqb name) (dict_keys jar_zip) = true.
Proof.
  unfold zip_read. intros H. apply dict_get_In in H. apply in_rev in H.
  apply existsb_exists. exists name. split; [| apply String.eqb_refl].
  unfold dict_keys. apply in_map_iff. exists (name, b). auto.
Qed.

Lemma JarsJar_extract_bundle_multi (E : Env) (self : JarsJar.t) (w : World)
  (jar_bytes : list byte) (jar_zip : dict (list byte)) (list_bytes : list byte)
  (versions_list : string) :
  files w (JarsJar.jar_path self) = Some jar_bytes ->
  zip_entries E jar_bytes = Some jar_zip ->
  zip_read "META-INF/versions.list" jar_zip = Some list_bytes ->
  decode_utf8 E list_bytes = Some versions_list ->
  1 < List.length (splitlines versions_list) ->
  JarsJar.extract_bundle E self w = (Raise MultiVersionBundle, w).
Proof.
  intros H1 H2 H3 H4 H5.
  unfold JarsJar.extract_bundle, read_bytes. munfold.
  rewrite H1, H2, (zip_read_in_namelist _ _ _ H3), H3, H4.
  apply Nat.ltb_lt in H5. rewrite H5. reflexivity.
Qed.

(** C7 (as amended): when the archive at the canonical path, downloaded by
    this call or found there, carries a [META-INF/versions.list] naming more
    than one inner version, [JarsJar.update] raises the multi-version-bundle
    error before the unwrap.  The record is unchanged and the world is the
    one the download step left: the canonical path holds the bundle archive,
    nothing is renamed aside, no inner archive is written, the converter is
    not run. *)
Theorem JarsJar_update_multi_version_bundle (E : Env) (meta_jar : MetaJar.t)
  (self : JarsJar.t) (w w1 : World) (jar_bytes : list byte) (jar_zip : dict (list byte))
  (list_bytes : list byte) (versions_list : string) :
  MetaJar.sha1 meta_jar <> JarsJar.jar_sha1_meta self ->
  JarsJar.download E meta_jar self w = (Return tt, w1) ->
  files w1 (JarsJar.jar_path self) = Some jar_bytes ->
  zip_entries E jar_bytes = Some jar_zip ->
  zip_read "META-INF/versions.list" jar_zip = Some list_bytes ->
  decode_utf8 E list_bytes = Some versions_list ->
  1 < List.length (splitlines versions_list) ->
  JarsJar.update E meta_jar (self, w) = (Raise MultiVersionBundle, (self, w1))
  /\ files w1 (JarsJar.jar_path self) = Some jar_bytes.
Proof.
  intros Hne Hd H1 H2 H3 H4 H5. split; [| exact H1].
  rewrite JarsJar_update_open by exact Hne.
  unfold JarsJar_update_steps. rewrite Hd.
  rewrite (JarsJar_extract_bundle_multi E self w1 _ _ _ _ H1 H2 H3 H4 H5). reflexivity.
Qed.

Lemma JarsJar_update_multi_version_bundle_witness :
  exists w1,
    JarsJar.update Example.env_bundles (Example.meta_server "2")
      (Example.fresh_server, Example.world_with_bundle "2")
    = (Raise MultiVersionBundle, (Example.fresh_server, w1))
    /\ files w1 (JarsJar.jar_path Example.fresh_server) = Some (Example.bytes "bundle-2").
Proof.
  exists (Example.world_with_bundle "2").
  apply (JarsJar_update_multi_version_bundle Example.env_bundles (Example.meta_server "2")
           Example.fresh_server (Example.world_with_bundle "2")
           (Example.world_with_bundle "2") (Example.bytes "bundle-2")
           [("META-INF/versions.list", Example.bytes Example.manifest_two);
            ("META-INF/versions/server-1.20.1.jar", Example.bytes "inner-1");
            ("META-INF/versions/server-1.20.2.jar", Example.bytes "inner-2")]
           (Example.bytes Example.manifest_two) Example.manifest_two).
  - simpl. discriminate.
  - vm_compute. reflexivity.
  - reflexivity.
  - reflexivity.
  - reflexivity.
  - reflexivity.
  - vm_compute. lia.
Defined.

(** C7, as stated, fails: the archive fetched by the same call has been
    written to the canonical path when the error is raised. *)
Lemma JarsJar_update_multi_version_bundle_leaves_file :
  let r := JarsJar.update Example.env_bundles (Example.meta_server "2")
             (Example.fresh_server, Example.empty_world) in
  files Example.empty_world (JarsJar.jar_path Example.fresh_server) = None
  /\ fst r = Raise MultiVersionBundle
  /\ files (snd (snd r)) (JarsJar.jar_path Example.fresh_server)
     = Some (Example.bytes "bundle-2")
  /\ ~ (fst r = Raise MultiVersionBundle
        /\ files (snd (snd r)) (JarsJar.jar_path Example.fresh_server) = None).
Proof.
  cbv zeta. repeat split; try (vm_compute; reflexivity).
  intros [_ H]. vm_compute in H. discriminate.
Qed.

(** The bundle-variant path is never the canonical path. *)

Lemma rsplit_dot_spec (s a b : string) :
  rsplit_dot s = Some (a, b) -> s = a ++ String "." b /\ rsplit_dot b = None.
Proof.
  revert a b. induction s as [| c s IH]; simpl; intros a b H.
  - discriminate.
  - destruct (rsplit_dot s) as [[a' b'] |] eqn:Hs.
    + inversion H; subst. destruct (IH a' b eq_refl) as [H1 H2].
      split; [simpl; congruence | exact H2].
    + destruct (Ascii.eqb_spec c "."%char) as [Hc | Hc]; [| discriminate].
      inversion H; subst. split; [reflexivity | exact Hs].
Qed.

Lemma append_cancel_l (a x y : string) : a ++ x = a ++ y -> x = y.
Proof.
  induction a as [| c a IH]; simpl; intros H; [exact H |].
  inversion H. apply IH. assumption.
Qed.

Lemma append_not_self (a x : string) : a ++ x = a -> x = EmptyString.
Proof.
  induction a as [| c a IH]; simpl; intros H; [exact H |].
  inversion H. apply IH. assumption.
Qed.

Lemma with_suffix_bundle_differs (name : string) :
  with_suffix name ".bundle.jar" <> name.
Proof.
  unfold with_suffix, path_stem.
  destruct (rsplit_dot name) as [[a b] |] eqn:Hs.
  - destruct (is_empty a || is_empty b).
    + intros H. apply append_not_self in H. discriminate.
    + destruct (rsplit_dot_spec _ _ _ Hs) as [H1 H2]. intros H.
      rewrite H1 in H. apply append_cancel_l in H.
      inversion H; subst. vm_compute in H2. discriminate.
  - intros H. apply append_not_self in H. discriminate.
Qed.

Lemma JarsJar_bundle_path_differs (self : JarsJar.t) :
  JarsJar.jar_bundle_path self <> JarsJar.jar_path self.
Proof.
  unfold JarsJar.jar_bundle_path, JarsJar.jar_path. intros H.
  apply append_cancel_l in H. exact (with_suffix_bundle_differs _ H).
Qed.

Lemma JarsJar_extract_bundle_one (E : Env) (self : JarsJar.t) (w : World)
  (jar_bytes : list byte) (jar_zip : dict (list byte)) (list_bytes : list byte)
  (versions_list : string) (inner : list byte) :
  files w (JarsJar.jar_path self) = Some jar_bytes ->
  zip_entries E jar_bytes = Some jar_zip ->
  zip_read "META-INF/versions.list" jar_zip = Some list_bytes ->
  decode_utf8 E list_bytes = Some versions_list ->
  List.length (splitlines versions_list) = 1 ->
  zip_read ("META-INF/versions/" ++ split_last tab versions_list) jar_zip = Some inner ->
  JarsJar.extract_bundle E self w = (Return (Some inner), w).
Proof.
  intros H1 H2 H3 H4 H5 H6.
  unfold JarsJar.extract_bundle, read_bytes. munfold.
  rewrite H1, H2, (zip_read_in_namelist _ _ _ H3), H3, H4, H5. simpl Nat.ltb. cbv iota.
  rewrite H6. reflexivity.
Qed.

(** After a run of [JarsJar.update] that returned, the gate is closed: the
    same call again is not dirty and touches neither record nor world. *)
Lemma JarsJar_update_again (E : Env) (meta_jar : MetaJar.t) (self self' : JarsJar.t)
  (w w' : World) (d : bool) :
  JarsJar.update E meta_jar (self, w) = (Return d, (self', w')) ->
  JarsJar.update E meta_jar (self', w') = (Return false, (self', w')).
Proof.
  intros H. apply JarsJar_update_closed.
  destruct (String.eqb_spec (MetaJar.sha1 meta_jar) (JarsJar.jar_sha1_meta self))
    as [He | Hne].
  - rewrite JarsJar_update_closed in H by exact He. inversion H; subst. exact He.
  - rewrite JarsJar_update_open in H by exact Hne.
    unfold JarsJar_update_steps in H.
    destruct (JarsJar.download E meta_jar self w) as [[[] | e] w1]; [| discriminate].
    destruct (JarsJar.extract_bundle E self w1) as [[ub | e] w2]; [| discriminate].
    destruct (JarsJar.unbundle self ub w2) as [[[] | e] w3]; [| discriminate].
    destruct (JarsJar.mappingio E self w3) as [[[] | e] w4]; [| discriminate].
    destruct (files w4 (JarsJar.jar_path self)); [| discriminate].
    inversion H; subst. reflexivity.
Qed.

(** The check of the download step matches on the unwrapped files through
    the bundle sibling, when the archive had the upstream hash. *)
Lemma JarsJar_download_not_needed_after_unwrap (E : Env) (meta_jar : MetaJar.t)
  (self : JarsJar.t) (w' : World) (jar_bytes inner : list byte) :
  files w' (JarsJar.jar_bundle_path self) = Some jar_bytes ->
  files w' (JarsJar.jar_path self) = Some inner ->
  sha1_hexdigest E jar_bytes = MetaJar.sha1 meta_jar ->
  JarsJar.download_needed E meta_jar self w' = false.
Proof.
  intros H1 H2 H3. unfold JarsJar.download_needed. rewrite H1, H2, H3.
  rewrite String.eqb_refl. apply andb_false_r.
Qed.

Lemma JarsJar_extract_bundle_plain (E : Env) (self : JarsJar.t) (w : World)
  (jar_bytes : list byte) (jar_zip : dict (list byte)) :
  files w (JarsJar.jar_path self) = Some jar_bytes ->
  zip_entries E jar_bytes = Some jar_zip ->
  existsb (String.eqb "META-INF/versions.list") (dict_keys jar_zip) = false ->
  JarsJar.extract_bundle E self w = (Return None, w).
Proof.
  intros H1 H2 H3. unfold JarsJar.extract_bundle, read_bytes. munfold.
  rewrite H1, H2, H3. reflexivity.
Qed.

(** The unwrap step where it works: for an archive at the canonical path
    whose bundle manifest has one line and names an inner entry that holds
    at least one byte, the unwrap step of [JarsJar.update] leaves the
    original bytes at the bundle-suffixed sibling path and the inner entry's
    bytes at the canonical path, without a request.  On the files it leaves,
    the download step makes no request when the original archive had the
    upstream hash (the check matches through the bundle sibling), and the
    unwrap does nothing more when the inner archive is not a bundle itself.
    And a run of [JarsJar.update] that returned is followed, on the state it
    left, by a run that returns not-dirty and changes neither the record nor
    the world: no second download, no second unwrap. *)
Theorem JarsJar_unwrap_once_then_noop (E : Env) (meta_jar : MetaJar.t) (self : JarsJar.t)
  (w : World) (jar_bytes : list byte) (jar_zip : dict (list byte)) (list_bytes : list byte)
  (versions_list : string) (inner : list byte) :
  files w (JarsJar.jar_path self) = Some jar_bytes ->
  zip_entries E jar_bytes = Some jar_zip ->
  zip_read "META-INF/versions.list" jar_zip = Some list_bytes ->
  decode_utf8 E list_bytes = Some versions_list ->
  List.length (splitlines versions_list) = 1 ->
  zip_read ("META-INF/versions/" ++ split_last tab versions_list) jar_zip = Some inner ->
  inner <> [] ->
  (exists w',
      JarsJar_unwrap E self w = (Return tt, w')
      /\ files w' (JarsJar.jar_bundle_path self) = Some jar_bytes
      /\ files w' (JarsJar.jar_path self) = Some inner
      /\ requests w' = requests w
      /\ (sha1_hexdigest E jar_bytes = MetaJar.sha1 meta_jar ->
          JarsJar.download E meta_jar self w' = (Return tt, w'))
      /\ (forall inner_zip,
            zip_entries E inner = Some inner_zip ->
            existsb (String.eqb "META-INF/versions.list") (dict_keys inner_zip) = false ->
            JarsJar_unwrap E self w' = (Return tt, w')))
  /\ (forall w0 d self1 w1,
        JarsJar.update E meta_jar (self, w0) = (Return d, (self1, w1)) ->
        JarsJar.update E meta_jar (self1, w1) = (Return false, (self1, w1))).
Proof.
  intros H1 H2 H3 H4 H5 H6 Hne. split.
  - unfold JarsJar_unwrap at 1. unfold bind at 1.
    rewrite (JarsJar_extract_bundle_one E self w _ _ _ _ _ H1 H2 H3 H4 H5 H6).
    destruct inner as [| b bs]; [congruence |].
    unfold JarsJar.unbundle, rename, write_bytes, read_bytes. munfold. rewrite H1.
    eexists. split; [reflexivity |].
    match goal with
    | |- files ?w' _ = _ /\ _ =>
        assert (Hb : files w' (JarsJar.jar_bundle_path self) = Some jar_bytes);
        [| assert (Hc : files w' (JarsJar.jar_path self) = Some (b :: bs))]
    end.
    + cbn [files].
      destruct (String.eqb_spec (JarsJar.jar_bundle_path self) (JarsJar.jar_path self))
        as [He | _]; [exfalso; exact (JarsJar_bundle_path_differs self He) |].
      rewrite String.eqb_refl. reflexivity.
    + cbn [files]. rewrite String.eqb_refl. reflexivity.
    + split; [exact Hb |]. split; [exact Hc |]. split; [reflexivity |]. split.
      * intros Hsha. apply JarsJar_download_skipped.
        eapply JarsJar_download_not_needed_after_unwrap; eassumption.
      * intros inner_zip Hz Hplain. unfold JarsJar_unwrap, bind.
        rewrite (JarsJar_extract_bundle_plain E self _ (b :: bs) inner_zip Hc Hz Hplain).
        reflexivity.
  - intros w0 d self1 w1. apply JarsJar_update_again.
Qed.

Lemma JarsJar_unwrap_once_then_noop_witness :
  (exists w',
      JarsJar_unwrap Example.env_bundles Example.fresh_server (Example.world_with_bundle "1")
      = (Return tt, w')
      /\ files w' (JarsJar.jar_bundle_path Example.fresh_server)
         = Some (Example.bytes "bundle-1")
      /\ files w' (JarsJar.jar_path Example.fresh_server) = Some (Example.bytes "inner-1")
      /\ requests w' = requests (Example.world_with_bundle "1")
      /\ (sha1_hexdigest Example.env_bundles (Example.bytes "bundle-1")
          = MetaJar.sha1 (Example.meta_server "1") ->
          JarsJar.download Example.env_bundles (Example.meta_server "1")
            Example.fresh_server w' = (Return tt, w'))
      /\ (forall inner_zip,
            zip_entries Example.env_bundles (Example.bytes "inner-1") = Some inner_zip ->
            existsb (String.eqb "META-INF/versions.list") (dict_keys inner_zip) = false ->
            JarsJar_unwrap Example.env_bundles Example.fresh_server w' = (Return tt, w')))
  /\ (forall w0 d self1 w1,
        JarsJar.update Example.env_bundles (Example.meta_server "1")
          (Example.fresh_server, w0) = (Return d, (self1, w1)) ->
        JarsJar.update Example.env_bundles (Example.meta_server "1") (self1, w1)
        = (Return false, (self1, w1))).
Proof.
  apply (JarsJar_unwrap_once_then_noop Example.env_bundles (Example.meta_server "1")
           Example.fresh_server (Example.world_with_bundle "1")
           (Example.bytes "bundle-1")
           [("META-INF/versions.list", Example.bytes Example.manifest_one);
            ("META-INF/versions/server-1.20.1.jar", Example.bytes "inner-1")]
           (Example.bytes Example.manifest_one) Example.manifest_one
           (Example.bytes "inner-1")).
  - reflexivity.
  - reflexivity.
  - reflexivity.
  - reflexivity.
  - vm_compute. reflexivity.
  - vm_compute. reflexivity.
  - vm_compute. discriminate.
Defined.

(** The whole scenario on a concrete world: the first run downloads the
    bundle, unwraps it and converts the inner archive; the second run makes
    no request and no conversion. *)
Example JarsJar_bundle_download_unwrap_rerun :
  let r1 := JarsJar.update Example.env_bundles (Example.meta_server "1")
              (Example.fresh_server, Example.empty_world) in
  let r2 := JarsJar.update Example.env_bundles (Example.meta_server "1") (snd r1) in
  fst r1 = Return true
  /\ files (snd (snd r1)) "mappings/1.20.1-server.bundle.jar" = Some (Example.bytes "bundle-1")
  /\ files (snd (snd r1)) "mappings/1.20.1-server.jar" = Some (Example.bytes "inner-1")
  /\ requests (snd (snd r1)) = ["us1"]
  /\ fst r2 = Return false
  /\ requests (snd (snd r2)) = ["us1"]
  /\ conversions (snd (snd r2)) = conversions (snd (snd r1))
  /\ fst (snd r2) = fst (snd r1).
Proof. vm_compute. repeat split; reflexivity. Qed.

(** The guard [if unbundled_jar_bytes:] tests the bytes for truth, so it
    is false for an inner entry of zero bytes as it is for [None]: whatever
    the archive, a bundle whose manifest names one empty entry goes through
    the unwrap step with the file system untouched. *)
Lemma JarsJar_unwrap_empty_inner_noop (E : Env) (self : JarsJar.t) (w : World)
  (jar_bytes : list byte) (jar_zip : dict (list byte)) (list_bytes : list byte)
  (versions_list : string) :
  files w (JarsJar.jar_path self) = Some jar_bytes ->
  zip_entries E jar_bytes = Some jar_zip ->
  zip_read "META-INF/versions.list" jar_zip = Some list_bytes ->
  decode_utf8 E list_bytes = Some versions_list ->
  List.length (splitlines versions_list) = 1 ->
  zip_read ("META-INF/versions/" ++ split_last tab versions_list) jar_zip = Some [] ->
  JarsJar_unwrap E self w = (Return tt, w).
Proof.
  intros H1 H2 H3 H4 H5 H6. unfold JarsJar_unwrap, bind.
  rewrite (JarsJar_extract_bundle_one E self w _ _ _ _ _ H1 H2 H3 H4 H5 H6).
  reflexivity.
Qed.

(** C8 fails on the code when the inner entry that the manifest names is
    empty.  The archive [bundle-0] is a bundle: its manifest has one line,
    which names an entry of zero bytes.  [if unbundled_jar_bytes:] is then
    false, as it is for [None]: the unwrap step returns without renaming the
    archive aside, so no bundle-suffixed sibling exists afterwards and the
    canonical file still holds the bundle, not the bytes of the inner entry.
    A whole run of [JarsJar.update] that fetches this archive returns dirty
    all the same: it converts the bundle itself and records the hash of the
    bundle as the local hash. *)
Theorem JarsJar_unwrap_skips_empty_inner :
  let w := Example.world_with_bundle "0" in
  let r := JarsJar_unwrap Example.env_bundles Example.fresh_server w in
  let u := JarsJar.update Example.env_bundles (Example.meta_server "0")
             (Example.fresh_server, Example.empty_world) in
  List.length (splitlines Example.manifest_one) = 1
  /\ zip_read ("META-INF/versions/" ++ split_last tab Example.manifest_one)
       [("META-INF/versions.list", Example.bytes Example.manifest_one);
        ("META-INF/versions/server-1.20.1.jar", [])] = Some []
  /\ fst r = Return tt
  /\ files (snd r) (JarsJar.jar_bundle_path Example.fresh_server) = None
  /\ files (snd r) (JarsJar.jar_path Example.fresh_server) = Some (Example.bytes "bundle-0")
  /\ ~ (files (snd r) (JarsJar.jar_bundle_path Example.fresh_server)
        = Some (Example.bytes "bundle-0")
        /\ files (snd r) (JarsJar.jar_path Example.fresh_server) = Some [])
  /\ zip_entries Example.env_bundles (Example.bytes "bundle-0")
     = Some [("META-INF/versions.list", Example.bytes Example.manifest_one);
             ("META-INF/versions/server-1.20.1.jar", [])]
  /\ fst u = Return true
  /\ requests (snd (snd u)) = ["us0"]
  /\ files (snd (snd u)) "mappings/1.20.1-server.bundle.jar" = None
  /\ files (snd (snd u)) "mappings/1.20.1-server.jar" = Some (Example.bytes "bundle-0")
  /\ conversions (snd (snd u))
     = [("mappings/1.20.1-server.jar", "mappings/1.20.1-server.tiny")]
  /\ files (snd (snd u)) "mappings/1.20.1-server.tiny"
     = Some (Example.bytes "tiny:bundle-0")
  /\ JarsJar.jar_sha1_local (fst (snd u)) = "sha1:bundle-0".
Proof.
  cbv zeta. repeat split; try (vm_compute; reflexivity).
  intros [H _]. vm_compute in H. discriminate.
Qed.

(** ** Jars: the release-time sort *)

Lemma dict_set_absent {V : Type} (k : string) (v : V) (d : dict V) :
  dict_get k d = None -> dict_set k v d = (d ++ [(k, v)])%list.
Proof.
  induction d as [| [k' v'] d IH]; simpl; intros H.
  - reflexivity.
  - destruct (String.eqb k' k); [discriminate |]. rewrite IH by exact H. reflexivity.
Qed.

Lemma decorate_raises_last {X K : Type} (P : exn -> Prop) (key : X -> outcome K)
  (xs : list X) (x : X) (e0 : exn) :
  (forall y e, key y = Raise e -> P e) ->
  key x = Raise e0 ->
  exists e, decorate key (xs ++ [x])%list = Raise e /\ P e.
Proof.
  intros HP Hx. induction xs as [| y xs IH]; simpl.
  - rewrite Hx. exists e0. split; [reflexivity | eapply HP; exact Hx].
  - destruct (key y) as [k | e] eqn:Hy.
    + destruct IH as [e [He HPe]]. rewrite He. exists e. auto.
    + exists e. split; [reflexivity | eapply HP; exact Hy].
Qed.

Lemma Jars_get_version_release_time_raises (self : Jars.t) (version : string) (e : exn) :
  Jars.get_version_release_time self version = Raise e -> e = NotFound version.
Proof.
  unfold Jars.get_version_release_time.
  destruct (find (Jars.mentions version) (Jars.all self)); intros H; inversion H.
  reflexivity.
Qed.

Lemma Jars_all_new_version (self : Jars.t) (version : string) :
  dict_get version (Jars.versions self) = None ->
  Jars.all (Jars.set_version version [] self) = Jars.all self.
Proof.
  intros H. unfold Jars.all, Jars.set_version. simpl.
  rewrite dict_set_absent by exact H.
  unfold dict_values. rewrite !map_app, concat_app. simpl. apply app_nil_r.
Qed.

Lemma find_none_iff {X : Type} (f : X -> bool) (l : list X) :
  (forall x, In x l -> f x = false) -> find f l = None.
Proof.
  induction l as [| x l IH]; simpl; intros H; [reflexivity |].
  rewrite (H x (or_introl eq_refl)). apply IH. intros y Hy. apply H. right. exact Hy.
Qed.

Lemma decorate_raises_at_last {X K : Type} (key : X -> outcome K) (xs : list X) (x : X)
  (e : exn) :
  (forall y, In y xs -> exists k, key y = Return k) ->
  key x = Raise e ->
  decorate key (xs ++ [x])%list = Raise e.
Proof.
  intros Hxs Hx. induction xs as [| y xs IH]; simpl.
  - rewrite Hx. reflexivity.
  - destruct (Hxs y (or_introl eq_refl)) as [k Hk]. rewrite Hk.
    rewrite IH; [reflexivity |]. intros z Hz. apply Hxs. right. exact Hz.
Qed.

(** C10: a Meta snapshot whose single version has an empty jars map and an
    id that the store neither holds as a key nor mentions in a record makes
    [Jars.update] create the empty inner map, turn dirty, and abort in the
    final sort with the not-found error of [get_version_release_time]; when
    the keys already in the store all resolve, the error names that id. *)
Theorem Jars_update_empty_version_aborts (E : Env) (commit : string) (v : MetaVersion.t)
  (self : Jars.t) (w : World) :
  MetaVersion.jars v = [] ->
  dict_get (MetaVersion.id v) (Jars.versions self) = None ->
  (forall jar, In jar (Jars.all self) -> Jars.mentions (MetaVersion.id v) jar = false) ->
  Jars_update_pass E (Meta.mk commit [v]) (self, w)
  = (Return true, (Jars.set_version (MetaVersion.id v) [] self, w))
  /\ dict_get (MetaVersion.id v)
       (Jars.versions (Jars.set_version (MetaVersion.id v) [] self)) = Some []
  /\ (exists version,
        Jars.update E (Meta.mk commit [v]) (self, w)
        = (Raise (NotFound version), (Jars.set_version (MetaVersion.id v) [] self, w)))
  /\ ((forall k, In k (dict_keys (Jars.versions self)) ->
         exists t, Jars.get_version_release_time self k = Return t) ->
      Jars.update E (Meta.mk commit [v]) (self, w)
      = (Raise (NotFound (MetaVersion.id v)),
         (Jars.set_version (MetaVersion.id v) [] self, w))).
Proof.
  intros Hjars Hkey Hrec.
  assert (Hpass : Jars_update_pass E (Meta.mk commit [v]) (self, w)
                  = (Return true, (Jars.set_version (MetaVersion.id v) [] self, w))).
  { unfold Jars_update_pass. simpl. unfold Jars.update_version.
    munfold. cbn [fst snd].
    apply dict_mem_false in Hkey. rewrite Hkey. simpl. rewrite Hjars. reflexivity. }
  split; [exact Hpass |]. split; [apply dict_get_set_same |].
  assert (Hlast : Jars.get_version_release_time
                    (Jars.set_version (MetaVersion.id v) [] self) (MetaVersion.id v)
                  = Raise (NotFound (MetaVersion.id v))).
  { unfold Jars.get_version_release_time.
    rewrite find_none_iff; [reflexivity |].
    intros jar Hin. apply Hrec.
    rewrite <- (Jars_all_new_version self (MetaVersion.id v) Hkey). exact Hin. }
  assert (Hsort : forall e,
             decorate (fun i : string * dict JarsJar.t =>
                         Jars.get_version_release_time
                           (Jars.set_version (MetaVersion.id v) [] self) (fst i))
               (Jars.versions self ++ [(MetaVersion.id v, [])])%list = Raise e ->
             Jars.update E (Meta.mk commit [v]) (self, w)
             = (Raise e, (Jars.set_version (MetaVersion.id v) [] self, w))).
  { intros e He. unfold Jars.update. unfold Jars_update_pass in Hpass.
    unfold bind at 1. rewrite Hpass. munfold. cbn [fst snd].
    unfold Util.sort_dict_key, sorted.
    cbn [Jars.versions Jars.set_version].
    rewrite (dict_set_absent _ _ _ Hkey).
    match goal with
    | |- context [decorate ?key ?xs] =>
        replace (decorate key xs) with (@Raise (list (Z * (string * dict JarsJar.t))) e)
          by (symmetry; exact He)
    end.
    reflexivity. }
  split.
  - destruct (decorate_raises_last (fun e => exists version, e = NotFound version)
                (fun i : string * dict JarsJar.t =>
                   Jars.get_version_release_time
                     (Jars.set_version (MetaVersion.id v) [] self) (fst i))
                (Jars.versions self) (MetaVersion.id v, [])
                (NotFound (MetaVersion.id v))) as [e [He [version Hv]]].
    + intros y e Hy. exists (fst y). eapply Jars_get_version_release_time_raises, Hy.
    + exact Hlast.
    + subst e. exists version. apply Hsort. exact He.
  - intros Hres. apply Hsort. apply decorate_raises_at_last; [| exact Hlast].
    intros [k inner] Hin. simpl.
    destruct (Hres k) as [t Ht].
    { unfold dict_keys. apply in_map_iff. exists (k, inner). auto. }
    exists t. unfold Jars.get_version_release_time in *.
    rewrite (Jars_all_new_version self (MetaVersion.id v) Hkey). exact Ht.
Qed.

Lemma Jars_update_empty_version_aborts_witness :
  Jars.update Example.env_store Example.meta_empty_version
    (Jars.empty, Example.empty_world)
  = (Raise (NotFound "1.0"), (Jars.mk [("1.0", [])], Example.empty_world)).
Proof.
  apply (Jars_update_empty_version_aborts Example.env_store "c"
           (MetaVersion.mk "1.0" "1.0" 3 "sha1:d" []) Jars.empty Example.empty_world).
  - reflexivity.
  - reflexivity.
  - intros jar [].
  - intros k [].
Defined.

(** C5 fails on the code for the inner maps: a record created for a new key
    is appended and the loop continues without the sort by key.  Version 1.0
    is stored with its client and Windows server archives; the Meta snapshot
    now lists a server archive too.  The update is dirty and leaves the inner
    map in the order client, windows_server, server. *)
Theorem Jars_update_leaves_inner_map_unsorted :
  let r := Jars.update Example.env_store Example.meta_server_added
             (Example.jars_without_server, Example.world_without_server) in
  fst r = Return true
  /\ option_map (@dict_keys JarsJar.t) (dict_get "1.0" (Jars.versions (fst (snd r))))
     = Some ["client"; "windows_server"; "server"]
  /\ String.ltb "server" "windows_server" = true.
Proof. vm_compute. repeat split; reflexivity. Qed.

(** The same holds one stage later: [Index.update] appends the mapping of a
    new key without sorting the inner map. *)
Example Index_update_leaves_inner_map_unsorted :
  let jars := Jars.mk [("1.0", [("client", Example.jar_of "1.0" "1.0" 3 "client" "c");
                                ("server", Example.jar_of "1.0" "1.0" 3 "server" "s");
                                ("windows_server",
                                 Example.jar_of "1.0" "1.0" 3 "windows_server" "w")])] in
  let index :=
    Index.mk 0
      [("1.0", [("client",
                 IndexMapping.from_jar (Example.jar_of "1.0" "1.0" 3 "client" "c"));
                ("windows_server",
                 IndexMapping.from_jar (Example.jar_of "1.0" "1.0" 3 "windows_server" "w"))])]
  in
  let r := Index.update jars index in
  fst r = Return true
  /\ option_map (@dict_keys IndexMapping.t) (dict_get "1.0" (Index.mappings (snd r)))
     = Some ["client"; "windows_server"; "server"].
Proof. vm_compute. repeat split; reflexivity. Qed.

(** A version met for the first time receives its records in the order of
    the Meta snapshot, and the inner map comes out sorted. *)
Example Jars_update_first_run_sorted :
  let r := Jars.update Example.env_store Example.meta_server_added
             (Jars.empty, Example.empty_world) in
  fst r = Return true
  /\ option_map (@dict_keys JarsJar.t) (dict_get "1.0" (Jars.versions (fst (snd r))))
     = Some ["client"; "server"; "windows_server"].
Proof. vm_compute. repeat split; reflexivity. Qed.

Lemma StronglySorted_map {A B : Type} (R : B -> B -> Prop) (f : A -> B) (l : list A) :
  StronglySorted (fun a b => R (f a) (f b)) l -> StronglySorted R (map f l).
Proof.
  induction 1 as [| a l Hl IH Ha]; simpl; constructor.
  - exact IH.
  - apply Forall_map. exact Ha.
Qed.

Lemma StronglySorted_weaken {A : Type} (R R' : A -> A -> Prop) (l : list A) :
  (forall a b, R a b -> R' a b) -> StronglySorted R l -> StronglySorted R' l.
Proof.
  intros HR. induction 1 as [| a l Hl IH Ha]; constructor.
  - exact IH.
  - eapply Forall_impl; [| exact Ha]. intros b. apply HR.
Qed.

(** A successful sort on release times yields the keys in non-increasing
    order of the times that the key function returned. *)
Lemma sort_dict_key_descending {V : Type} (key : string -> outcome Z) (d d' : dict V) :
  Util.sort_dict_key (fun i => key (fst i)) true d = Return d' ->
  exists times,
    Forall2 (fun k t => key k = Return t) (dict_keys d') times
    /\ StronglySorted (fun a b => (b <= a)%Z) times.
Proof.
  unfold Util.sort_dict_key, sorted.
  destruct (decorate _ d) as [l | e] eqn:Hd; [| discriminate].
  intros H. inversion H; subst. clear H.
  destruct (decorate_Return _ _ _ _ _ Hd) as [_ Hf].
  exists (map fst (sort_decorated Z.ltb true l)). split.
  - assert (Hf' : Forall (fun p : Z * (string * V) => key (fst (snd p)) = Return (fst p))
                    (sort_decorated Z.ltb true l)).
    { eapply Permutation_Forall; [apply Permutation_sym, sort_decorated_perm | exact Hf]. }
    unfold dict_keys. induction Hf' as [| p l' Hp _ IH]; simpl; constructor; assumption.
  - apply StronglySorted_map.
    eapply StronglySorted_weaken;
      [| apply (sort_decorated_order _ _ Z.ltb Z_ltb_asym Z_ltb_trans_neg)].
    intros a b Hab. unfold in_order, stays_ahead in Hab. apply Z.ltb_ge in Hab. exact Hab.
Qed.

Lemma for_dirty_map {S X Y : Type} (g : X -> Y) (body : Y -> M S bool) (xs : list X)
  (dirty : bool) (s : S) :
  for_dirty (map g xs) body dirty s = for_dirty xs (fun x => body (g x)) dirty s.
Proof.
  revert dirty s. induction xs as [| x xs IH]; intros dirty s; simpl.
  - reflexivity.
  - unfold bind. destruct (body (g x) s) as [[d | e] s']; [apply IH | reflexivity].
Qed.

(** The version-level release time of the Meta snapshot is never read. *)
Lemma Jars_update_restamp (E : Env) (f : MetaVersion.t -> Z) (meta : Meta.t)
  (st : Jars.t * World) :
  Jars.update E (restamp f meta) st = Jars.update E meta st.
Proof.
  unfold Jars.update, restamp. simpl. unfold bind at 1 3.
  rewrite <- map_rev, for_dirty_map. reflexivity.
Qed.

(** C6 (as amended): when the pass of [Jars.update] over the meta versions
    has produced a dirty change and the update returns, the outer map is the
    map the pass left, stably sorted by descending release time, where the
    sort key of a version is looked up in the records of the store itself
    ([Jars.get_version_release_time] over [Jars.all]); the version-level
    release times of the Meta snapshot have no influence on the result. *)
Theorem Jars_update_sorts_by_own_records (E : Env) (meta : Meta.t) (self self' : Jars.t)
  (w w' : World) :
  Jars.update E meta (self, w) = (Return true, (self', w')) ->
  (exists pass,
      Jars_update_pass E meta (self, w) = (Return true, (pass, w'))
      /\ Util.sort_dict_key (fun i => Jars.get_version_release_time pass (fst i)) true
           (Jars.versions pass) = Return (Jars.versions self')
      /\ exists times,
           Forall2 (fun k t => Jars.get_version_release_time pass k = Return t)
             (dict_keys (Jars.versions self')) times
           /\ StronglySorted (fun a b => (b <= a)%Z) times)
  /\ forall f, Jars.update E (restamp f meta) (self, w) = (Return true, (self', w')).
Proof.
  intros H. split; [| intros f; rewrite Jars_update_restamp; exact H].
  unfold Jars.update in H. unfold bind at 1 in H.
  fold (Jars_update_pass E meta) in H.
  destruct (Jars_update_pass E meta (self, w)) as [[d | e] [pass w1]] eqn:Hpass;
    [| discriminate].
  destruct d; [| munfold; discriminate].
  munfold. cbn [fst snd] in H.
  destruct (Util.sort_dict_key _ true (Jars.versions pass)) as [vs | e] eqn:Hsort;
    [| discriminate].
  inversion H; subst. exists pass. split; [reflexivity |]. split; [exact Hsort |].
  simpl. eapply sort_dict_key_descending. exact Hsort.
Qed.

Lemma Jars_update_sorts_by_own_records_witness :
  fst (Jars.update Example.env_store (restamp (fun _ => 0%Z) Example.meta_redated)
         (Example.jars_dated, Example.empty_world)) = Return true.
Proof.
  destruct (Jars.update Example.env_store Example.meta_redated
              (Example.jars_dated, Example.empty_world)) as [o [self' w']] eqn:Hr.
  assert (Ho : o = Return true).
  { apply (f_equal fst) in Hr. vm_compute in Hr. congruence. }
  subst o.
  rewrite (proj2 (Jars_update_sorts_by_own_records Example.env_store Example.meta_redated
                    Example.jars_dated self' Example.empty_world w' Hr) (fun _ => 0%Z)).
  reflexivity.
Defined.

(** C6, as stated, fails: the store dates 1.0 at 10 and 2.0 at 20, the Meta
    snapshot dates 1.0 at 30.  The dirty update orders the outer map by the
    store's own records (2.0, 1.0, 3.0), which is not the descending order of
    the release times that the Meta snapshot gives (20, 30, 5). *)
Lemma Jars_update_order_is_not_meta_order :
  let r := Jars.update Example.env_store Example.meta_redated
             (Example.jars_dated, Example.empty_world) in
  fst r = Return true
  /\ dict_keys (Jars.versions (fst (snd r))) = ["2.0"; "1.0"; "3.0"]
  /\ map (meta_release_time Example.meta_redated) (dict_keys (Jars.versions (fst (snd r))))
     = [Return 20%Z; Return 30%Z; Return 5%Z]
  /\ ~ StronglySorted (fun a b => (b <= a)%Z) [20%Z; 30%Z; 5%Z].
Proof.
  cbv zeta. repeat split; try (vm_compute; reflexivity).
  intros H. apply StronglySorted_inv in H. destruct H as [_ H].
  inversion H; subst. lia.
Qed.

(** ** Idempotence: where the claim as stated fails *)

(** C1, as stated, fails for Meta: the descriptor directory holds
    [1.0.json] and [1.0.bak], a copy of an older revision.  Both files have
    the stem [1.0] and reconcile the same version in turn.  The first run
    completes; the second run against the same directory is dirty again. *)
Lemma Meta_update_twice_dirty :
  let r1 := Meta.update Example.env_two_files Example.dir_same_stem Meta.empty in
  let r2 := Meta.update Example.env_two_files Example.dir_same_stem (snd r1) in
  map file_stem Example.dir_same_stem = ["1.0"; "1.0"]
  /\ fst r1 = Return true
  /\ fst r2 = Return true
  /\ ~ (fst r2 = Return false /\ snd r2 = snd r1).
Proof.
  cbv zeta. repeat split; try (vm_compute; reflexivity).
  intros [H _]. vm_compute in H. discriminate.
Qed.

(** A store with two versions of one file id: the sort of the first run
    moves the other one to the front, and the second run reconciles it. *)
Example Meta_update_twice_dirty_same_file_id :
  let r1 := Meta.update Example.env_two_files Example.dir_one_file
              Example.meta_same_file_id in
  let r2 := Meta.update Example.env_two_files Example.dir_one_file (snd r1) in
  fst r1 = Return true /\ fst r2 = Return true /\ snd r2 <> snd r1.
Proof.
  cbv zeta. repeat split; try (vm_compute; reflexivity).
  vm_compute. intros H. discriminate H.
Qed.

(** Version 1.0 published under two descriptor files with different client
    archives: both reconcile the one record that Jars keeps for the version
    id.  The first run completes; the second run is dirty again and fetches
    both archives once more. *)
Example Jars_update_twice_dirty :
  let r1 := Jars.update Example.env_store Example.meta_refiled
              (Jars.empty, Example.empty_world) in
  let r2 := Jars.update Example.env_store Example.meta_refiled (snd r1) in
  fst r1 = Return true
  /\ fst r2 = Return true
  /\ requests (snd (snd r1)) = ["u-b"; "u-a"]
  /\ requests (snd (snd r2)) = ["u-b"; "u-a"; "u-b"; "u-a"].
Proof. cbv zeta. repeat split; vm_compute; reflexivity. Qed.

(** Two records of one version id and key in the Jars snapshot: both
    reconcile the one mapping of the index. *)
Example Index_update_twice_dirty :
  let r1 := Index.update Example.jars_same_key Index.empty in
  let r2 := Index.update Example.jars_same_key (snd r1) in
  fst r1 = Return true /\ fst r2 = Return true.
Proof. cbv zeta. split; vm_compute; reflexivity. Qed.

(** ** Idempotence of [Meta.update] *)

Lemma for_dirty_noop {S X : Type} (body : X -> M S bool) (xs : list X) (s : S) :
  (forall x, In x xs -> body x s = (Return false, s)) ->
  forall dirty, for_dirty xs body dirty s = (Return dirty, s).
Proof.
  induction xs as [| x xs IH]; intros Hbody dirty; simpl.
  - reflexivity.
  - unfold bind. rewrite (Hbody x (or_introl eq_refl)).
    rewrite orb_false_r. apply IH. intros y Hy. apply Hbody. right. exact Hy.
Qed.

Lemma list_set_same {X : Type} (i : nat) (x : X) (l : list X) :
  nth_error l i = Some x -> list_set i x l = l.
Proof.
  revert i. induction l as [| y l IH]; intros [| i]; simpl; intros H;
    try discriminate.
  - inversion H. reflexivity.
  - rewrite IH by exact H. reflexivity.
Qed.

Lemma list_set_map {X Y : Type} (g : X -> Y) (i : nat) (x x' : X) (l : list X) :
  nth_error l i = Some x -> g x' = g x -> map g (list_set i x' l) = map g l.
Proof.
  revert i. induction l as [| y l IH]; intros [| i]; simpl; intros H Hg;
    try discriminate.
  - inversion H; subst. rewrite Hg. reflexivity.
  - rewrite IH by assumption. reflexivity.
Qed.

Lemma list_set_In {X : Type} (i : nat) (x x' : X) (l : list X) :
  nth_error l i = Some x -> In x' (list_set i x' l).
Proof.
  revert i. induction l as [| y l IH]; intros [| i]; simpl; intros H;
    try discriminate.
  - left. reflexivity.
  - right. apply IH. exact H.
Qed.

Lemma list_set_In_other {X : Type} (i : nat) (x x' u : X) (l : list X) :
  nth_error l i = Some x -> In u l -> u <> x -> In u (list_set i x' l).
Proof.
  revert i. induction l as [| y l IH]; intros [| i]; simpl; intros H Hu Hne;
    try discriminate.
  - inversion H; subst. destruct Hu as [Hu | Hu]; [congruence | right; exact Hu].
  - destruct Hu as [Hu | Hu]; [left; exact Hu | right; apply IH; assumption].
Qed.

Lemma list_set_last {X : Type} (x x' : X) (l : list X) :
  list_set (List.length l) x' (l ++ [x])%list = (l ++ [x'])%list.
Proof. induction l as [| y l IH]; simpl; [reflexivity | rewrite IH; reflexivity]. Qed.

Lemma nth_error_last {X : Type} (x : X) (l : list X) :
  nth_error (l ++ [x])%list (List.length l) = Some x.
Proof. induction l as [| y l IH]; simpl; [reflexivity | exact IH]. Qed.

Lemma NoDup_map_inj {X Y : Type} (g : X -> Y) (l : list X) (x y : X) :
  NoDup (map g l) -> In x l -> In y l -> g x = g y -> x = y.
Proof.
  induction l as [| z l IH]; simpl; intros Hnd Hx Hy Hg; [contradiction |].
  inversion Hnd as [| a l' Hnotin Hnd']; subst.
  destruct Hx as [Hx | Hx]; destruct Hy as [Hy | Hy]; subst.
  - reflexivity.
  - exfalso. apply Hnotin. rewrite Hg. apply in_map. exact Hy.
  - exfalso. apply Hnotin. rewrite <- Hg. apply in_map. exact Hx.
  - apply IH; assumption.
Qed.

Lemma NoDup_app_last {X : Type} (x : X) (l : list X) :
  NoDup l -> ~ In x l -> NoDup (l ++ [x])%list.
Proof.
  intros Hnd Hx. eapply Permutation_NoDup; [apply Permutation_cons_append |].
  constructor; assumption.
Qed.

Lemma Meta_find_version_Some (stem : string) (vs : list MetaVersion.t) (i : nat) :
  Meta.find_version stem vs = Some i ->
  exists v, nth_error vs i = Some v /\ MetaVersion.file_id v = stem.
Proof.
  revert i. induction vs as [| v vs IH]; simpl; intros i H; [discriminate |].
  destruct (String.eqb_spec (MetaVersion.file_id v) stem) as [He | Hne].
  - inversion H; subst. exists v. auto.
  - destruct (Meta.find_version stem vs) as [j |]; [| discriminate].
    inversion H; subst. apply (IH j eq_refl).
Qed.

Lemma Meta_find_version_None (stem : string) (vs : list MetaVersion.t) :
  Meta.find_version stem vs = None -> ~ In stem (map MetaVersion.file_id vs).
Proof.
  induction vs as [| v vs IH]; simpl; intros H; [tauto |].
  destruct (String.eqb_spec (MetaVersion.file_id v) stem) as [He | Hne];
    [discriminate |].
  destruct (Meta.find_version stem vs); [discriminate |].
  intros [Hin | Hin]; [contradiction | exact (IH eq_refl Hin)].
Qed.

Lemma Meta_update_file_found (E : Env) (file : File) (self : Meta.t) (i : nat)
  (v : MetaVersion.t) :
  Meta.find_version (file_stem file) (Meta.minecraft self) = Some i ->
  nth_error (Meta.minecraft self) i = Some v ->
  Meta.update_file E file self
  = (fst (MetaVersion.update E file v),
     Meta.set_minecraft
       (list_set i (snd (MetaVersion.update E file v)) (Meta.minecraft self)) self).
Proof.
  intros Hf Hn. unfold Meta.update_file. munfold. rewrite Hf. rewrite Hn.
  destruct (MetaVersion.update E file v). reflexivity.
Qed.

Lemma Meta_update_file_new (E : Env) (file : File) (self : Meta.t) :
  Meta.find_version (file_stem file) (Meta.minecraft self) = None ->
  Meta.update_file E file self
  = (fst (MetaVersion.update E file MetaVersion.empty),
     Meta.set_minecraft
       (Meta.minecraft self ++ [snd (MetaVersion.update E file MetaVersion.empty)])%list
       self).
Proof.
  intros Hf. unfold Meta.update_file. munfold. rewrite Hf.
  cbn [Meta.minecraft Meta.set_minecraft]. rewrite nth_error_last.
  destruct (MetaVersion.update E file MetaVersion.empty).
  rewrite list_set_last. reflexivity.
Qed.

(** A returning reconcile of a version leaves it with the stem and the hash
    of the file, provided its file id was the stem or the version was new. *)
Lemma MetaVersion_update_settles (E : Env) (file : File) (v v' : MetaVersion.t) (d : bool) :
  MetaVersion.update E file v = (Return d, v') ->
  MetaVersion.file_id v = file_stem file
  \/ MetaVersion.sha1 v <> sha1_hexdigest E (file_bytes file) ->
  MetaVersion.file_id v' = file_stem file
  /\ MetaVersion.sha1 v' = sha1_hexdigest E (file_bytes file).
Proof.
  intros H Hv.
  destruct (String.eqb_spec (MetaVersion.sha1 v) (sha1_hexdigest E (file_bytes file)))
    as [He | Hne].
  - rewrite MetaVersion_update_skip in H by exact He. inversion H; subst.
    destruct Hv as [Hv | Hv]; [auto | contradiction].
  - destruct (MetaVersion_update_Return E file v _ _ Hne H) as [[e He] | [_ [H1 H2]]];
      [discriminate | auto].
Qed.

Lemma Meta_update_file_step (E : Env) (file : File) (self self' : Meta.t) (d : bool) :
  (forall b, sha1_hexdigest E b <> EmptyString) ->
  NoDup (map MetaVersion.file_id (Meta.minecraft self)) ->
  Meta.update_file E file self = (Return d, self') ->
  NoDup (map MetaVersion.file_id (Meta.minecraft self'))
  /\ Meta_settled E file (Meta.minecraft self')
  /\ (forall g, Meta_settled E g (Meta.minecraft self) -> file_stem file <> file_stem g ->
        Meta_settled E g (Meta.minecraft self')).
Proof.
  intros Hsha Hnd Hrun.
  destruct (Meta.find_version (file_stem file) (Meta.minecraft self)) as [i |] eqn:Hf.
  - destruct (Meta_find_version_Some _ _ _ Hf) as [v [Hn Hv]].
    rewrite (Meta_update_file_found E file self i v Hf Hn) in Hrun.
    destruct (MetaVersion.update E file v) as [r v'] eqn:Hu. simpl in Hrun.
    inversion Hrun; subst. clear Hrun.
    destruct (MetaVersion_update_settles E file v v' d Hu (or_introl Hv)) as [H1 H2].
    cbn [Meta.minecraft Meta.set_minecraft]. repeat split.
    + rewrite (list_set_map MetaVersion.file_id i v v' _ Hn) by congruence. exact Hnd.
    + exists v'. split; [eapply list_set_In; exact Hn | auto].
    + intros g [u [Hu1 [Hu2 Hu3]]] Hne. exists u. split; [| auto].
      eapply list_set_In_other; [exact Hn | exact Hu1 |]. intros ->. congruence.
  - rewrite (Meta_update_file_new E file self Hf) in Hrun.
    destruct (MetaVersion.update E file MetaVersion.empty) as [r v'] eqn:Hu.
    simpl in Hrun. inversion Hrun; subst. clear Hrun.
    destruct (MetaVersion_update_settles E file MetaVersion.empty v' d Hu) as [H1 H2].
    { right. simpl. intros H. exact (Hsha _ (eq_sym H)). }
    cbn [Meta.minecraft Meta.set_minecraft]. repeat split.
    + rewrite map_app. simpl. apply NoDup_app_last; [exact Hnd |].
      rewrite H1. apply Meta_find_version_None. exact Hf.
    + exists v'. split; [apply in_or_app; right; left; reflexivity | auto].
    + intros g [u [Hu1 Hu2]] _. exists u. split; [apply in_or_app; left; exact Hu1 | auto].
Qed.

Lemma Meta_update_file_noop (E : Env) (file : File) (self : Meta.t) :
  NoDup (map MetaVersion.file_id (Meta.minecraft self)) ->
  Meta_settled E file (Meta.minecraft self) ->
  Meta.update_file E file self = (Return false, self).
Proof.
  intros Hnd [u [Hu1 [Hu2 Hu3]]].
  destruct (Meta.find_version (file_stem file) (Meta.minecraft self)) as [i |] eqn:Hf.
  - destruct (Meta_find_version_Some _ _ _ Hf) as [v [Hn Hv]].
    assert (v = u).
    { eapply NoDup_map_inj; [exact Hnd | eapply nth_error_In; exact Hn | exact Hu1 |].
      congruence. }
    subst v.
    rewrite (Meta_update_file_found E file self i u Hf Hn).
    rewrite MetaVersion_update_skip by exact Hu3. simpl.
    rewrite list_set_same by exact Hn. destruct self. reflexivity.
  - exfalso. apply (Meta_find_version_None _ _ Hf). rewrite <- Hu2.
    apply in_map. exact Hu1.
Qed.

Lemma Meta_update_loop (E : Env) (files : list File) :
  (forall b, sha1_hexdigest E b <> EmptyString) ->
  NoDup (map file_stem files) ->
  forall (self self' : Meta.t) (d0 d : bool),
    NoDup (map MetaVersion.file_id (Meta.minecraft self)) ->
    for_dirty files (Meta.update_file E) d0 self = (Return d, self') ->
    NoDup (map MetaVersion.file_id (Meta.minecraft self'))
    /\ (forall f, In f files -> Meta_settled E f (Meta.minecraft self'))
    /\ (forall g, Meta_settled E g (Meta.minecraft self) ->
          (forall f, In f files -> file_stem f <> file_stem g) ->
          Meta_settled E g (Meta.minecraft self')).
Proof.
  intros Hsha. induction files as [| file files IH]; intros Hst self self' d0 d Hnd Hrun.
  - simpl in Hrun. unfold ret in Hrun. inversion Hrun; subst.
    split; [exact Hnd |]. split; [intros f [] | auto].
  - simpl in Hst. inversion Hst as [| a l Hnotin Hst']; subst.
    simpl in Hrun. unfold bind in Hrun.
    destruct (Meta.update_file E file self) as [[d1 | e] s1] eqn:Hfile; [| discriminate].
    destruct (Meta_update_file_step E file self s1 d1 Hsha Hnd Hfile) as [Hnd1 [Hf1 Hp1]].
    destruct (IH Hst' s1 self' _ d Hnd1 Hrun) as [Hnd' [Hall Hp]].
    split; [exact Hnd' |]. split.
    + intros f [Hf | Hf].
      * subst f. apply Hp; [exact Hf1 |].
        intros f' Hf' Heq. apply Hnotin. rewrite <- Heq. apply in_map. exact Hf'.
      * apply Hall. exact Hf.
    + intros g Hg Hne. apply Hp.
      * apply Hp1; [exact Hg | apply Hne; left; reflexivity].
      * intros f Hf. apply Hne. right. exact Hf.
Qed.

Lemma Meta_settled_perm (E : Env) (file : File) (vs vs' : list MetaVersion.t) :
  Permutation vs vs' -> Meta_settled E file vs -> Meta_settled E file vs'.
Proof.
  intros Hp [v [H1 H2]]. exists v. split; [eapply Permutation_in; eassumption | exact H2].
Qed.

(** Idempotence of [Meta.update], for a descriptor directory without two
    files of the same stem and a store without two versions of the same file
    id. *)
Lemma Meta_update_idempotent (E : Env) (versions_dir : list File) (self self1 : Meta.t)
  (d : bool) :
  (forall b, sha1_hexdigest E b <> EmptyString) ->
  NoDup (map file_stem versions_dir) ->
  NoDup (map MetaVersion.file_id (Meta.minecraft self)) ->
  Meta.update E versions_dir self = (Return d, self1) ->
  Meta.update E versions_dir self1 = (Return false, self1).
Proof.
  intros Hsha Hst Hnd Hrun.
  unfold Meta.update in *.
  set (files := sorted_total String.ltb file_name false versions_dir) in *.
  assert (Hperm : Permutation files versions_dir) by apply sorted_total_perm.
  assert (Hst' : NoDup (map file_stem files)).
  { eapply Permutation_NoDup; [apply Permutation_map, Permutation_sym, Hperm | exact Hst]. }
  unfold bind at 1 in Hrun.
  destruct (for_dirty files (Meta.update_file E) false self) as [[d1 | e] s1] eqn:Hloop;
    [| discriminate].
  destruct (Meta_update_loop E files Hsha Hst' self s1 false d1 Hnd Hloop)
    as [Hnd1 [Hall _]].
  assert (Hgoal : NoDup (map MetaVersion.file_id (Meta.minecraft self1))
                  /\ forall f, In f files -> Meta_settled E f (Meta.minecraft self1)).
  { destruct d1; munfold; inversion Hrun; subst; [| auto].
    cbn [Meta.minecraft Meta.set_minecraft].
    assert (Hp : Permutation (Meta.minecraft s1)
                   (sorted_total Z.ltb MetaVersion.release_time true (Meta.minecraft s1)))
      by apply Permutation_sym, sorted_total_perm.
    split.
    - eapply Permutation_NoDup; [apply Permutation_map, Hp | exact Hnd1].
    - intros f Hf. eapply Meta_settled_perm; [exact Hp | apply Hall, Hf]. }
  destruct Hgoal as [HndF HallF].
  unfold bind. rewrite for_dirty_noop; [reflexivity |].
  intros f Hf. apply Meta_update_file_noop; [exact HndF | apply HallF, Hf].
Qed.

(** ** Idempotence of [Index.update] *)

(** The scheme of the three proofs: every iteration settles its own item and
    disturbs no item of another key, so after the loop over items of
    pairwise distinct keys all of them are settled. *)
Section Settling.
Variables S X K : Type.
Variable body : X -> M S bool.
Variable key : X -> K.
Variable good : X -> Prop.
Variable Inv : S -> Prop.
Variable settled : X -> S -> Prop.

Hypothesis step :
  forall x s d s', good x -> Inv s -> body x s = (Return d, s') ->
    Inv s' /\ settled x s'
    /\ forall g, settled g s -> key x <> key g -> settled g s'.

Lemma for_dirty_settles (xs : list X) :
  NoDup (map key xs) ->
  (forall x, In x xs -> good x) ->
  forall (s s' : S) (d0 d : bool),
    Inv s ->
    for_dirty xs body d0 s = (Return d, s') ->
    Inv s'
    /\ (forall x, In x xs -> settled x s')
    /\ (forall g, settled g s -> (forall x, In x xs -> key x <> key g) -> settled g s').
Proof.
  induction xs as [| x xs IH]; intros Hnd Hgood s s' d0 d Hinv Hrun.
  - simpl in Hrun. unfold ret in Hrun. inversion Hrun; subst.
    split; [exact Hinv |]. split; [intros y [] | auto].
  - simpl in Hnd. inversion Hnd as [| a l Hnotin Hnd']; subst.
    simpl in Hrun. unfold bind in Hrun.
    destruct (body x s) as [[d1 | e] s1] eqn:Hx; [| discriminate].
    destruct (step x s d1 s1 (Hgood x (or_introl eq_refl)) Hinv Hx) as [Hinv1 [Hx1 Hp1]].
    destruct (IH Hnd' (fun y Hy => Hgood y (or_intror Hy)) s1 s' _ d Hinv1 Hrun)
      as [Hinv' [Hall Hp]].
    split; [exact Hinv' |]. split.
    + intros y [Hy | Hy].
      * subst y. apply Hp; [exact Hx1 |].
        intros z Hz Heq. apply Hnotin. rewrite <- Heq. apply in_map. exact Hz.
      * apply Hall. exact Hy.
    + intros g Hg Hne. apply Hp.
      * apply Hp1; [exact Hg | apply Hne; left; reflexivity].
      * intros z Hz. apply Hne. right. exact Hz.
Qed.

End Settling.

Lemma IndexMapping_update_Return (jar : JarsJar.t) (self self' : IndexMapping.t) (d : bool) :
  IndexMapping.update jar self = (Return d, self') -> self' = IndexMapping.from_jar jar.
Proof.
  unfold IndexMapping.update. munfold.
  destruct (IndexMapping.identity_matches self jar) eqn:Hid; simpl; [| discriminate].
  unfold IndexMapping.identity_matches in Hid. rewrite !andb_true_iff in Hid.
  destruct Hid as [[[H1 H2] H3] H4].
  apply String.eqb_eq in H1, H2, H4. apply Z.eqb_eq in H3.
  destruct self as [a b c k s p u]. simpl in *. subst.
  unfold IndexMapping.from_jar.
  destruct (String.eqb_spec s (JarsJar.jar_sha1_meta jar)) as [Hs | Hs];
    destruct (String.eqb_spec p (JarsJar.map_path jar)) as [Hp | Hp]; simpl;
    match goal with
    | |- context [String.eqb ?x ?y] => destruct (String.eqb_spec x y) as [Hu | Hu]
    end; simpl; intros H; inversion H; subst; reflexivity.
Qed.

Lemma IndexMapping_update_same (jar : JarsJar.t) :
  IndexMapping.update jar (IndexMapping.from_jar jar)
  = (Return false, IndexMapping.from_jar jar).
Proof.
  unfold IndexMapping.update, IndexMapping.identity_matches, IndexMapping.from_jar.
  munfold. simpl. rewrite !String.eqb_refl, Z.eqb_refl. simpl. reflexivity.
Qed.

Lemma Index_update_mapping_noop (jar : JarsJar.t) (self : Index.t) :
  Index_settled jar (Index.mappings self) ->
  Index.update_mapping jar self = (Return false, self).
Proof.
  intros [inner [H1 H2]]. unfold Index.update_mapping. munfold.
  unfold dict_mem. rewrite H1. simpl. rewrite H1. rewrite H2. simpl.
  rewrite H1, H2. rewrite IndexMapping_update_same.
  rewrite (dict_set_get_id _ _ _ _ H2), (dict_set_get_id _ _ _ _ H1).
  destruct self. reflexivity.
Qed.

Lemma dict2_updated_set {V : Type} (version key : string) (x : V) (inner : dict V)
  (ms : dict (dict V)) :
  dict_get version ms = Some inner ->
  dict2_updated version key x ms (dict_set version (dict_set key x inner) ms).
Proof.
  intros H. split.
  - intros v Hv. apply dict_get_set_other. congruence.
  - exists (dict_set key x inner). split; [apply dict_get_set_same |].
    split; [apply dict_get_set_same |].
    intros k Hk. rewrite H. apply dict_get_set_other. congruence.
Qed.

Lemma dict2_updated_sorted {V : Type} (version key : string) (x : V) (inner : dict V)
  (ms ms1 : dict (dict V)) :
  dict2_updated version key x ms ms1 ->
  dict_get version ms1 = Some inner ->
  dict2_updated version key x ms (dict_set version (Util.sort_dict inner) ms1).
Proof.
  intros [H1 [inner' [H2 [H3 H4]]]] Hi. rewrite Hi in H2. inversion H2; subst inner'.
  split.
  - intros v Hv. rewrite dict_get_set_other by congruence. apply H1. exact Hv.
  - exists (Util.sort_dict inner). split; [apply dict_get_set_same |].
    rewrite !dict_get_sort_dict. split; [exact H3 |].
    intros k Hk. rewrite dict_get_sort_dict. apply H4. exact Hk.
Qed.

Lemma dict2_updated_new_version {V : Type} (version key : string) (x : V)
  (ms ms' : dict (dict V)) :
  dict_get version ms = None ->
  dict2_updated version key x (dict_set version [] ms) ms' ->
  dict2_updated version key x ms ms'.
Proof.
  intros Hn [H1 [inner' [H2 [H3 H4]]]]. split.
  - intros v Hv. rewrite H1 by exact Hv. apply dict_get_set_other. congruence.
  - exists inner'. split; [exact H2 |]. split; [exact H3 |].
    intros k Hk. rewrite (H4 k Hk), dict_get_set_same, Hn. reflexivity.
Qed.

Lemma Index_update_mapping_updated (jar : JarsJar.t) (self self' : Index.t) (d : bool) :
  Index.update_mapping jar self = (Return d, self') ->
  dict2_updated (JarsJar.version_id jar) (JarsJar.jar_key jar) (IndexMapping.from_jar jar)
    (Index.mappings self) (Index.mappings self').
Proof.
  unfold Index.update_mapping.
  unfold bind at 1. unfold get at 1. unfold bind at 1.
  set (version := JarsJar.version_id jar). set (key := JarsJar.jar_key jar).
  assert (Hcore : forall s0 : Index.t,
             (exists inner, dict_get version (Index.mappings s0) = Some inner) ->
             (self <- get;;
              inner <- lift_option (KeyError version)
                         (dict_get version (Index.mappings self));;
              (if negb (dict_mem key inner)
               then
                modify (Index.set_version version
                          (dict_set key (IndexMapping.from_jar jar) inner));;;
                ret true
               else
                jar_dirty <- zoom Index.mappings
                               (fun m self0 => Index.mk (Index.timestamp self0) m)
                               (at_key version (at_key key (IndexMapping.update jar)));;
                (if jar_dirty
                 then
                  self0 <- get;;
                  inner0 <- lift_option (KeyError version)
                              (dict_get version (Index.mappings self0));;
                  modify (Index.set_version version (Util.sort_dict inner0));;; ret true
                 else ret false))) s0 = (Return d, self') ->
             dict2_updated version key (IndexMapping.from_jar jar)
               (Index.mappings s0) (Index.mappings self')).
  { intros s0 [inner Hinner]. munfold. rewrite Hinner.
    destruct (dict_mem key inner) eqn:Hm; simpl.
    - rewrite Hinner. apply dict_mem_true in Hm. destruct Hm as [m Hm]. rewrite Hm.
      destruct (IndexMapping.update jar m) as [[b | e] m'] eqn:Hu; [| discriminate].
      apply IndexMapping_update_Return in Hu. subst m'.
      destruct b; simpl.
      + rewrite dict_get_set_same. intros H. inversion H; subst. simpl.
        apply (dict2_updated_sorted version key _ (dict_set key (IndexMapping.from_jar jar) inner)).
        * apply dict2_updated_set. exact Hinner.
        * apply dict_get_set_same.
      + intros H. inversion H; subst. simpl. apply dict2_updated_set. exact Hinner.
    - intros H. inversion H; subst. simpl. apply dict2_updated_set. exact Hinner. }
  destruct (dict_mem version (Index.mappings self)) eqn:Hmem; simpl.
  - unfold ret at 1. intros H. apply Hcore; [| exact H].
    apply dict_mem_true in Hmem. exact Hmem.
  - unfold modify at 1. intros H. apply dict_mem_false in Hmem.
    apply dict2_updated_new_version; [exact Hmem |].
    apply (Hcore (Index.set_version version [] self)); [| exact H].
    exists []. simpl. apply dict_get_set_same.
Qed.

Lemma Index_settled_of_updated (jar g : JarsJar.t) (ms ms' : dict (dict IndexMapping.t)) :
  dict2_updated (JarsJar.version_id jar) (JarsJar.jar_key jar) (IndexMapping.from_jar jar)
    ms ms' ->
  Index_settled jar ms'
  /\ (Index_settled g ms -> Index_key jar <> Index_key g -> Index_settled g ms').
Proof.
  intros [H1 [inner' [H2 [H3 H4]]]]. split.
  - exists inner'. auto.
  - intros [inner [G1 G2]] Hne. unfold Index_settled.
    destruct (String.eqb_spec (JarsJar.version_id g) (JarsJar.version_id jar)) as [Hv | Hv].
    + rewrite Hv in *. exists inner'. split; [exact H2 |].
      rewrite H4, G1; [exact G2 |].
      intros Hk. apply Hne. unfold Index_key. congruence.
    + exists inner. split; [| exact G2]. rewrite H1 by exact Hv. exact G1.
Qed.

(** Idempotence of [Index.update], for a Jars snapshot without two records
    of the same version id and key. *)
Lemma Index_update_idempotent (jars : Jars.t) (self self1 : Index.t) (d : bool) :
  NoDup (map Index_key (Jars.all jars)) ->
  Index.update jars self = (Return d, self1) ->
  Index.update jars self1 = (Return false, self1).
Proof.
  intros Hnd Hrun. unfold Index.update in *.
  unfold bind at 1 in Hrun.
  destruct (for_dirty (Jars.all jars) Index.update_mapping false self)
    as [[d1 | e] s1] eqn:Hloop; [| discriminate].
  assert (Hstep : forall x s b s', True -> True ->
            Index.update_mapping x s = (Return b, s') ->
            True /\ Index_settled x (Index.mappings s')
            /\ forall g, Index_settled g (Index.mappings s) -> Index_key x <> Index_key g ->
                 Index_settled g (Index.mappings s')).
  { intros x s b s' _ _ Hx. split; [exact I |].
    apply Index_update_mapping_updated in Hx.
    split; [exact (proj1 (Index_settled_of_updated x x _ _ Hx)) |].
    intros g. exact (proj2 (Index_settled_of_updated x g _ _ Hx)). }
  destruct (for_dirty_settles Index.t JarsJar.t (string * string)
              Index.update_mapping Index_key (fun _ => True) (fun _ => True)
              (fun jar s => Index_settled jar (Index.mappings s)) Hstep
              (Jars.all jars) Hnd (fun _ _ => I) self s1 false d1 I Hloop)
    as [_ [Hall _]].
  assert (HallF : forall jar, In jar (Jars.all jars) ->
                    Index_settled jar (Index.mappings self1)).
  { destruct d1; munfold.
    - destruct (Util.sort_dict_key _ true (Index.mappings s1)) as [ms | e] eqn:Hsort;
        [| discriminate].
      inversion Hrun; subst. simpl. intros jar Hjar.
      destruct (Hall jar Hjar) as [inner [G1 G2]]. exists inner. split; [| exact G2].
      rewrite (dict_get_sort_dict_key _ _ _ _ _ _ Hsort). exact G1.
    - inversion Hrun; subst. exact Hall. }
  unfold bind. rewrite for_dirty_noop; [reflexivity |].
  intros jar Hjar. apply Index_update_mapping_noop, HallF, Hjar.
Qed.

(** ** Idempotence of [Jars.update] *)

Lemma JarsJar_update_Return_sha1 (E : Env) (meta_jar : MetaJar.t) (self self' : JarsJar.t)
  (w w' : World) (d : bool) :
  JarsJar.update E meta_jar (self, w) = (Return d, (self', w')) ->
  JarsJar.jar_sha1_meta self' = MetaJar.sha1 meta_jar.
Proof.
  intros H. apply JarsJar_update_again in H.
  destruct (String.eqb_spec (MetaJar.sha1 meta_jar) (JarsJar.jar_sha1_meta self'))
    as [He | Hne]; [congruence |].
  rewrite JarsJar_update_open in H by exact Hne.
  unfold JarsJar_update_steps in H.
  destruct (JarsJar.download E meta_jar self' w') as [[[] | e] w1]; [| discriminate].
  destruct (JarsJar.extract_bundle E self' w1) as [[ub | e] w2]; [| discriminate].
  destruct (JarsJar.unbundle self' ub w2) as [[[] | e] w3]; [| discriminate].
  destruct (JarsJar.mappingio E self' w3) as [[[] | e] w4]; [| discriminate].
  destruct (files w4 (JarsJar.jar_path self')); discriminate.
Qed.

Lemma JarsJar_from_meta_jar_Return_sha1 (E : Env) (meta_jar : MetaJar.t) (jar : JarsJar.t)
  (w w' : World) :
  JarsJar.from_meta_jar E meta_jar w = (Return jar, w') ->
  JarsJar.jar_sha1_meta jar = MetaJar.sha1 meta_jar.
Proof.
  unfold JarsJar.from_meta_jar.
  destruct (JarsJar.update E meta_jar _) as [[d | e] [self' w1]] eqn:Hu; [| discriminate].
  intros H. inversion H; subst. eapply JarsJar_update_Return_sha1. exact Hu.
Qed.

Lemma Jars_update_jar_new (E : Env) (version jar_name : string) (meta_jar : MetaJar.t)
  (self : Jars.t) (w : World) (inner : dict JarsJar.t) :
  dict_get version (Jars.versions self) = Some inner ->
  dict_get jar_name inner = None ->
  Jars.update_jar E version jar_name meta_jar (self, w)
  = match JarsJar.from_meta_jar E meta_jar w with
    | (Return jar, w') =>
        (Return true, (Jars.set_version version (dict_set jar_name jar inner) self, w'))
    | (Raise e, w') => (Raise e, (self, w'))
    end.
Proof.
  intros H1 H2. unfold Jars.update_jar. munfold. cbn [fst snd].
  rewrite H1. apply dict_mem_false in H2. rewrite H2. cbn [negb fst snd].
  destruct (JarsJar.from_meta_jar E meta_jar w) as [[jar | e] w']; reflexivity.
Qed.

Lemma Jars_update_jar_existing (E : Env) (version jar_name : string) (meta_jar : MetaJar.t)
  (self : Jars.t) (w : World) (inner : dict JarsJar.t) (jar : JarsJar.t) :
  dict_get version (Jars.versions self) = Some inner ->
  dict_get jar_name inner = Some jar ->
  Jars.update_jar E version jar_name meta_jar (self, w)
  = match JarsJar.update E meta_jar (jar, w) with
    | (Return version_dirty, (jar', w')) =>
        let self1 := Jars.set_version version (dict_set jar_name jar' inner) self in
        if version_dirty
        then (Return true,
              (Jars.set_version version (Util.sort_dict (dict_set jar_name jar' inner))
                 self1, w'))
        else (Return false, (self1, w'))
    | (Raise e, (jar', w')) =>
        (Raise e, (Jars.set_version version (dict_set jar_name jar' inner) self, w'))
    end.
Proof.
  intros H1 H2. unfold Jars.update_jar, Jars.on_jar. munfold. cbn [fst snd].
  rewrite H1. unfold dict_mem. rewrite H2. cbn [negb fst snd]. rewrite H1, H2.
  destruct (JarsJar.update E meta_jar (jar, w)) as [[[] | e] [jar' w']];
    cbn [fst snd]; try reflexivity.
  cbn [Jars.versions Jars.set_version]. rewrite dict_get_set_same. reflexivity.
Qed.

Lemma Jars_update_jar_updated (E : Env) (version jar_name : string) (meta_jar : MetaJar.t)
  (self self' : Jars.t) (w w' : World) (d : bool) :
  (exists inner, dict_get version (Jars.versions self) = Some inner) ->
  Jars.update_jar E version jar_name meta_jar (self, w) = (Return d, (self', w')) ->
  exists jar',
    JarsJar.jar_sha1_meta jar' = MetaJar.sha1 meta_jar
    /\ dict2_updated version jar_name jar' (Jars.versions self) (Jars.versions self').
Proof.
  intros [inner Hinner] Hrun.
  destruct (dict_get jar_name inner) as [jar |] eqn:Hjar.
  - rewrite (Jars_update_jar_existing E version jar_name meta_jar self w inner jar
               Hinner Hjar) in Hrun.
    destruct (JarsJar.update E meta_jar (jar, w)) as [[vd | e] [jar' w1]] eqn:Hu;
      [| discriminate].
    exists jar'. split; [eapply JarsJar_update_Return_sha1; exact Hu |].
    destruct vd; inversion Hrun; subst; cbn [Jars.versions Jars.set_version].
    + apply (dict2_updated_sorted version jar_name jar' (dict_set jar_name jar' inner)).
      * apply dict2_updated_set. exact Hinner.
      * apply dict_get_set_same.
    + apply dict2_updated_set. exact Hinner.
  - rewrite (Jars_update_jar_new E version jar_name meta_jar self w inner Hinner Hjar)
      in Hrun.
    destruct (JarsJar.from_meta_jar E meta_jar w) as [[jar | e] w1] eqn:Hf;
      [| discriminate].
    inversion Hrun; subst. exists jar.
    split; [eapply JarsJar_from_meta_jar_Return_sha1; exact Hf |].
    cbn [Jars.versions Jars.set_version]. apply dict2_updated_set. exact Hinner.
Qed.

Lemma Jars_update_jar_noop (E : Env) (version : string) (item : string * MetaJar.t)
  (self : Jars.t) (w : World) :
  Jars_settled version item (Jars.versions self) ->
  Jars.update_jar E version (fst item) (snd item) (self, w) = (Return false, (self, w)).
Proof.
  intros [inner [jar [H1 [H2 H3]]]].
  rewrite (Jars_update_jar_existing E version (fst item) (snd item) self w inner jar H1 H2).
  rewrite JarsJar_update_closed by (symmetry; exact H3).
  cbv zeta. unfold Jars.set_version.
  rewrite (dict_set_get_id _ _ _ _ H2), (dict_set_get_id _ _ _ _ H1).
  destruct self. reflexivity.
Qed.

Lemma Jars_settled_of_updated (version jar_name : string) (meta_jar : MetaJar.t)
  (jar' : JarsJar.t) (vs vs' : dict (dict JarsJar.t)) :
  JarsJar.jar_sha1_meta jar' = MetaJar.sha1 meta_jar ->
  dict2_updated version jar_name jar' vs vs' ->
  Jars_settled version (jar_name, meta_jar) vs'
  /\ (forall g, Jars_settled version g vs -> jar_name <> fst g -> Jars_settled version g vs')
  /\ (forall v, v <> version -> dict_get v vs' = dict_get v vs)
  /\ exists inner', dict_get version vs' = Some inner'.
Proof.
  intros Hsha [H1 [inner' [H2 [H3 H4]]]]. repeat split.
  - exists inner', jar'. auto.
  - intros g [inner [jar [G1 [G2 G3]]]] Hne. exists inner', jar.
    split; [exact H2 |]. split; [| exact G3].
    rewrite H4 by congruence. rewrite G1. exact G2.
  - exact H1.
  - exists inner'. exact H2.
Qed.

Lemma Jars_version_settled_frame (g : MetaVersion.t) (vs vs' : dict (dict JarsJar.t)) :
  dict_get (MetaVersion.id g) vs' = dict_get (MetaVersion.id g) vs ->
  Jars_version_settled g vs -> Jars_version_settled g vs'.
Proof.
  intros Heq [[inner Hi] Hall]. split.
  - exists inner. congruence.
  - intros item Hitem. destruct (Hall item Hitem) as [inner' [jar [G1 G2]]].
    exists inner', jar. split; [congruence | exact G2].
Qed.

Lemma Jars_update_version_step (E : Env) (mc_version : MetaVersion.t)
  (st st' : Jars.t * World) (d : bool) :
  NoDup (dict_keys (MetaVersion.jars mc_version)) ->
  Jars.update_version E mc_version st = (Return d, st') ->
  Jars_version_settled mc_version (Jars.versions (fst st'))
  /\ forall g, Jars_version_settled g (Jars.versions (fst st)) ->
       MetaVersion.id mc_version <> MetaVersion.id g ->
       Jars_version_settled g (Jars.versions (fst st')).
Proof.
  intros Hnd Hrun. destruct st as [self w].
  set (version := MetaVersion.id mc_version) in *.
  set (Inv := fun s : Jars.t * World =>
                (exists inner, dict_get version (Jars.versions (fst s)) = Some inner)
                /\ forall v, v <> version ->
                     dict_get v (Jars.versions (fst s)) = dict_get v (Jars.versions self)).
  assert (Hstep : forall (x : string * MetaJar.t) s b s', True -> Inv s ->
            Jars.update_jar E version (fst x) (snd x) s = (Return b, s') ->
            Inv s' /\ Jars_settled version x (Jars.versions (fst s'))
            /\ forall g, Jars_settled version g (Jars.versions (fst s)) -> fst x <> fst g ->
                 Jars_settled version g (Jars.versions (fst s'))).
  { intros [name mj] [s0 w0] b [s1 w1] _ [Hin Hfr] Hx. cbn [fst snd] in *.
    destruct (Jars_update_jar_updated E version name mj s0 s1 w0 w1 b Hin Hx)
      as [jar' [Hsha Hupd]].
    destruct (Jars_settled_of_updated version name mj jar' _ _ Hsha Hupd)
      as [K1 [K2 [K3 K4]]].
    split; [| split; [exact K1 | exact K2]].
    split; [exact K4 |]. intros v Hv. rewrite K3 by exact Hv. apply Hfr. exact Hv. }
  unfold Jars.update_version in Hrun. fold version in Hrun.
  unfold bind at 1 in Hrun. unfold on_self at 1, zoom at 1, get at 1 in Hrun.
  cbn [fst snd] in Hrun. unfold bind at 1 in Hrun.
  assert (Hloop : forall s0 d0,
            Inv s0 ->
            for_dirty (MetaVersion.jars mc_version)
              (fun item => Jars.update_jar E version (fst item) (snd item)) d0 s0
            = (Return d, st') ->
            Jars_version_settled mc_version (Jars.versions (fst st'))
            /\ forall g, Jars_version_settled g (Jars.versions self) ->
                 version <> MetaVersion.id g ->
                 Jars_version_settled g (Jars.versions (fst st'))).
  { intros s0 d0 Hinv Hl.
    destruct (for_dirty_settles (Jars.t * World) (string * MetaJar.t) string
                (fun item => Jars.update_jar E version (fst item) (snd item))
                fst (fun _ => True) Inv
                (fun item s => Jars_settled version item (Jars.versions (fst s))) Hstep
                (MetaVersion.jars mc_version) Hnd (fun _ _ => I) s0 st' d0 d Hinv Hl)
      as [[Hin' Hfr'] [Hall _]].
    split.
    - split; [exact Hin' | exact Hall].
    - intros g Hg Hne. eapply Jars_version_settled_frame; [| exact Hg].
      apply Hfr'. congruence. }
  destruct (dict_mem version (Jars.versions self)) eqn:Hmem; cbn [negb] in Hrun.
  - unfold ret at 1 in Hrun. eapply Hloop; [| exact Hrun].
    split; [apply dict_mem_true; exact Hmem | reflexivity].
  - unfold bind at 1, on_self at 1, zoom at 1, modify at 1, ret at 1 in Hrun.
    cbn [fst snd] in Hrun. eapply Hloop; [| exact Hrun].
    split; cbn [fst Jars.versions Jars.set_version].
    + exists []. apply dict_get_set_same.
    + intros v Hv. apply dict_get_set_other. congruence.
Qed.

Lemma Jars_update_version_noop (E : Env) (mc_version : MetaVersion.t) (self : Jars.t)
  (w : World) :
  Jars_version_settled mc_version (Jars.versions self) ->
  Jars.update_version E mc_version (self, w) = (Return false, (self, w)).
Proof.
  intros [Hin Hall]. unfold Jars.update_version.
  unfold bind at 1. unfold on_self at 1, zoom at 1, get at 1. cbn [fst snd].
  apply dict_mem_true in Hin. rewrite Hin. cbn [negb]. unfold bind at 1, ret at 1.
  apply for_dirty_noop. intros item Hitem.
  apply Jars_update_jar_noop, Hall, Hitem.
Qed.

(** Idempotence of [Jars.update], for a Meta snapshot without two versions
    of the same id (the jars maps, being dicts, hold no key twice). *)
Lemma Jars_update_idempotent (E : Env) (meta : Meta.t) (self self1 : Jars.t)
  (w w1 : World) (d : bool) :
  NoDup (map MetaVersion.id (Meta.minecraft meta)) ->
  (forall mc_version, In mc_version (Meta.minecraft meta) ->
     NoDup (dict_keys (MetaVersion.jars mc_version))) ->
  Jars.update E meta (self, w) = (Return d, (self1, w1)) ->
  Jars.update E meta (self1, w1) = (Return false, (self1, w1)).
Proof.
  intros Hnd Hkeys Hrun. unfold Jars.update in *.
  unfold bind at 1 in Hrun.
  destruct (for_dirty (rev (Meta.minecraft meta)) (Jars.update_version E) false (self, w))
    as [[d1 | e] [s1 w1']] eqn:Hloop; [| discriminate].
  assert (Hstep : forall x s b s',
            NoDup (dict_keys (MetaVersion.jars x)) -> True ->
            Jars.update_version E x s = (Return b, s') ->
            True /\ Jars_version_settled x (Jars.versions (fst s'))
            /\ forall g, Jars_version_settled g (Jars.versions (fst s)) ->
                 MetaVersion.id x <> MetaVersion.id g ->
                 Jars_version_settled g (Jars.versions (fst s'))).
  { intros x s b s' Hx _ Hxr. split; [exact I |].
    exact (Jars_update_version_step E x s s' b Hx Hxr). }
  destruct (for_dirty_settles (Jars.t * World) MetaVersion.t string
              (Jars.update_version E) MetaVersion.id
              (fun x => NoDup (dict_keys (MetaVersion.jars x))) (fun _ => True)
              (fun x s => Jars_version_settled x (Jars.versions (fst s))) Hstep
              (rev (Meta.minecraft meta))) with
    (s := (self, w)) (s' := (s1, w1')) (d0 := false) (d := d1) as [_ [Hall _]].
  { rewrite map_rev. apply NoDup_rev. exact Hnd. }
  { intros x Hx. apply Hkeys. apply in_rev. exact Hx. }
  { exact I. }
  { exact Hloop. }
  cbn [fst] in Hall.
  assert (HallF : w1 = w1'
                  /\ forall x, In x (rev (Meta.minecraft meta)) ->
                       Jars_version_settled x (Jars.versions self1)).
  { destruct d1; munfold; cbn [fst snd] in Hrun.
    - destruct (Util.sort_dict_key _ true (Jars.versions s1)) as [vs | e] eqn:Hsort;
        [| discriminate].
      inversion Hrun; subst. split; [reflexivity |]. intros x Hx.
      eapply Jars_version_settled_frame; [| apply Hall; exact Hx].
      simpl. apply (dict_get_sort_dict_key _ _ _ _ _ _ Hsort).
    - inversion Hrun; subst. split; [reflexivity | exact Hall]. }
  destruct HallF as [-> HallF].
  unfold bind. rewrite for_dirty_noop; [reflexivity |].
  intros x Hx. apply Jars_update_version_noop, HallF, Hx.
Qed.

(** [Index.save] stamps the time of the save and nothing else. *)
Lemma Index_save_keeps_mappings (now : Z) (self : Index.t) :
  Index.mappings (snd (Index.save now self)) = Index.mappings self.
Proof. reflexivity. Qed.

(** C1 (as amended): for each store, a completed [update] followed by a
    second [update] against the same upstream input returns not-dirty and
    leaves the store exactly as the first run left it (for Jars also the
    file system, with no request and no conversion; for Index the timestamp
    included, which only [save] stamps), provided the upstream input names
    every item once: no two descriptor files of the same stem and no two
    stored versions of the same file id for Meta, no two versions of the same
    id in the Meta snapshot for Jars, no two records of the same version id
    and key in the Jars snapshot for Index.  The snapshot written by [save]
    is a function of the store, so equal stores serialise to equal bytes. *)
Theorem update_twice_is_idempotent (E : Env) :
  (forall (versions_dir : list File) (self self1 : Meta.t) (d : bool),
      (forall b, sha1_hexdigest E b <> EmptyString) ->
      NoDup (map file_stem versions_dir) ->
      NoDup (map MetaVersion.file_id (Meta.minecraft self)) ->
      Meta.update E versions_dir self = (Return d, self1) ->
      Meta.update E versions_dir self1 = (Return false, self1))
  /\ (forall (meta : Meta.t) (self self1 : Jars.t) (w w1 : World) (d : bool),
        NoDup (map MetaVersion.id (Meta.minecraft meta)) ->
        (forall mc_version, In mc_version (Meta.minecraft meta) ->
           NoDup (dict_keys (MetaVersion.jars mc_version))) ->
        Jars.update E meta (self, w) = (Return d, (self1, w1)) ->
        Jars.update E meta (self1, w1) = (Return false, (self1, w1)))
  /\ (forall (jars : Jars.t) (self self1 : Index.t) (d : bool),
        NoDup (map Index_key (Jars.all jars)) ->
        Index.update jars self = (Return d, self1) ->
        Index.update jars self1 = (Return false, self1)).
Proof.
  split; [| split].
  - intros versions_dir self self1 d Hsha Hst Hnd Hrun.
    exact (Meta_update_idempotent E versions_dir self self1 d Hsha Hst Hnd Hrun).
  - intros meta self self1 w w1 d Hnd Hkeys Hrun.
    exact (Jars_update_idempotent E meta self self1 w w1 d Hnd Hkeys Hrun).
  - intros jars self self1 d Hnd Hrun.
    exact (Index_update_idempotent jars self self1 d Hnd Hrun).
Qed.

Lemma update_twice_is_idempotent_witness :
  (let r1 := Meta.update Example.env1 Example.dir1 Meta.empty in
   fst r1 = Return true
   /\ Meta.update Example.env1 Example.dir1 (snd r1) = (Return false, snd r1))
  /\ (let r1 := Jars.update Example.env_store Example.meta_server_added
                  (Example.jars_without_server, Example.world_without_server) in
      fst r1 = Return true
      /\ Jars.update Example.env_store Example.meta_server_added (snd r1)
         = (Return false, snd r1))
  /\ (let jars := Jars.mk [("1.0", [("client", Example.jar_of "1.0" "1.0" 3 "client" "c");
                                    ("server", Example.jar_of "1.0" "1.0" 3 "server" "s")])] in
      let r1 := Index.update jars Index.empty in
      fst r1 = Return true
      /\ Index.update jars (snd r1) = (Return false, snd r1)).
Proof.
  split; [| split]; cbv zeta.
  - split; [vm_compute; reflexivity |].
    apply (proj1 (update_twice_is_idempotent Example.env1)
             Example.dir1 Meta.empty _ true).
    + intros b. simpl. discriminate.
    + vm_compute. repeat constructor. simpl. tauto.
    + simpl. constructor.
    + vm_compute. reflexivity.
  - split; [vm_compute; reflexivity |].
    match goal with
    | |- Jars.update ?E ?m (snd ?r) = _ =>
        rewrite (surjective_pairing (snd r));
        apply (proj1 (proj2 (update_twice_is_idempotent E))
                 m Example.jars_without_server _ Example.world_without_server _ true)
    end.
    + simpl. repeat constructor. simpl. tauto.
    + intros mc [H | []]. subst mc. simpl.
      repeat constructor; simpl; intuition discriminate.
    + vm_compute. reflexivity.
  - split; [vm_compute; reflexivity |].
    match goal with
    | |- Index.update ?j (snd ?r) = _ =>
        apply (proj2 (proj2 (update_twice_is_idempotent Example.env1))
                 j Index.empty _ true)
    end.
    + vm_compute. repeat constructor; simpl; intuition discriminate.
    + vm_compute. reflexivity.
Defined.

(** * Further properties of the code *)

(** ** util.py: [sort_dict] *)

Lemma String_ltb_lt (a b : string) :
  String.ltb a b = true <-> OrderedTypeEx.String_as_OT.lt a b.
Proof.
  unfold String.ltb. rewrite <- OrderedTypeEx.String_as_OT.cmp_lt.
  unfold OrderedTypeEx.String_as_OT.cmp.
  destruct (String.compare a b); split; intros H; try discriminate; reflexivity.
Qed.

Lemma String_ltb_asym (a b : string) : String.ltb a b = true -> String.ltb b a = false.
Proof.
  unfold String.ltb. rewrite (String.compare_antisym a b).
  destruct (String.compare b a); simpl; intros H; try discriminate; reflexivity.
Qed.

Lemma String_ltb_trans_neg (a b c : string) :
  String.ltb b a = false -> String.ltb c b = false -> String.ltb c a = false.
Proof.
  intros Hba Hcb. destruct (String.ltb c a) eqn:Hca; [| reflexivity].
  exfalso. unfold String.ltb in Hcb.
  destruct (String.compare c b) eqn:Hc; try discriminate.
  - apply String.compare_eq_iff in Hc. subst c. congruence.
  - assert (Hbc : String.ltb b c = true).
    { unfold String.ltb. rewrite (String.compare_antisym b c), Hc. reflexivity. }
    apply String_ltb_lt in Hbc, Hca.
    assert (Hlt : String.ltb b a = true).
    { apply String_ltb_lt. eapply OrderedTypeEx.String_as_OT.lt_trans; eassumption. }
    congruence.
Qed.

Lemma String_leb_ltb (a b : string) : String.leb a b = true <-> String.ltb b a = false.
Proof.
  unfold String.leb, String.ltb. rewrite (String.compare_antisym a b).
  destruct (String.compare b a); simpl; split; intros H; try discriminate; reflexivity.
Qed.

Section SortedFixpoint.
Variables X K : Type.
Variable lt : K -> K -> bool.

(** A list already in order is left as it is. *)
Lemma sort_decorated_in_order (reverse : bool) (l : list (K * X)) :
  StronglySorted (in_order lt reverse) l -> sort_decorated lt reverse l = l.
Proof.
  induction 1 as [| x l Hl IH Hx]; simpl; [reflexivity |].
  rewrite IH. destruct l as [| y l']; simpl; [reflexivity |].
  inversion Hx as [| y0 l0 Hxy _]; subst. unfold in_order in Hxy. rewrite Hxy.
  reflexivity.
Qed.

Variable same : K -> K -> bool.
Hypothesis same_trans_l : forall a b t, lt a b = true -> same b t = true -> same a t = false.
Hypothesis same_trans_r : forall a b t, lt a b = true -> same a t = true -> same b t = false.

(** Stability: the elements of one key keep their relative order. *)
Lemma insert_sorted_stable (reverse : bool) (t : K) (x : K * X) (l : list (K * X)) :
  filter (fun p => same (fst p) t) (insert_sorted lt reverse x l)
  = filter (fun p => same (fst p) t) (x :: l).
Proof.
  induction l as [| y l IH]; [reflexivity |].
  cbn [insert_sorted]. destruct (stays_ahead lt reverse y x) eqn:Hyx; [| reflexivity].
  cbn [filter] in *. rewrite IH.
  destruct (same (fst y) t) eqn:Hy; [| reflexivity].
  assert (Hx : same (fst x) t = false).
  { unfold stays_ahead in Hyx. destruct reverse.
    - eapply same_trans_l; eassumption.
    - eapply same_trans_r; eassumption. }
  rewrite Hx. reflexivity.
Qed.

Lemma sort_decorated_stable (reverse : bool) (t : K) (l : list (K * X)) :
  filter (fun p => same (fst p) t) (sort_decorated lt reverse l)
  = filter (fun p => same (fst p) t) l.
Proof.
  induction l as [| x l IH]; [reflexivity |].
  cbn [sort_decorated fold_right]. rewrite insert_sorted_stable.
  cbn [filter]. fold (sort_decorated lt reverse l). rewrite IH. reflexivity.
Qed.

End SortedFixpoint.

Lemma StronglySorted_weaken_in {A : Type} (R R' : A -> A -> Prop) (l : list A) :
  (forall a b, In a l -> In b l -> R a b -> R' a b) ->
  StronglySorted R l -> StronglySorted R' l.
Proof.
  intros HR Hs. induction Hs as [| a l Hl IH Ha]; constructor.
  - apply IH. intros x y Hx Hy. apply HR; right; assumption.
  - apply Forall_forall. intros b Hb. apply HR; [left; reflexivity | right; exact Hb |].
    rewrite Forall_forall in Ha. apply Ha, Hb.
Qed.

Lemma StronglySorted_unmap {A B : Type} (R : B -> B -> Prop) (f : A -> B) (l : list A) :
  StronglySorted R (map f l) -> StronglySorted (fun a b => R (f a) (f b)) l.
Proof.
  induction l as [| a l IH]; simpl; intros H; [constructor |].
  apply StronglySorted_inv in H. destruct H as [Hl Ha].
  constructor; [apply IH, Hl |]. rewrite Forall_map in Ha. exact Ha.
Qed.

(** The decorated form of the items of [sort_dict]. *)
Lemma sort_dict_decorated {V : Type} (d : dict V) :
  Forall (fun p : string * (string * V) => fst p = fst (snd p))
    (sort_decorated String.ltb false (map (fun x => (fst x, x)) d)).
Proof.
  eapply Permutation_Forall; [apply Permutation_sym, sort_decorated_perm |].
  apply Forall_forall. intros p Hp. apply in_map_iff in Hp.
  destruct Hp as [x [Hx _]]. subst p. reflexivity.
Qed.

Lemma map_decorate_snd {V : Type} (l : list (string * (string * V))) :
  Forall (fun p => fst p = fst (snd p)) l ->
  map (fun x : string * V => (fst x, x)) (map snd l) = l.
Proof.
  induction 1 as [| [k x] l Hp Hl IH]; simpl; [reflexivity |].
  simpl in Hp. subst k. rewrite IH. reflexivity.
Qed.

Lemma sort_dict_ascending {V : Type} (d : dict V) :
  StronglySorted (fun a b => String.leb (fst a) (fst b) = true) (Util.sort_dict d).
Proof.
  unfold Util.sort_dict, sorted_total.
  apply StronglySorted_map with (R := fun a b : string * V => String.leb (fst a) (fst b) = true).
  eapply StronglySorted_weaken_in;
    [| apply (sort_decorated_order _ _ String.ltb String_ltb_asym String_ltb_trans_neg)].
  intros a b Ha Hb Hab.
  pose proof (sort_dict_decorated d) as Hdec. rewrite Forall_forall in Hdec.
  rewrite <- (Hdec a Ha), <- (Hdec b Hb).
  apply String_leb_ltb. exact Hab.
Qed.

(** X1: [sort_dict] returns the items of the dict, each once, with the keys in
    ascending order, and every key still leads to its value. *)
Theorem sort_dict_sorts {V : Type} (d : dict V) :
  Permutation (Util.sort_dict d) d
  /\ StronglySorted (fun a b => String.leb (fst a) (fst b) = true) (Util.sort_dict d)
  /\ (forall k, dict_get k (Util.sort_dict d) = dict_get k d).
Proof.
  split; [apply sort_dict_perm |].
  split; [apply sort_dict_ascending | intros k; apply dict_get_sort_dict].
Qed.

(** X2: A dict whose keys are already ascending is returned as it is; sorting a
    second time changes nothing. *)
Theorem sort_dict_idempotent {V : Type} (d : dict V) :
  (StronglySorted (fun a b => String.leb (fst a) (fst b) = true) d -> Util.sort_dict d = d)
  /\ Util.sort_dict (Util.sort_dict d) = Util.sort_dict d.
Proof.
  assert (Hfix : forall d' : dict V,
             StronglySorted (fun a b => String.leb (fst a) (fst b) = true) d' ->
             Util.sort_dict d' = d').
  { intros d' Hs. unfold Util.sort_dict, sorted_total.
    rewrite sort_decorated_in_order.
    - rewrite map_map. simpl. apply map_id.
    - apply StronglySorted_map
        with (R := in_order String.ltb false) (f := fun x : string * V => (fst x, x)).
      eapply StronglySorted_weaken; [| exact Hs].
      intros a b Hab. unfold in_order, stays_ahead. simpl. apply String_leb_ltb. exact Hab. }
  split; [apply Hfix |]. apply Hfix. apply sort_dict_ascending.
Qed.

Lemma sort_dict_idempotent_witness :
  Util.sort_dict [("client", 1%Z); ("server", 2%Z); ("windows_server", 3%Z)]
  = [("client", 1%Z); ("server", 2%Z); ("windows_server", 3%Z)].
Proof.
  apply (proj1 (sort_dict_idempotent
                  [("client", 1%Z); ("server", 2%Z); ("windows_server", 3%Z)])).
  repeat constructor.
Defined.

(** ** util.py: [sort_dict] with a key function and [reverse=True] *)

Lemma decorate_raises_first {X K : Type} (key : X -> outcome K) (pre : list X) (x : X)
  (post : list X) (e : exn) :
  (forall y, In y pre -> exists k, key y = Return k) ->
  key x = Raise e ->
  decorate key (pre ++ x :: post)%list = Raise e.
Proof.
  intros Hpre Hx. induction pre as [| y pre IH]; simpl.
  - rewrite Hx. reflexivity.
  - destruct (Hpre y (or_introl eq_refl)) as [k Hk]. rewrite Hk.
    rewrite IH; [reflexivity |]. intros z Hz. apply Hpre. right. exact Hz.
Qed.

Lemma decorate_returns {X K : Type} (key : X -> outcome K) (xs : list X) :
  (forall x, In x xs -> exists k, key x = Return k) ->
  exists l, decorate key xs = Return l.
Proof.
  induction xs as [| x xs IH]; intros H; simpl.
  - eexists. reflexivity.
  - destruct (H x (or_introl eq_refl)) as [k Hk]. rewrite Hk.
    destruct (IH (fun y Hy => H y (or_intror Hy))) as [l Hl]. rewrite Hl.
    eexists. reflexivity.
Qed.

Lemma filter_decorated {X : Type} (key : X -> outcome Z) (t : Z) (l : list (Z * X)) :
  Forall (fun p => key (snd p) = Return (fst p)) l ->
  filter (has_sort_key key t) (map snd l) = map snd (filter (fun p => Z.eqb (fst p) t) l).
Proof.
  induction 1 as [| p l Hp Hl IH]; simpl; [reflexivity |].
  unfold has_sort_key at 1. rewrite Hp, IH.
  destruct (Z.eqb (fst p) t); reflexivity.
Qed.

(** X3: [sort_dict(d, key=..., reverse=True)]: the first key that raises, in the
    order of the items, aborts the sort with its exception.  When every key
    is found the items come back, each once, in non-increasing order of their
    keys, and the items of one key keep the order they had (the sort is
    stable under [reverse]). *)
Theorem sort_dict_key_reverse {V : Type} (key : string * V -> outcome Z) (d : dict V) :
  (forall pre x post e,
      d = (pre ++ x :: post)%list ->
      (forall y, In y pre -> exists t, key y = Return t) ->
      key x = Raise e ->
      Util.sort_dict_key key true d = Raise e)
  /\ ((forall x, In x d -> exists t, key x = Return t) ->
      exists d',
        Util.sort_dict_key key true d = Return d'
        /\ Permutation d' d
        /\ StronglySorted
             (fun a b => exists ta tb,
                  key a = Return ta /\ key b = Return tb /\ (tb <= ta)%Z) d'
        /\ forall t, filter (has_sort_key key t) d' = filter (has_sort_key key t) d).
Proof.
  split.
  - intros pre x post e Hd Hpre Hx. subst d.
    unfold Util.sort_dict_key, sorted.
    rewrite (decorate_raises_first key pre x post e Hpre Hx). reflexivity.
  - intros Hall. destruct (decorate_returns key d Hall) as [l Hl].
    destruct (decorate_Return _ _ _ _ _ Hl) as [Hm Hf].
    assert (Hperm : Permutation (sort_decorated Z.ltb true l) l)
      by apply sort_decorated_perm.
    assert (Hf' : Forall (fun p : Z * (string * V) => key (snd p) = Return (fst p))
                    (sort_decorated Z.ltb true l)).
    { eapply Permutation_Forall; [apply Permutation_sym, Hperm | exact Hf]. }
    exists (map snd (sort_decorated Z.ltb true l)).
    split; [unfold Util.sort_dict_key, sorted; rewrite Hl; reflexivity |].
    split; [rewrite <- Hm; apply Permutation_map, Hperm |]. split.
    + apply StronglySorted_map
        with (R := fun a b : string * V =>
                     exists ta tb, key a = Return ta /\ key b = Return tb /\ (tb <= ta)%Z).
      eapply StronglySorted_weaken_in;
        [| apply (sort_decorated_order _ _ Z.ltb Z_ltb_asym Z_ltb_trans_neg)].
      intros a b Ha Hb Hab. rewrite Forall_forall in Hf'.
      exists (fst a), (fst b). split; [apply Hf', Ha |]. split; [apply Hf', Hb |].
      unfold in_order, stays_ahead in Hab. apply Z.ltb_ge in Hab. exact Hab.
    + intros t. rewrite (filter_decorated key t _ Hf').
      rewrite (sort_decorated_stable _ _ Z.ltb Z.eqb).
      * rewrite <- (filter_decorated key t _ Hf), Hm. reflexivity.
      * intros a b t0 Hab Hbt. apply Z.ltb_lt in Hab. apply Z.eqb_eq in Hbt.
        apply Z.eqb_neq. lia.
      * intros a b t0 Hab Hat. apply Z.ltb_lt in Hab. apply Z.eqb_eq in Hat.
        apply Z.eqb_neq. lia.
Qed.

(** ** meta.py: records and versions *)

(** X4: With the identity fields equal, [MetaJar.update] never raises: the
    record becomes the incoming record, and the call is dirty exactly when
    the record was a different one (its hash or its URL differed). *)
Theorem MetaJar_update_mirrors (self meta_jar : MetaJar.t) :
  MetaJar.version_id meta_jar = MetaJar.version_id self ->
  MetaJar.version_file_id meta_jar = MetaJar.version_file_id self ->
  MetaJar.version_release_time meta_jar = MetaJar.version_release_time self ->
  MetaJar.key meta_jar = MetaJar.key self ->
  exists d,
    MetaJar.update meta_jar self = (Return d, meta_jar)
    /\ (d = false <-> self = meta_jar).
Proof.
  intros H1 H2 H3 H4.
  destruct self as [a b c k s u], meta_jar as [a' b' c' k' s' u']. simpl in *. subst.
  unfold MetaJar.update, MetaJar.update_kwargs, MetaJar.identity_matches. munfold. simpl.
  rewrite !String.eqb_refl, Z.eqb_refl. simpl.
  destruct (String.eqb_spec s s') as [Hs | Hs]; destruct (String.eqb_spec u u') as [Hu | Hu];
    simpl; subst; eexists; (split; [reflexivity |]);
    split; intros H; try discriminate; try reflexivity; inversion H; congruence.
Qed.

Lemma MetaJar_update_mirrors_witness :
  exists d,
    MetaJar.update (MetaJar.mk "1.20.1" "1.20.1" 7 "client" "h2" "u1")
      (MetaJar.mk "1.20.1" "1.20.1" 7 "client" "h1" "u1")
    = (Return d, MetaJar.mk "1.20.1" "1.20.1" 7 "client" "h2" "u1")
    /\ (d = false <->
        MetaJar.mk "1.20.1" "1.20.1" 7 "client" "h1" "u1"
        = MetaJar.mk "1.20.1" "1.20.1" 7 "client" "h2" "u1").
Proof.
  apply (MetaJar_update_mirrors (MetaJar.mk "1.20.1" "1.20.1" 7 "client" "h1" "u1")
           (MetaJar.mk "1.20.1" "1.20.1" 7 "client" "h2" "u1")); reflexivity.
Defined.

Lemma MetaJar_update_Return (self self' meta_jar : MetaJar.t) (d : bool) :
  MetaJar.update meta_jar self = (Return d, self') -> self' = meta_jar.
Proof.
  intros H.
  destruct (MetaJar.identity_matches self (MetaJar.version_id meta_jar)
              (MetaJar.version_file_id meta_jar) (MetaJar.version_release_time meta_jar)
              (MetaJar.key meta_jar)) eqn:Hid.
  - destruct (MetaJar_update_matching self meta_jar Hid) as [b Hb]. congruence.
  - unfold MetaJar.update in H.
    rewrite (MetaJar_update_kwargs_mismatch self _ _ _ _ _ _ Hid) in H. discriminate.
Qed.

(** What one returning iteration over the downloads does: nothing for a name
    outside the allow-list, and otherwise the record of that name is the one
    built from the download. *)
Lemma MetaVersion_update_download_Return (name : string) (d : Download)
  (self self' : MetaVersion.t) :
  MetaVersion.update_download name d self = (Return tt, self') ->
  (~ In name JAR_NAMES /\ self' = self)
  \/ (In name JAR_NAMES
      /\ exists sha1 url,
           dl_sha1 d = Some sha1 /\ dl_url d = Some url
           /\ self' = MetaVersion.set_jars
                        (dict_set name
                           (MetaJar.mk (MetaVersion.id self) (MetaVersion.file_id self)
                              (MetaVersion.release_time self) name sha1 url)
                           (MetaVersion.jars self)) self).
Proof.
  unfold MetaVersion.update_download.
  destruct (existsb (String.eqb name) JAR_NAMES) eqn:Hn; simpl.
  2:{ unfold ret. intros H. inversion H. left. split; [| reflexivity].
      intros Hin. apply In_JAR_NAMES in Hin. congruence. }
  apply In_JAR_NAMES in Hn. munfold.
  destruct (dl_sha1 d) as [s |]; [| discriminate].
  destruct (dl_url d) as [u |]; [| discriminate]. simpl.
  destruct (dict_mem name (MetaVersion.jars self)) eqn:Hm; simpl.
  - apply dict_mem_true in Hm. destruct Hm as [j Hj]. rewrite Hj.
    destruct (MetaJar.update _ j) as [[b | e] j'] eqn:Hu; [| discriminate].
    apply MetaJar_update_Return in Hu. subst j'.
    intros H. inversion H. right. split; [exact Hn |]. exists s, u. auto.
  - intros H. inversion H. right. split; [exact Hn |]. exists s, u. auto.
Qed.

Lemma MetaVersion_downloads_loop (items : list (string * Download)) :
  NoDup (map fst items) ->
  forall self self' : MetaVersion.t,
    for_each items (fun item => MetaVersion.update_download (fst item) (snd item)) self
    = (Return tt, self') ->
    same_header self self'
    /\ (forall name d, In (name, d) items -> In name JAR_NAMES ->
          exists sha1 url,
            dl_sha1 d = Some sha1 /\ dl_url d = Some url
            /\ dict_get name (MetaVersion.jars self')
               = Some (MetaJar.mk (MetaVersion.id self) (MetaVersion.file_id self)
                         (MetaVersion.release_time self) name sha1 url))
    /\ (forall name, ~ In name JAR_NAMES \/ ~ In name (map fst items) ->
          dict_get name (MetaVersion.jars self') = dict_get name (MetaVersion.jars self)).
Proof.
  induction items as [| [n d] items IH]; intros Hnd self self' Hrun.
  - simpl in Hrun. unfold ret in Hrun. inversion Hrun; subst.
    split; [unfold same_header; auto |]. split; [intros name d [] | auto].
  - simpl in Hnd. inversion Hnd as [| a l Hnotin Hnd']; subst.
    simpl in Hrun. unfold bind in Hrun.
    destruct (MetaVersion.update_download n d self) as [[[] | e] s1] eqn:Hx;
      [| discriminate].
    destruct (IH Hnd' s1 self' Hrun) as [Hh [Hitems Hrest]].
    pose proof (MetaVersion_update_download_header _ _ _ _ _ Hx) as Hh1.
    assert (Hhead : same_header self self').
    { destruct Hh as [A1 [A2 [A3 A4]]], Hh1 as [B1 [B2 [B3 B4]]].
      unfold same_header. repeat split; congruence. }
    split; [exact Hhead |].
    destruct Hh1 as [B1 [B2 [B3 _]]].
    apply MetaVersion_update_download_Return in Hx.
    split.
    + intros name d0 [Hin | Hin] Hname.
      * inversion Hin; subst name d0.
        destruct Hx as [[Hno _] | [_ [s [u [Hs [Hu Hs1]]]]]]; [contradiction |].
        exists s, u. split; [exact Hs |]. split; [exact Hu |].
        rewrite Hrest by (right; exact Hnotin).
        rewrite Hs1. simpl. apply dict_get_set_same.
      * destruct (Hitems name d0 Hin Hname) as [s [u [Hs [Hu Hget]]]].
        exists s, u. split; [exact Hs |]. split; [exact Hu |].
        rewrite Hget, B1, B2, B3. reflexivity.
    + intros name Hname.
      rewrite Hrest.
      * destruct Hx as [[_ ->] | [Hn [s [u [_ [_ Hs1]]]]]]; [reflexivity |].
        rewrite Hs1. simpl. apply dict_get_set_other.
        intros ->. destruct Hname as [Hname | Hname]; [contradiction |].
        apply Hname. left. reflexivity.
      * destruct Hname as [Hname | Hname]; [left; exact Hname |].
        right. intros Hin. apply Hname. right. exact Hin.
Qed.

(** The run of [MetaVersion.update] on a descriptor that parses, with the
    hash gate open. *)
Lemma MetaVersion_update_run (E : Env) (file : File) (self : MetaVersion.t)
  (data : VersionJson) (id release_time_text : string) (release_time : Z)
  (downloads : dict Download) :
  MetaVersion.sha1 self <> sha1_hexdigest E (file_bytes file) ->
  json_load E (file_bytes file) = Some data ->
  json_id data = Some id ->
  json_releaseTime data = Some release_time_text ->
  fromisoformat E release_time_text = Some release_time ->
  json_downloads data = Some downloads ->
  MetaVersion.update E file self
  = match for_each (Util.sort_dict downloads)
            (fun item => MetaVersion.update_download (fst item) (snd item))
            (MetaVersion.mk id (file_stem file) release_time
               (sha1_hexdigest E (file_bytes file)) (MetaVersion.jars self)) with
    | (Return _, s1) =>
        (Return true, MetaVersion.set_jars (Util.sort_dict (MetaVersion.jars s1)) s1)
    | (Raise e, s1) => (Raise e, s1)
    end.
Proof.
  intros Hne H1 H2 H3 H4 H5. unfold MetaVersion.update.
  unfold bind at 1. unfold get at 1.
  apply String.eqb_neq in Hne. rewrite Hne.
  rewrite H1. unfold bind at 1. unfold lift_option at 1, ret at 1.
  rewrite H2. unfold bind at 1. unfold lift_option at 1, ret at 1.
  unfold bind at 1, modify at 1. unfold bind at 1, modify at 1.
  rewrite H3. unfold bind at 1. unfold lift_option at 1, ret at 1.
  rewrite H4. unfold bind at 1. unfold lift_option at 1, ret at 1.
  unfold bind at 1, modify at 1. unfold bind at 1, modify at 1.
  rewrite H5. unfold bind at 1. unfold lift_option at 1, ret at 1.
  unfold bind at 1. cbn [MetaVersion.set_sha1 MetaVersion.set_release_time
    MetaVersion.set_file_id MetaVersion.set_id MetaVersion.id MetaVersion.file_id
    MetaVersion.release_time MetaVersion.sha1 MetaVersion.jars].
  destruct (for_each _ _ _) as [[[] | e] s1]; reflexivity.
Qed.

(** X5: A returning reconcile of a changed descriptor: the version takes the id,
    the stem, the release time and the hash of the file; every allow-listed
    download is stored as the record built from it; all other records stay
    as they were (none is removed, and no download outside the allow-list
    enters); the jars map comes out with its keys ascending. *)
Theorem MetaVersion_update_stores_downloads (E : Env) (file : File)
  (self self' : MetaVersion.t) (data : VersionJson) (id release_time_text : string)
  (release_time : Z) (downloads : dict Download) :
  MetaVersion.sha1 self <> sha1_hexdigest E (file_bytes file) ->
  json_load E (file_bytes file) = Some data ->
  json_id data = Some id ->
  json_releaseTime data = Some release_time_text ->
  fromisoformat E release_time_text = Some release_time ->
  json_downloads data = Some downloads ->
  NoDup (dict_keys downloads) ->
  MetaVersion.update E file self = (Return true, self') ->
  (MetaVersion.id self' = id
   /\ MetaVersion.file_id self' = file_stem file
   /\ MetaVersion.release_time self' = release_time
   /\ MetaVersion.sha1 self' = sha1_hexdigest E (file_bytes file))
  /\ (forall name d, In (name, d) downloads -> In name JAR_NAMES ->
        exists sha1 url,
          dl_sha1 d = Some sha1 /\ dl_url d = Some url
          /\ dict_get name (MetaVersion.jars self')
             = Some (MetaJar.mk id (file_stem file) release_time name sha1 url))
  /\ (forall name, ~ In name JAR_NAMES \/ ~ In name (dict_keys downloads) ->
        dict_get name (MetaVersion.jars self') = dict_get name (MetaVersion.jars self))
  /\ StronglySorted (fun a b => String.leb (fst a) (fst b) = true) (MetaVersion.jars self').
Proof.
  intros Hne H1 H2 H3 H4 H5 Hnd Hrun.
  rewrite (MetaVersion_update_run E file self data id release_time_text release_time
             downloads Hne H1 H2 H3 H4 H5) in Hrun.
  destruct (for_each _ _ _) as [[[] | e] s1] eqn:Hloop; [| discriminate].
  inversion Hrun; subst self'. clear Hrun.
  assert (Hperm : Permutation (Util.sort_dict downloads) downloads) by apply sort_dict_perm.
  assert (Hnd' : NoDup (map fst (Util.sort_dict downloads))).
  { eapply Permutation_NoDup; [apply Permutation_map, Permutation_sym, Hperm | exact Hnd]. }
  destruct (MetaVersion_downloads_loop _ Hnd' _ _ Hloop) as [[A1 [A2 [A3 A4]]] [Hitems Hrest]].
  simpl in A1, A2, A3, A4, Hitems, Hrest.
  split; [simpl; auto |]. split; [| split].
  - intros name d Hin Hname. simpl. rewrite dict_get_sort_dict.
    apply Hitems; [| exact Hname].
    eapply Permutation_in; [apply Permutation_sym, Hperm | exact Hin].
  - intros name Hname. simpl. rewrite dict_get_sort_dict. apply Hrest.
    destruct Hname as [Hname | Hname]; [left; exact Hname |].
    right. intros Hin. apply Hname.
    eapply Permutation_in; [apply Permutation_map, Hperm | exact Hin].
  - simpl. apply sort_dict_ascending.
Qed.

(** ** meta.py: the store *)

Lemma for_dirty_preserves_Return {S X : Type} (P : S -> Prop) (body : X -> M S bool)
  (xs : list X) :
  (forall x s d s', In x xs -> body x s = (Return d, s') -> P s -> P s') ->
  forall d0 s d s', for_dirty xs body d0 s = (Return d, s') -> P s -> P s'.
Proof.
  induction xs as [| x xs IH]; intros Hbody d0 s d s' Hrun Hs.
  - simpl in Hrun. unfold ret in Hrun. inversion Hrun; subst. exact Hs.
  - simpl in Hrun. unfold bind in Hrun.
    destruct (body x s) as [[d1 | e] s1] eqn:Hx; [| discriminate].
    eapply IH; [| exact Hrun |].
    + intros y t b t' Hy. apply Hbody. right. exact Hy.
    + eapply Hbody; [left; reflexivity | exact Hx | exact Hs].
Qed.

(** A loop whose iterations change nothing when they are not dirty changes
    nothing when it is not dirty; and it is not dirty only if it started so. *)
Lemma for_dirty_false {S X : Type} (body : X -> M S bool) (xs : list X) :
  (forall x s s', In x xs -> body x s = (Return false, s') -> s' = s) ->
  forall d0 s s', for_dirty xs body d0 s = (Return false, s') -> d0 = false /\ s' = s.
Proof.
  induction xs as [| x xs IH]; intros Hbody d0 s s' Hrun.
  - simpl in Hrun. unfold ret in Hrun. inversion Hrun; subst. auto.
  - simpl in Hrun. unfold bind in Hrun.
    destruct (body x s) as [[d1 | e] s1] eqn:Hx; [| discriminate].
    destruct (IH (fun y t t' Hy => Hbody y t t' (or_intror Hy)) _ _ _ Hrun) as [Hd Hs].
    apply orb_false_iff in Hd. destruct Hd as [Hd0 Hd1]. subst d0 d1 s'.
    split; [reflexivity |]. eapply Hbody; [left; reflexivity | exact Hx].
Qed.

Lemma MetaVersion_update_false (E : Env) (file : File) (v v' : MetaVersion.t) :
  MetaVersion.update E file v = (Return false, v') ->
  v' = v /\ MetaVersion.sha1 v = sha1_hexdigest E (file_bytes file).
Proof.
  intros H.
  destruct (String.eqb_spec (MetaVersion.sha1 v) (sha1_hexdigest E (file_bytes file)))
    as [He | Hne].
  - rewrite MetaVersion_update_skip in H by exact He. inversion H; subst.
    split; [reflexivity | exact He].
  - destruct (MetaVersion_update_Return E file v _ _ Hne H) as [[e He] | [Hr _]];
      discriminate.
Qed.

Lemma Meta_update_file_false (E : Env) (file : File) (self self' : Meta.t) :
  (forall b, sha1_hexdigest E b <> EmptyString) ->
  Meta.update_file E file self = (Return false, self') -> self' = self.
Proof.
  intros Hsha Hrun.
  destruct (Meta.find_version (file_stem file) (Meta.minecraft self)) as [i |] eqn:Hf.
  - destruct (Meta_find_version_Some _ _ _ Hf) as [v [Hn Hv]].
    rewrite (Meta_update_file_found E file self i v Hf Hn) in Hrun.
    destruct (MetaVersion.update E file v) as [r v'] eqn:Hu. simpl in Hrun.
    inversion Hrun; subst. destruct (MetaVersion_update_false E file v v' Hu) as [-> _].
    rewrite list_set_same by exact Hn. destruct self. reflexivity.
  - rewrite (Meta_update_file_new E file self Hf) in Hrun.
    destruct (MetaVersion.update E file MetaVersion.empty) as [r v'] eqn:Hu.
    simpl in Hrun. inversion Hrun; subst.
    destruct (MetaVersion_update_false E file _ v' Hu) as [_ Hh].
    simpl in Hh. exfalso. exact (Hsha _ (eq_sym Hh)).
Qed.

Lemma Meta_update_file_keeps_ids (E : Env) (file : File) (self self' : Meta.t) (d : bool) :
  Meta.update_file E file self = (Return d, self') ->
  incl (map MetaVersion.file_id (Meta.minecraft self))
       (map MetaVersion.file_id (Meta.minecraft self')).
Proof.
  intros Hrun.
  destruct (Meta.find_version (file_stem file) (Meta.minecraft self)) as [i |] eqn:Hf.
  - destruct (Meta_find_version_Some _ _ _ Hf) as [v [Hn Hv]].
    rewrite (Meta_update_file_found E file self i v Hf Hn) in Hrun.
    destruct (MetaVersion.update E file v) as [r v'] eqn:Hu. simpl in Hrun.
    inversion Hrun; subst. clear Hrun.
    destruct (MetaVersion_update_settles E file v v' d Hu (or_introl Hv)) as [H1 _].
    cbn [Meta.minecraft Meta.set_minecraft].
    rewrite (list_set_map MetaVersion.file_id i v v' _ Hn) by congruence.
    apply incl_refl.
  - rewrite (Meta_update_file_new E file self Hf) in Hrun.
    inversion Hrun; subst. cbn [Meta.minecraft Meta.set_minecraft].
    rewrite map_app. apply incl_appl, incl_refl.
Qed.

Lemma Meta_update_settles (E : Env) (versions_dir : list File)
  (self self' : Meta.t) (d : bool) :
  (forall b, sha1_hexdigest E b <> EmptyString) ->
  NoDup (map file_stem versions_dir) ->
  NoDup (map MetaVersion.file_id (Meta.minecraft self)) ->
  Meta.update E versions_dir self = (Return d, self') ->
  (forall file, In file versions_dir -> Meta_settled E file (Meta.minecraft self'))
  /\ NoDup (map MetaVersion.file_id (Meta.minecraft self')).
Proof.
  intros Hsha Hst Hnd Hrun.
  unfold Meta.update in Hrun.
  set (files := sorted_total String.ltb file_name false versions_dir) in *.
  assert (Hperm : Permutation files versions_dir) by apply sorted_total_perm.
  assert (Hst' : NoDup (map file_stem files)).
  { eapply Permutation_NoDup; [apply Permutation_map, Permutation_sym, Hperm | exact Hst]. }
  unfold bind at 1 in Hrun.
  destruct (for_dirty files (Meta.update_file E) false self) as [[d1 | e] s1] eqn:Hloop;
    [| discriminate].
  destruct (Meta_update_loop E files Hsha Hst' self s1 false d1 Hnd Hloop)
    as [Hnd1 [Hall _]].
  assert (Hp : Permutation (Meta.minecraft s1) (Meta.minecraft self')).
  { destruct d1; munfold; inversion Hrun; subst; [| apply Permutation_refl].
    cbn [Meta.minecraft Meta.set_minecraft]. apply Permutation_sym, sorted_total_perm. }
  split.
  - intros file Hfile. eapply Meta_settled_perm; [exact Hp |].
    apply Hall. eapply Permutation_in; [apply Permutation_sym, Hperm | exact Hfile].
  - eapply Permutation_NoDup; [apply Permutation_map, Hp | exact Hnd1].
Qed.

(** X6: A returning [Meta.update] has visited every descriptor file: for each
    there is a version with its stem and its hash.  No version is removed
    (a version whose file disappeared upstream stays), the file ids stay
    pairwise distinct, and the commit hash is not touched. *)
Theorem Meta_update_settles_every_file (E : Env) (versions_dir : list File)
  (self self' : Meta.t) (d : bool) :
  (forall b, sha1_hexdigest E b <> EmptyString) ->
  NoDup (map file_stem versions_dir) ->
  NoDup (map MetaVersion.file_id (Meta.minecraft self)) ->
  Meta.update E versions_dir self = (Return d, self') ->
  (forall file, In file versions_dir ->
     exists v,
       In v (Meta.minecraft self')
       /\ MetaVersion.file_id v = file_stem file
       /\ MetaVersion.sha1 v = sha1_hexdigest E (file_bytes file))
  /\ NoDup (map MetaVersion.file_id (Meta.minecraft self'))
  /\ incl (map MetaVersion.file_id (Meta.minecraft self))
          (map MetaVersion.file_id (Meta.minecraft self'))
  /\ Meta.commit self' = Meta.commit self.
Proof.
  intros Hsha Hst Hnd Hrun.
  destruct (Meta_update_settles E versions_dir self self' d Hsha Hst Hnd Hrun)
    as [Hfiles Hnd'].
  split; [exact Hfiles |]. split; [exact Hnd' |].
  split; [| exact (Meta_update_commit E versions_dir self _ _ Hrun)].
  unfold Meta.update in Hrun. cbv zeta in Hrun. unfold bind at 1 in Hrun.
  destruct (for_dirty _ (Meta.update_file E) false self) as [[d1 | e] s1] eqn:Hloop;
    [| discriminate].
  assert (Hincl : incl (map MetaVersion.file_id (Meta.minecraft self))
                       (map MetaVersion.file_id (Meta.minecraft s1))).
  { eapply (for_dirty_preserves_Return
              (fun s => incl (map MetaVersion.file_id (Meta.minecraft self))
                             (map MetaVersion.file_id (Meta.minecraft s))));
      [| exact Hloop | apply incl_refl].
    intros x s b s' _ Hx Hs. eapply incl_tran; [exact Hs |].
    eapply Meta_update_file_keeps_ids. exact Hx. }
  assert (Hp : Permutation (Meta.minecraft s1) (Meta.minecraft self')).
  { destruct d1; munfold; inversion Hrun; subst; [| apply Permutation_refl].
    cbn [Meta.minecraft Meta.set_minecraft]. apply Permutation_sym, sorted_total_perm. }
  intros x Hx. eapply Permutation_in; [apply Permutation_map, Hp |]. apply Hincl, Hx.
Qed.

Lemma Meta_update_settles_every_file_witness :
  exists v,
    In v (Meta.minecraft (snd (Meta.update Example.env1 Example.dir1 Meta.empty)))
    /\ MetaVersion.file_id v = "1.20.1"
    /\ MetaVersion.sha1 v = "sha1:d1".
Proof.
  destruct (Meta_update_settles_every_file Example.env1 Example.dir1 Meta.empty
              (snd (Meta.update Example.env1 Example.dir1 Meta.empty)) true)
    as [H _].
  - intros b. simpl. discriminate.
  - simpl. repeat constructor. simpl. tauto.
  - simpl. constructor.
  - vm_compute. reflexivity.
  - apply (H {| file_name := "1.20.1.json"; file_bytes := Example.bytes "d1" |}).
    left. reflexivity.
Defined.

(** X7: After a dirty [Meta.update] the versions stand in non-increasing order
    of release time, and versions of one release time keep the order in
    which the loop over the descriptor files left them (the sort is
    stable). *)
Theorem Meta_update_orders_by_release_time (E : Env) (versions_dir : list File)
  (self self' : Meta.t) :
  Meta.update E versions_dir self = (Return true, self') ->
  StronglySorted
    (fun a b => (MetaVersion.release_time b <= MetaVersion.release_time a)%Z)
    (Meta.minecraft self')
  /\ exists pass,
       Meta_update_pass E versions_dir self = (Return true, pass)
       /\ Permutation (Meta.minecraft self') (Meta.minecraft pass)
       /\ forall t,
            filter (fun v => Z.eqb (MetaVersion.release_time v) t) (Meta.minecraft self')
            = filter (fun v => Z.eqb (MetaVersion.release_time v) t)
                (Meta.minecraft pass).
Proof.
  intros Hrun. unfold Meta.update in Hrun. cbv zeta in Hrun. unfold bind at 1 in Hrun.
  fold (Meta_update_pass E versions_dir) in Hrun.
  destruct (Meta_update_pass E versions_dir self) as [[d1 | e] s1] eqn:Hpass;
    [| discriminate].
  destruct d1; munfold; inversion Hrun; subst; clear Hrun.
  cbn [Meta.minecraft Meta.set_minecraft]. unfold sorted_total.
  set (l := map (fun x => (MetaVersion.release_time x, x)) (Meta.minecraft s1)).
  assert (Hdec : Forall (fun p : Z * MetaVersion.t => fst p = MetaVersion.release_time (snd p))
                   (sort_decorated Z.ltb true l)).
  { eapply Permutation_Forall; [apply Permutation_sym, sort_decorated_perm |].
    apply Forall_forall. intros p Hp. apply in_map_iff in Hp.
    destruct Hp as [x [Hx _]]. subst p. reflexivity. }
  split.
  - apply StronglySorted_map
      with (R := fun a b => (MetaVersion.release_time b <= MetaVersion.release_time a)%Z).
    eapply StronglySorted_weaken_in;
      [| apply (sort_decorated_order _ _ Z.ltb Z_ltb_asym Z_ltb_trans_neg)].
    intros a b Ha Hb Hab. rewrite Forall_forall in Hdec.
    rewrite <- (Hdec a Ha), <- (Hdec b Hb).
    unfold in_order, stays_ahead in Hab. apply Z.ltb_ge in Hab. exact Hab.
  - exists s1. split; [reflexivity |]. split.
    + eapply Permutation_trans; [apply Permutation_map, sort_decorated_perm |].
      unfold l. rewrite map_map. simpl. rewrite map_id. apply Permutation_refl.
    + intros t.
      assert (Hfilter : forall l0 : list (Z * MetaVersion.t),
                 Forall (fun p => fst p = MetaVersion.release_time (snd p)) l0 ->
                 filter (fun v => Z.eqb (MetaVersion.release_time v) t) (map snd l0)
                 = map snd (filter (fun p => Z.eqb (fst p) t) l0)).
      { induction 1 as [| p l0 Hp Hl IH]; simpl; [reflexivity |].
        rewrite <- Hp, IH. destruct (Z.eqb (fst p) t); reflexivity. }
      rewrite (Hfilter _ Hdec).
      rewrite (sort_decorated_stable _ _ Z.ltb Z.eqb).
      * rewrite <- Hfilter.
        -- unfold l. rewrite map_map. simpl. rewrite map_id. reflexivity.
        -- apply Forall_forall. intros p Hp. apply in_map_iff in Hp.
           destruct Hp as [x [Hx _]]. subst p. reflexivity.
      * intros a b t0 Hab Hbt. apply Z.ltb_lt in Hab. apply Z.eqb_eq in Hbt.
        apply Z.eqb_neq. lia.
      * intros a b t0 Hab Hat. apply Z.ltb_lt in Hab. apply Z.eqb_eq in Hat.
        apply Z.eqb_neq. lia.
Qed.

Lemma Meta_update_orders_by_release_time_witness :
  let descriptor := fun id time =>
    {| json_id := Some id; json_releaseTime := Some time; json_downloads := Some [] |} in
  let E := Example.toy_env [("x", descriptor "1.0" "3"); ("y", descriptor "2.0" "8")] [] [] in
  let versions_dir := [{| file_name := "1.0.json"; file_bytes := Example.bytes "x" |};
                       {| file_name := "2.0.json"; file_bytes := Example.bytes "y" |}] in
  map MetaVersion.id (Meta.minecraft (snd (Meta.update E versions_dir Meta.empty)))
  = ["2.0"; "1.0"]
  /\ StronglySorted
       (fun a b => (MetaVersion.release_time b <= MetaVersion.release_time a)%Z)
       (Meta.minecraft (snd (Meta.update E versions_dir Meta.empty))).
Proof.
  cbv zeta. split; [vm_compute; reflexivity |].
  match goal with
  | |- context [Meta.update ?E ?dir Meta.empty] =>
      exact (proj1 (Meta_update_orders_by_release_time E dir Meta.empty
                      (snd (Meta.update E dir Meta.empty))
                      ltac:(vm_compute; reflexivity)))
  end.
Defined.

(** ** jars.py: archive records *)

Lemma JarsJar_download_conversions (E : Env) (meta_jar : MetaJar.t) (self : JarsJar.t)
  (w : World) :
  conversions (snd (JarsJar.download E meta_jar self w)) = conversions w.
Proof.
  unfold JarsJar.download, http_get, write_bytes. munfold.
  destruct (JarsJar.download_needed E meta_jar self w); [| reflexivity]. simpl.
  destruct (requests_get E (MetaJar.url meta_jar)); reflexivity.
Qed.

Lemma JarsJar_download_requests (E : Env) (meta_jar : MetaJar.t) (self : JarsJar.t)
  (w : World) :
  requests (snd (JarsJar.download E meta_jar self w)) = requests w
  \/ requests (snd (JarsJar.download E meta_jar self w))
     = (requests w ++ [MetaJar.url meta_jar])%list.
Proof.
  destruct (JarsJar.download_needed E meta_jar self w) eqn:Hd.
  - right. apply JarsJar_download_done. exact Hd.
  - left. rewrite JarsJar_download_skipped by exact Hd. reflexivity.
Qed.

Lemma JarsJar_unbundle_conversions (self : JarsJar.t) (ub : option (list byte))
  (w : World) :
  conversions (snd (JarsJar.unbundle self ub w)) = conversions w.
Proof.
  unfold JarsJar.unbundle, rename, write_bytes, read_bytes. munfold.
  destruct ub as [[| b bs] |]; try reflexivity.
  destruct (files w (JarsJar.jar_path self)); reflexivity.
Qed.

Lemma JarsJar_mappingio_Return (E : Env) (self : JarsJar.t) (w w' : World) :
  JarsJar.mappingio E self w = (Return tt, w') ->
  exists jar_bytes tiny,
    files w (JarsJar.jar_path self) = Some jar_bytes
    /\ mapping_io E jar_bytes = Some tiny
    /\ files w' (JarsJar.map_path self) = Some tiny
    /\ (forall p, p <> JarsJar.map_path self -> files w' p = files w p)
    /\ requests w' = requests w
    /\ conversions w'
       = (conversions w ++ [(JarsJar.jar_path self, JarsJar.map_path self)])%list.
Proof.
  unfold JarsJar.mappingio, write_bytes. munfold. cbn [files requests conversions].
  destruct (files w (JarsJar.jar_path self)) as [b |] eqn:Hb; [| discriminate].
  destruct (mapping_io E b) as [tiny |] eqn:Ht; [| discriminate].
  intros H. inversion H; subst. exists b, tiny. cbn [files requests conversions].
  rewrite String.eqb_refl.
  split; [reflexivity |]. split; [exact Ht |]. split; [reflexivity |].
  split; [| split; reflexivity].
  intros p Hp. apply String.eqb_neq in Hp. rewrite Hp. reflexivity.
Qed.

(** X8: What a call of [JarsJar.update] does to the record and to the world.
    Whatever the outcome, the identity fields and the two file names of the
    record stay.  A not-dirty return means that the upstream hash was the
    recorded one, and then neither the record nor the world has changed.  A
    dirty return means that the hashes differed; the record then carries the
    upstream hash and the hash of the file now at the canonical path, the
    converter has run exactly once, on that path, its output is in the
    mapping file, and at most one request, to the URL of the Meta record,
    has been made.  Unless the two paths coincide, the mapping file is the
    converter's output for the file at the canonical path. *)
Theorem JarsJar_update_outcome (E : Env) (meta_jar : MetaJar.t) (self self' : JarsJar.t)
  (w w' : World) (r : outcome bool) :
  JarsJar.update E meta_jar (self, w) = (r, (self', w')) ->
  JarsJar_same_identity self self'
  /\ (r = Return false ->
      MetaJar.sha1 meta_jar = JarsJar.jar_sha1_meta self /\ self' = self /\ w' = w)
  /\ (r = Return true ->
      MetaJar.sha1 meta_jar <> JarsJar.jar_sha1_meta self
      /\ JarsJar.jar_sha1_meta self' = MetaJar.sha1 meta_jar
      /\ (exists local_bytes,
             files w' (JarsJar.jar_path self) = Some local_bytes
             /\ JarsJar.jar_sha1_local self' = sha1_hexdigest E local_bytes)
      /\ (exists archive tiny,
             mapping_io E archive = Some tiny
             /\ files w' (JarsJar.map_path self) = Some tiny
             /\ (JarsJar.jar_path self <> JarsJar.map_path self ->
                 files w' (JarsJar.jar_path self) = Some archive))
      /\ conversions w'
         = (conversions w ++ [(JarsJar.jar_path self, JarsJar.map_path self)])%list
      /\ (requests w' = requests w
          \/ requests w' = (requests w ++ [MetaJar.url meta_jar])%list)).
Proof.
  intros Hrun.
  destruct (String.eqb_spec (MetaJar.sha1 meta_jar) (JarsJar.jar_sha1_meta self))
    as [He | Hne].
  - rewrite JarsJar_update_closed in Hrun by exact He. inversion Hrun; subst.
    split; [unfold JarsJar_same_identity; repeat split |].
    split; [auto | discriminate].
  - rewrite JarsJar_update_open in Hrun by exact Hne.
    unfold JarsJar_update_steps in Hrun.
    pose proof (JarsJar_download_conversions E meta_jar self w) as Hdc.
    pose proof (JarsJar_download_requests E meta_jar self w) as Hdr.
    destruct (JarsJar.download E meta_jar self w) as [[[] | e] w1];
      [| inversion Hrun; subst; split;
         [unfold JarsJar_same_identity; repeat split | split; discriminate]].
    destruct (JarsJar.extract_bundle E self w1) as [[ub | e] w2] eqn:Hx;
      apply JarsJar_extract_bundle_world in Hx; subst w2;
      [| inversion Hrun; subst; split;
         [unfold JarsJar_same_identity; repeat split | split; discriminate]].
    pose proof (JarsJar_unbundle_conversions self ub w1) as Huc.
    pose proof (JarsJar_unbundle_requests self ub w1) as Hur.
    destruct (JarsJar.unbundle self ub w1) as [[[] | e] w3];
      [| inversion Hrun; subst; split;
         [unfold JarsJar_same_identity; repeat split | split; discriminate]].
    destruct (JarsJar.mappingio E self w3) as [[[] | e] w4] eqn:Hm;
      [| inversion Hrun; subst; split;
         [unfold JarsJar_same_identity; repeat split | split; discriminate]].
    destruct (JarsJar_mappingio_Return E self w3 w4 Hm)
      as [jb [tiny [M1 [M2 [M3 [M4 [M5 M6]]]]]]].
    cbv zeta in Hrun. simpl in Hdc, Hdr, Huc, Hur.
    destruct (files w4 (JarsJar.jar_path self)) as [local |] eqn:Hlocal;
      inversion Hrun; subst; clear Hrun;
      (split; [unfold JarsJar_same_identity; simpl; repeat split |]);
      (split; [discriminate |]); [| discriminate].
    intros _. split; [exact Hne |]. split; [reflexivity |].
    split; [exists local; split; [exact Hlocal | reflexivity] |].
    split; [exists jb, tiny; split; [exact M2 |]; split; [exact M3 |];
            intros Hp; rewrite (M4 _ Hp); exact M1 |].
    split; [congruence |].
    rewrite M5, Hur. exact Hdr.
Qed.

Lemma JarsJar_update_outcome_witness :
  let run := JarsJar.update Example.env1 Example.meta_jar_1_20_1
               (Example.fresh_jar_1_20_1, Example.empty_world) in
  fst run = Return true
  /\ JarsJar_same_identity Example.fresh_jar_1_20_1 (fst (snd run))
  /\ JarsJar.jar_sha1_meta (fst (snd run)) = "sha1:jar-1"
  /\ conversions (snd (snd run)) = [("mappings/1.20.1-client.jar", "mappings/1.20.1-client.tiny")].
Proof.
  cbv zeta.
  destruct (JarsJar_update_outcome Example.env1 Example.meta_jar_1_20_1
              Example.fresh_jar_1_20_1 _ Example.empty_world _ _ eq_refl)
    as [Hid [_ Htrue]].
  split; [reflexivity |]. split; [exact Hid |].
  destruct (Htrue eq_refl) as [_ [Hm [_ [_ [Hc _]]]]].
  split; [exact Hm | exact Hc].
Defined.

(** The converter can only succeed on an existing archive, and it leaves the
    archive in place (or replaces it by its output when the two paths
    coincide). *)
Lemma JarsJar_mappingio_keeps_archive (E : Env) (self : JarsJar.t) (w w' : World) :
  JarsJar.mappingio E self w = (Return tt, w') ->
  files w' (JarsJar.jar_path self) <> None.
Proof.
  intros H. destruct (JarsJar_mappingio_Return E self w w' H)
    as [jb [tiny [M1 [_ [M3 [M4 _]]]]]].
  destruct (String.eqb_spec (JarsJar.jar_path self) (JarsJar.map_path self)) as [He | Hne].
  - rewrite He, M3. discriminate.
  - rewrite (M4 _ Hne), M1. discriminate.
Qed.

Lemma JarsJar_update_Raise (E : Env) (meta_jar : MetaJar.t) (self self' : JarsJar.t)
  (w w' : World) (e : exn) :
  JarsJar.update E meta_jar (self, w) = (Raise e, (self', w')) ->
  self' = self /\ MetaJar.sha1 meta_jar <> JarsJar.jar_sha1_meta self.
Proof.
  intros Hrun.
  destruct (String.eqb_spec (MetaJar.sha1 meta_jar) (JarsJar.jar_sha1_meta self))
    as [He | Hne].
  - rewrite JarsJar_update_closed in Hrun by exact He. discriminate.
  - split; [| exact Hne].
    rewrite JarsJar_update_open in Hrun by exact Hne.
    unfold JarsJar_update_steps in Hrun.
    destruct (JarsJar.download E meta_jar self w) as [[[] | e1] w1];
      [| inversion Hrun; reflexivity].
    destruct (JarsJar.extract_bundle E self w1) as [[ub | e2] w2];
      [| inversion Hrun; reflexivity].
    destruct (JarsJar.unbundle self ub w2) as [[[] | e3] w3];
      [| inversion Hrun; reflexivity].
    destruct (JarsJar.mappingio E self w3) as [[[] | e4] w4] eqn:Hm;
      [| inversion Hrun; reflexivity].
    apply JarsJar_mappingio_keeps_archive in Hm. cbv zeta in Hrun.
    destruct (files w4 (JarsJar.jar_path self)); [discriminate | contradiction].
Qed.

(** X9: A failed [JarsJar.update] leaves the record as it was: whichever step
    raises (the fetch, the archive, the manifest, the converter), neither
    hash has been stored, so the gate of the next call on the same upstream
    hash is open again and the work is attempted anew. *)
Theorem JarsJar_update_failure_keeps_record (E : Env) (meta_jar : MetaJar.t)
  (self self' : JarsJar.t) (w w' : World) (e : exn) :
  JarsJar.update E meta_jar (self, w) = (Raise e, (self', w')) ->
  self' = self
  /\ forall w2, JarsJar.update E meta_jar (self', w2) = JarsJar_update_steps E meta_jar self w2.
Proof.
  intros Hrun. destruct (JarsJar_update_Raise E meta_jar self self' w w' e Hrun) as [-> Hne].
  split; [reflexivity |]. intros w2. apply JarsJar_update_open. exact Hne.
Qed.

Lemma JarsJar_update_failure_keeps_record_witness :
  let run := JarsJar.update Example.env_bundles (Example.meta_server "2")
               (Example.fresh_server, Example.empty_world) in
  fst run = Raise MultiVersionBundle
  /\ fst (snd run) = Example.fresh_server
  /\ requests (snd (snd run)) = ["us2"].
Proof.
  cbv zeta.
  split; [reflexivity |].
  split; [| reflexivity].
  exact (proj1 (JarsJar_update_failure_keeps_record Example.env_bundles
                  (Example.meta_server "2") Example.fresh_server _ Example.empty_world _
                  MultiVersionBundle eq_refl)).
Defined.

(** X10: The record that [JarsJar.from_meta_jar] builds: the identity of the Meta
    record, the file names [<version id>-<key>.jar] and [.tiny], and the
    upstream hash.  The constructor starts from empty hashes and runs
    [update], so a Meta record whose hash is the empty string yields a
    record with empty hashes and nothing is fetched, converted or written;
    for any other hash the local hash is the hash of the file that is then
    at the canonical path. *)
Theorem JarsJar_from_meta_jar_record (E : Env) (meta_jar : MetaJar.t) (jar : JarsJar.t)
  (w w' : World) :
  JarsJar.from_meta_jar E meta_jar w = (Return jar, w') ->
  JarsJar.version_id jar = MetaJar.version_id meta_jar
  /\ JarsJar.version_file_id jar = MetaJar.version_file_id meta_jar
  /\ JarsJar.version_release_time jar = MetaJar.version_release_time meta_jar
  /\ JarsJar.jar_key jar = MetaJar.key meta_jar
  /\ JarsJar.jar_filename jar
     = MetaJar.version_id meta_jar ++ "-" ++ MetaJar.key meta_jar ++ ".jar"
  /\ JarsJar.map_filename jar
     = MetaJar.version_id meta_jar ++ "-" ++ MetaJar.key meta_jar ++ ".tiny"
  /\ JarsJar.jar_sha1_meta jar = MetaJar.sha1 meta_jar
  /\ (MetaJar.sha1 meta_jar = "" -> JarsJar.jar_sha1_local jar = "" /\ w' = w)
  /\ (MetaJar.sha1 meta_jar <> "" ->
      exists local_bytes,
        files w' (JarsJar.jar_path jar) = Some local_bytes
        /\ JarsJar.jar_sha1_local jar = sha1_hexdigest E local_bytes).
Proof.
  unfold JarsJar.from_meta_jar. cbv zeta.
  set (self := JarsJar.mk _ _ _ _ _ _ _ _).
  destruct (JarsJar.update E meta_jar (self, w)) as [[d | e] [self' w1]] eqn:Hu;
    [| discriminate].
  intros H. inversion H; subst jar w1. clear H.
  destruct (String.eqb_spec (MetaJar.sha1 meta_jar) (JarsJar.jar_sha1_meta self))
    as [He | Hne].
  - rewrite JarsJar_update_closed in Hu by exact He. inversion Hu; subst.
    simpl in He. subst self. simpl.
    do 6 (split; [reflexivity |]). split; [congruence |].
    split; [intros _; split; reflexivity | intros Hc; congruence].
  - rewrite JarsJar_update_open in Hu by exact Hne.
    unfold JarsJar_update_steps in Hu.
    destruct (JarsJar.download E meta_jar self w) as [[[] | e1] w2]; [| discriminate].
    destruct (JarsJar.extract_bundle E self w2) as [[ub | e2] w3]; [| discriminate].
    destruct (JarsJar.unbundle self ub w3) as [[[] | e3] w4]; [| discriminate].
    destruct (JarsJar.mappingio E self w4) as [[[] | e4] w5]; [| discriminate].
    cbv zeta in Hu.
    destruct (files w5 (JarsJar.jar_path self)) as [local |] eqn:Hl; [| discriminate].
    inversion Hu; subst. simpl in Hne. subst self. simpl.
    do 7 (split; [reflexivity |]).
    split; [intros Hc; congruence |].
    intros _. exists local. split; [exact Hl | reflexivity].
Qed.

Lemma JarsJar_from_meta_jar_record_witness :
  let run := JarsJar.from_meta_jar Example.env1 Example.meta_jar_1_20_1
               Example.empty_world in
  exists jar,
    fst run = Return jar
    /\ JarsJar.jar_filename jar = "1.20.1-client.jar"
    /\ JarsJar.map_filename jar = "1.20.1-client.tiny"
    /\ JarsJar.jar_sha1_meta jar = "sha1:jar-1".
Proof.
  cbv zeta.
  exists (JarsJar.mk "1.20.1" "1.20.1" 7 "client" "sha1:jar-1" "sha1:jar-1"
            "1.20.1-client.jar" "1.20.1-client.tiny").
  split; [reflexivity |].
  destruct (JarsJar_from_meta_jar_record Example.env1 Example.meta_jar_1_20_1 _
              Example.empty_world _ eq_refl)
    as [_ [_ [_ [_ [H5 [H6 [H7 _]]]]]]].
  split; [exact H5 |]. split; [exact H6 | exact H7].
Defined.

(** ** jars.py: the store *)

(** A preorder on states that every iteration respects relates the state
    before the loop to the state after it, whatever the outcome. *)
Lemma for_dirty_related {S X : Type} (R : S -> S -> Prop) (body : X -> M S bool)
  (xs : list X) :
  (forall s, R s s) ->
  (forall a b c, R a b -> R b c -> R a c) ->
  (forall x s r s', In x xs -> body x s = (r, s') -> R s s') ->
  forall dirty s r s', for_dirty xs body dirty s = (r, s') -> R s s'.
Proof.
  intros Hrefl Htrans Hbody dirty s r s' Hrun.
  apply (for_dirty_preserves (fun t => R s t) body xs) with (dirty := dirty) (s := s)
    (r := r); [| exact Hrun | apply Hrefl].
  intros x t r0 t' Hx Hb Ht. eapply Htrans; [exact Ht |]. eapply Hbody; eassumption.
Qed.


Lemma JarsJar_update_identity (E : Env) (meta_jar : MetaJar.t) (self self' : JarsJar.t)
  (w w' : World) (r : outcome bool) :
  JarsJar.update E meta_jar (self, w) = (r, (self', w')) ->
  JarsJar_same_identity self self'.
Proof.
  intros Hrun.
  destruct (String.eqb_spec (MetaJar.sha1 meta_jar) (JarsJar.jar_sha1_meta self))
    as [He | Hne].
  - rewrite JarsJar_update_closed in Hrun by exact He. inversion Hrun; subst.
    unfold JarsJar_same_identity. repeat split.
  - rewrite JarsJar_update_open in Hrun by exact Hne.
    unfold JarsJar_update_steps in Hrun.
    destruct (JarsJar.download E meta_jar self w) as [[[] | e1] w1];
      [| inversion Hrun; unfold JarsJar_same_identity; repeat split].
    destruct (JarsJar.extract_bundle E self w1) as [[ub | e2] w2];
      [| inversion Hrun; unfold JarsJar_same_identity; repeat split].
    destruct (JarsJar.unbundle self ub w2) as [[[] | e3] w3];
      [| inversion Hrun; unfold JarsJar_same_identity; repeat split].
    destruct (JarsJar.mappingio E self w3) as [[[] | e4] w4];
      [| inversion Hrun; unfold JarsJar_same_identity; repeat split].
    cbv zeta in Hrun.
    destruct (files w4 (JarsJar.jar_path self)); inversion Hrun;
      unfold JarsJar_same_identity; simpl; repeat split.
Qed.

Lemma JarsJar_update_false (E : Env) (meta_jar : MetaJar.t) (self self' : JarsJar.t)
  (w w' : World) :
  JarsJar.update E meta_jar (self, w) = (Return false, (self', w')) ->
  self' = self /\ w' = w.
Proof.
  intros Hrun.
  destruct (String.eqb_spec (MetaJar.sha1 meta_jar) (JarsJar.jar_sha1_meta self))
    as [He | Hne].
  - rewrite JarsJar_update_closed in Hrun by exact He. inversion Hrun; auto.
  - rewrite JarsJar_update_open in Hrun by exact Hne.
    unfold JarsJar_update_steps in Hrun.
    destruct (JarsJar.download E meta_jar self w) as [[[] | e1] w1]; [| discriminate].
    destruct (JarsJar.extract_bundle E self w1) as [[ub | e2] w2]; [| discriminate].
    destruct (JarsJar.unbundle self ub w2) as [[[] | e3] w3]; [| discriminate].
    destruct (JarsJar.mappingio E self w3) as [[[] | e4] w4]; [| discriminate].
    cbv zeta in Hrun. destruct (files w4 (JarsJar.jar_path self)); discriminate.
Qed.

Lemma JarsJar_same_identity_refl (a : JarsJar.t) : JarsJar_same_identity a a.
Proof. unfold JarsJar_same_identity. repeat split. Qed.

Lemma JarsJar_same_identity_trans (a b c : JarsJar.t) :
  JarsJar_same_identity a b -> JarsJar_same_identity b c -> JarsJar_same_identity a c.
Proof.
  unfold JarsJar_same_identity.
  intros [A1 [A2 [A3 [A4 [A5 A6]]]]] [B1 [B2 [B3 [B4 [B5 B6]]]]].
  repeat split; congruence.
Qed.

Lemma Jars_extends_refl (vs : dict (dict JarsJar.t)) : Jars_extends vs vs.
Proof.
  intros v inner k jar H1 H2. exists inner, jar.
  split; [exact H1 |]. split; [exact H2 | apply JarsJar_same_identity_refl].
Qed.

Lemma Jars_extends_trans (a b c : dict (dict JarsJar.t)) :
  Jars_extends a b -> Jars_extends b c -> Jars_extends a c.
Proof.
  intros Hab Hbc v inner k jar H1 H2.
  destruct (Hab v inner k jar H1 H2) as [inner1 [jar1 [G1 [G2 G3]]]].
  destruct (Hbc v inner1 k jar1 G1 G2) as [inner2 [jar2 [K1 [K2 K3]]]].
  exists inner2, jar2. split; [exact K1 |]. split; [exact K2 |].
  eapply JarsJar_same_identity_trans; eassumption.
Qed.

(** Setting the inner map of a version to one that extends the old one. *)
Lemma Jars_extends_set (vs : dict (dict JarsJar.t)) (version : string)
  (inner inner' : dict JarsJar.t) :
  dict_get version vs = Some inner ->
  (forall k jar, dict_get k inner = Some jar ->
     exists jar', dict_get k inner' = Some jar' /\ JarsJar_same_identity jar jar') ->
  Jars_extends vs (dict_set version inner' vs).
Proof.
  intros Hv Hin v i k jar H1 H2.
  destruct (String.eqb_spec version v) as [<- | Hne].
  - rewrite Hv in H1. inversion H1; subst i.
    destruct (Hin k jar H2) as [jar' [G1 G2]].
    exists inner', jar'. rewrite dict_get_set_same. auto.
  - exists i, jar. rewrite dict_get_set_other by exact Hne.
    split; [exact H1 |]. split; [exact H2 | apply JarsJar_same_identity_refl].
Qed.

Lemma Jars_extends_set_key (inner : dict JarsJar.t) (k0 : string) (jar0 : JarsJar.t) :
  (forall jar, dict_get k0 inner = Some jar -> JarsJar_same_identity jar jar0) ->
  forall k jar, dict_get k inner = Some jar ->
    exists jar', dict_get k (dict_set k0 jar0 inner) = Some jar'
                 /\ JarsJar_same_identity jar jar'.
Proof.
  intros H0 k jar Hk.
  destruct (String.eqb_spec k0 k) as [<- | Hne].
  - exists jar0. rewrite dict_get_set_same. split; [reflexivity | apply H0, Hk].
  - exists jar. rewrite dict_get_set_other by exact Hne.
    split; [exact Hk | apply JarsJar_same_identity_refl].
Qed.

Lemma Jars_update_jar_extends (E : Env) (version jar_name : string) (meta_jar : MetaJar.t)
  (st st' : Jars.t * World) (r : outcome bool) :
  Jars.update_jar E version jar_name meta_jar st = (r, st') ->
  Jars_extends (Jars.versions (fst st)) (Jars.versions (fst st')).
Proof.
  destruct st as [self w]. intros Hrun.
  destruct (dict_get version (Jars.versions self)) as [inner |] eqn:Hv.
  - destruct (dict_get jar_name inner) as [jar |] eqn:Hj.
    + rewrite (Jars_update_jar_existing E version jar_name meta_jar self w inner jar Hv Hj)
        in Hrun.
      destruct (JarsJar.update E meta_jar (jar, w)) as [[vd | e] [jar' w1]] eqn:Hu;
        pose proof (JarsJar_update_identity E meta_jar jar jar' w w1 _ Hu) as Hid.
      * assert (Hstep : Jars_extends (Jars.versions self)
                          (dict_set version (dict_set jar_name jar' inner)
                             (Jars.versions self))).
        { apply (Jars_extends_set _ _ inner _ Hv).
          apply Jars_extends_set_key. intros j Hj'. rewrite Hj in Hj'.
          inversion Hj'; subst. exact Hid. }
        cbv zeta in Hrun. destruct vd; inversion Hrun; subst; cbn [fst Jars.versions
          Jars.set_version]; [| exact Hstep].
        eapply Jars_extends_trans; [exact Hstep |].
        apply (Jars_extends_set _ _ (dict_set jar_name jar' inner)).
        -- apply dict_get_set_same.
        -- intros k j Hk. exists j. rewrite dict_get_sort_dict.
           split; [exact Hk | apply JarsJar_same_identity_refl].
      * inversion Hrun; subst. cbn [fst Jars.versions Jars.set_version].
        apply (Jars_extends_set _ _ inner _ Hv).
        apply Jars_extends_set_key. intros j Hj'. rewrite Hj in Hj'.
        inversion Hj'; subst. exact Hid.
    + rewrite (Jars_update_jar_new E version jar_name meta_jar self w inner Hv Hj) in Hrun.
      destruct (JarsJar.from_meta_jar E meta_jar w) as [[jar | e] w1];
        inversion Hrun; subst; cbn [fst Jars.versions Jars.set_version];
        [| apply Jars_extends_refl].
      apply (Jars_extends_set _ _ inner _ Hv).
      apply Jars_extends_set_key. intros j Hj'. congruence.
  - unfold Jars.update_jar in Hrun. munfold. cbn [fst snd] in Hrun. rewrite Hv in Hrun.
    inversion Hrun; subst. apply Jars_extends_refl.
Qed.

Lemma Jars_loop_extends {X : Type} (body : X -> M (Jars.t * World) bool) (xs : list X) :
  (forall x s r s', In x xs -> body x s = (r, s') ->
     Jars_extends (Jars.versions (fst s)) (Jars.versions (fst s'))) ->
  forall dirty s r s', for_dirty xs body dirty s = (r, s') ->
    Jars_extends (Jars.versions (fst s)) (Jars.versions (fst s')).
Proof.
  apply (for_dirty_related
           (fun a b => Jars_extends (Jars.versions (fst a)) (Jars.versions (fst b)))).
  - intros s. apply Jars_extends_refl.
  - intros a b c. apply Jars_extends_trans.
Qed.

Lemma Jars_update_version_extends (E : Env) (mc_version : MetaVersion.t)
  (st st' : Jars.t * World) (r : outcome bool) :
  Jars.update_version E mc_version st = (r, st') ->
  Jars_extends (Jars.versions (fst st)) (Jars.versions (fst st')).
Proof.
  destruct st as [self w]. unfold Jars.update_version.
  unfold bind at 1. unfold on_self at 1, zoom at 1, get at 1. cbn [fst snd].
  unfold bind at 1.
  destruct (dict_mem (MetaVersion.id mc_version) (Jars.versions self)) eqn:Hm;
    cbn [negb].
  - unfold ret at 1. intros Hrun.
    apply Jars_loop_extends in Hrun; [exact Hrun |].
    intros x s r0 s' _ Hx. eapply Jars_update_jar_extends. exact Hx.
  - munfold. cbn [fst snd]. intros Hrun.
    apply Jars_loop_extends in Hrun;
      [| intros x s r0 s' _ Hx; eapply Jars_update_jar_extends; exact Hx].
    eapply Jars_extends_trans; [| exact Hrun].
    cbn [fst Jars.versions Jars.set_version].
    apply dict_mem_false in Hm.
    intros v i k jar H1 H2. exists i, jar.
    rewrite dict_get_set_other by congruence.
    split; [exact H1 |]. split; [exact H2 | apply JarsJar_same_identity_refl].
Qed.

(** X11: [Jars.update] never drops a record: whatever its outcome, a raise
    included, every record that the store held under a version and a key is
    still held under that version and key afterwards, with the identity
    fields and the file names it had.  Versions and archives that have
    vanished upstream therefore stay in the store. *)
Theorem Jars_update_keeps_records (E : Env) (meta : Meta.t) (self self' : Jars.t)
  (w w' : World) (r : outcome bool) (version key : string) (inner : dict JarsJar.t)
  (jar : JarsJar.t) :
  Jars.update E meta (self, w) = (r, (self', w')) ->
  dict_get version (Jars.versions self) = Some inner ->
  dict_get key inner = Some jar ->
  exists inner' jar',
    dict_get version (Jars.versions self') = Some inner'
    /\ dict_get key inner' = Some jar'
    /\ JarsJar_same_identity jar jar'.
Proof.
  intros Hrun. revert version inner key jar.
  change (Jars_extends (Jars.versions self) (Jars.versions self')).
  unfold Jars.update in Hrun. unfold bind at 1 in Hrun.
  destruct (for_dirty (rev (Meta.minecraft meta)) (Jars.update_version E) false (self, w))
    as [[d1 | e] [s1 w1]] eqn:Hloop;
    apply Jars_loop_extends in Hloop;
    try (intros x s r0 s' _ Hx; eapply Jars_update_version_extends; exact Hx);
    cbn [fst] in Hloop.
  - destruct d1; munfold; cbn [fst snd] in Hrun.
    + destruct (Util.sort_dict_key _ true (Jars.versions s1)) as [vs | e] eqn:Hsort;
        inversion Hrun; subst; [| exact Hloop].
      eapply Jars_extends_trans; [exact Hloop |].
      intros v i k j H1 H2. exists i, j. cbn [Jars.versions].
      rewrite (dict_get_sort_dict_key _ _ _ _ _ _ Hsort).
      split; [exact H1 |]. split; [exact H2 | apply JarsJar_same_identity_refl].
    + inversion Hrun; subst. exact Hloop.
  - inversion Hrun; subst. exact Hloop.
Qed.

Lemma Jars_update_jar_false (E : Env) (version jar_name : string) (meta_jar : MetaJar.t)
  (st st' : Jars.t * World) :
  Jars.update_jar E version jar_name meta_jar st = (Return false, st') -> st' = st.
Proof.
  destruct st as [self w]. intros Hrun.
  destruct (dict_get version (Jars.versions self)) as [inner |] eqn:Hv.
  - destruct (dict_get jar_name inner) as [jar |] eqn:Hj.
    + rewrite (Jars_update_jar_existing E version jar_name meta_jar self w inner jar Hv Hj)
        in Hrun.
      destruct (JarsJar.update E meta_jar (jar, w)) as [[vd | e] [jar' w1]] eqn:Hu;
        [| discriminate].
      cbv zeta in Hrun. destruct vd; [discriminate |].
      destruct (JarsJar_update_false E meta_jar jar jar' w w1 Hu) as [-> ->].
      inversion Hrun; subst. unfold Jars.set_version.
      rewrite (dict_set_get_id _ _ _ _ Hj), (dict_set_get_id _ _ _ _ Hv).
      destruct self. reflexivity.
    + rewrite (Jars_update_jar_new E version jar_name meta_jar self w inner Hv Hj) in Hrun.
      destruct (JarsJar.from_meta_jar E meta_jar w) as [[jar | e] w1]; discriminate.
  - unfold Jars.update_jar in Hrun. munfold. cbn [fst snd] in Hrun. rewrite Hv in Hrun.
    discriminate.
Qed.

Lemma Jars_update_version_false (E : Env) (mc_version : MetaVersion.t)
  (st st' : Jars.t * World) :
  Jars.update_version E mc_version st = (Return false, st') -> st' = st.
Proof.
  destruct st as [self w]. unfold Jars.update_version.
  unfold bind at 1. unfold on_self at 1, zoom at 1, get at 1. cbn [fst snd].
  unfold bind at 1.
  destruct (dict_mem (MetaVersion.id mc_version) (Jars.versions self)) eqn:Hm;
    cbn [negb].
  - unfold ret at 1. intros Hrun.
    apply for_dirty_false in Hrun; [exact (proj2 Hrun) |].
    intros x s s' _ Hx. eapply Jars_update_jar_false. exact Hx.
  - munfold. cbn [fst snd]. intros Hrun.
    apply for_dirty_false in Hrun; [destruct Hrun; discriminate |].
    intros x s s' _ Hx. eapply Jars_update_jar_false. exact Hx.
Qed.

Lemma Jars_update_false (E : Env) (meta : Meta.t) (st st' : Jars.t * World) :
  Jars.update E meta st = (Return false, st') -> st' = st.
Proof.
  unfold Jars.update. unfold bind at 1.
  destruct (for_dirty (rev (Meta.minecraft meta)) (Jars.update_version E) false st)
    as [[d1 | e] s1] eqn:Hloop; [| discriminate].
  destruct d1.
  - munfold. cbn [fst snd].
    destruct (Util.sort_dict_key _ true (Jars.versions (fst s1))); discriminate.
  - unfold ret. intros H. inversion H; subst.
    apply for_dirty_false in Hloop; [exact (proj2 Hloop) |].
    intros x s s' _ Hx. eapply Jars_update_version_false. exact Hx.
Qed.

Lemma Meta_update_false (E : Env) (versions_dir : list File) (self self' : Meta.t) :
  (forall b, sha1_hexdigest E b <> EmptyString) ->
  Meta.update E versions_dir self = (Return false, self') -> self' = self.
Proof.
  intros Hsha. unfold Meta.update. cbv zeta. unfold bind at 1.
  destruct (for_dirty _ (Meta.update_file E) false self) as [[d1 | e] s1] eqn:Hloop;
    [| discriminate].
  destruct d1; [munfold; discriminate |].
  unfold ret. intros H. inversion H; subst.
  apply for_dirty_false in Hloop; [exact (proj2 Hloop) |].
  intros x s s' _ Hx. eapply Meta_update_file_false; [exact Hsha | exact Hx].
Qed.

Lemma IndexMapping_update_false (jar : JarsJar.t) (self self' : IndexMapping.t) :
  IndexMapping.update jar self = (Return false, self') -> self' = self.
Proof.
  unfold IndexMapping.update. munfold.
  destruct (IndexMapping.identity_matches self jar) eqn:Hid; simpl; [| discriminate].
  destruct self as [a b c k s p u]. simpl in *.
  destruct (String.eqb_spec s (JarsJar.jar_sha1_meta jar)) as [Hs | Hs];
    destruct (String.eqb_spec p (JarsJar.map_path jar)) as [Hp | Hp]; simpl;
    match goal with
    | |- context [String.eqb ?x ?y] => destruct (String.eqb_spec x y) as [Hu | Hu]
    end; simpl; intros H; inversion H; subst; reflexivity.
Qed.

Lemma Index_update_mapping_false (jar : JarsJar.t) (self self' : Index.t) :
  Index.update_mapping jar self = (Return false, self') -> self' = self.
Proof.
  unfold Index.update_mapping. munfold. unfold dict_mem.
  destruct (dict_get (JarsJar.version_id jar) (Index.mappings self)) as [inner |] eqn:Hv;
    cbn [negb Index.mappings Index.set_version].
  - rewrite Hv.
    destruct (dict_get (JarsJar.jar_key jar) inner) as [m |] eqn:Hk; cbn [negb];
      [| discriminate].
    rewrite Hv, Hk.
    destruct (IndexMapping.update jar m) as [[d | e] m'] eqn:Hu; [| discriminate].
    destruct d.
    + cbn [Index.mappings]. rewrite dict_get_set_same. discriminate.
    + apply IndexMapping_update_false in Hu. subst m'.
      rewrite (dict_set_get_id _ _ _ _ Hk), (dict_set_get_id _ _ _ _ Hv).
      intros H. inversion H. destruct self. reflexivity.
  - rewrite dict_get_set_same. simpl. discriminate.
Qed.

Lemma Index_update_false (jars : Jars.t) (self self' : Index.t) :
  Index.update jars self = (Return false, self') -> self' = self.
Proof.
  unfold Index.update. unfold bind at 1.
  destruct (for_dirty (Jars.all jars) Index.update_mapping false self)
    as [[d1 | e] s1] eqn:Hloop; [| discriminate].
  destruct d1.
  - munfold. destruct (Util.sort_dict_key _ true (Index.mappings s1)); discriminate.
  - unfold ret. intros H. inversion H; subst.
    apply for_dirty_false in Hloop; [exact (proj2 Hloop) |].
    intros x s s' _ Hx. eapply Index_update_mapping_false. exact Hx.
Qed.

(** X12: The dirty flag is honest: an [update] that returns not-dirty has left
    its store exactly as it was, so skipping the [save] loses nothing.  For
    Jars the file system is untouched as well, with no request and no
    conversion.  For Meta this needs the hash function not to return the
    empty string, the hash of the empty version that [update] appends for a
    new descriptor file. *)
Theorem update_not_dirty_unchanged (E : Env) :
  (forall versions_dir self self',
     (forall b, sha1_hexdigest E b <> EmptyString) ->
     Meta.update E versions_dir self = (Return false, self') -> self' = self)
  /\ (forall meta self self' w w',
        Jars.update E meta (self, w) = (Return false, (self', w')) ->
        self' = self /\ w' = w)
  /\ (forall jars self self',
        Index.update jars self = (Return false, self') -> self' = self).
Proof.
  split; [| split].
  - intros versions_dir self self' Hsha H. eapply Meta_update_false; eassumption.
  - intros meta self self' w w' H. apply Jars_update_false in H. inversion H. auto.
  - intros jars self self' H. eapply Index_update_false. exact H.
Qed.

Lemma update_not_dirty_unchanged_witness :
  snd (Meta.update Example.env1 Example.dir1 (Meta.mk "c" [Example.meta_version_1_20_1]))
  = Meta.mk "c" [Example.meta_version_1_20_1].
Proof.
  apply (proj1 (update_not_dirty_unchanged Example.env1) Example.dir1).
  - intros b. simpl. discriminate.
  - reflexivity.
Defined.

(** ** index.py *)

(** X13: With the identity fields equal, [IndexMapping.update] never raises: the
    mapping becomes the one derived from the archive record (hash, path and
    URL under the base URL), and the call is dirty exactly when the mapping
    was a different one. *)
Theorem IndexMapping_update_mirrors (jar : JarsJar.t) (self : IndexMapping.t) :
  IndexMapping.version_id self = JarsJar.version_id jar ->
  IndexMapping.version_file_id self = JarsJar.version_file_id jar ->
  IndexMapping.version_release_time self = JarsJar.version_release_time jar ->
  IndexMapping.jar_key self = JarsJar.jar_key jar ->
  exists d,
    IndexMapping.update jar self = (Return d, IndexMapping.from_jar jar)
    /\ (d = false <-> self = IndexMapping.from_jar jar).
Proof.
  intros H1 H2 H3 H4.
  destruct self as [a b c k s p u]. simpl in *. subst.
  unfold IndexMapping.update, IndexMapping.identity_matches, IndexMapping.from_jar.
  munfold. simpl. rewrite !String.eqb_refl, Z.eqb_refl. simpl.
  destruct (String.eqb_spec s (JarsJar.jar_sha1_meta jar)) as [Hs | Hs];
    destruct (String.eqb_spec p (JarsJar.map_path jar)) as [Hp | Hp]; simpl;
    match goal with
    | |- context [String.eqb ?x ?y] => destruct (String.eqb_spec x y) as [Hu | Hu]
    end; simpl; subst; eexists; (split; [reflexivity |]);
    split; intros H; try discriminate; try reflexivity; inversion H; congruence.
Qed.

Lemma IndexMapping_update_mirrors_witness :
  exists d,
    IndexMapping.update Example.jar_1_20_1
      (IndexMapping.mk "1.20.1" "1.20.1" 7 "client" "old" "p" "u")
    = (Return d, IndexMapping.from_jar Example.jar_1_20_1)
    /\ (d = false <->
        IndexMapping.mk "1.20.1" "1.20.1" 7 "client" "old" "p" "u"
        = IndexMapping.from_jar Example.jar_1_20_1).
Proof.
  apply (IndexMapping_update_mirrors Example.jar_1_20_1
           (IndexMapping.mk "1.20.1" "1.20.1" 7 "client" "old" "p" "u")); reflexivity.
Defined.

(** ** jars.py and index.py: what a completed update has stored *)

Lemma Jars_update_settles (E : Env) (meta : Meta.t) (self self1 : Jars.t)
  (w w1 : World) (d : bool) :
  NoDup (map MetaVersion.id (Meta.minecraft meta)) ->
  (forall mc_version, In mc_version (Meta.minecraft meta) ->
     NoDup (dict_keys (MetaVersion.jars mc_version))) ->
  Jars.update E meta (self, w) = (Return d, (self1, w1)) ->
  forall mc_version, In mc_version (Meta.minecraft meta) ->
    Jars_version_settled mc_version (Jars.versions self1).
Proof.
  intros Hnd Hkeys Hrun. unfold Jars.update in Hrun.
  unfold bind at 1 in Hrun.
  destruct (for_dirty (rev (Meta.minecraft meta)) (Jars.update_version E) false (self, w))
    as [[d1 | e] [s1 w1']] eqn:Hloop; [| discriminate].
  assert (Hstep : forall x s b s',
            NoDup (dict_keys (MetaVersion.jars x)) -> True ->
            Jars.update_version E x s = (Return b, s') ->
            True /\ Jars_version_settled x (Jars.versions (fst s'))
            /\ forall g, Jars_version_settled g (Jars.versions (fst s)) ->
                 MetaVersion.id x <> MetaVersion.id g ->
                 Jars_version_settled g (Jars.versions (fst s'))).
  { intros x s b s' Hx _ Hxr. split; [exact I |].
    exact (Jars_update_version_step E x s s' b Hx Hxr). }
  destruct (for_dirty_settles (Jars.t * World) MetaVersion.t string
              (Jars.update_version E) MetaVersion.id
              (fun x => NoDup (dict_keys (MetaVersion.jars x))) (fun _ => True)
              (fun x s => Jars_version_settled x (Jars.versions (fst s))) Hstep
              (rev (Meta.minecraft meta))) with
    (s := (self, w)) (s' := (s1, w1')) (d0 := false) (d := d1) as [_ [Hall _]].
  { rewrite map_rev. apply NoDup_rev. exact Hnd. }
  { intros x Hx. apply Hkeys. apply in_rev. exact Hx. }
  { exact I. }
  { exact Hloop. }
  cbn [fst] in Hall.
  intros mc_version Hin. apply in_rev in Hin.
  destruct d1; munfold; cbn [fst snd] in Hrun.
  - destruct (Util.sort_dict_key _ true (Jars.versions s1)) as [vs | e] eqn:Hsort;
      [| discriminate].
    inversion Hrun; subst.
    eapply Jars_version_settled_frame; [| apply Hall; exact Hin].
    simpl. apply (dict_get_sort_dict_key _ _ _ _ _ _ Hsort).
  - inversion Hrun; subst. apply Hall. exact Hin.
Qed.

(** X14: A completed [Jars.update] has caught up with the whole Meta snapshot:
    for every version of the snapshot and every archive it lists, the store
    holds, under the id of the version and the key of the archive, a record
    whose upstream hash is the hash the snapshot gives.  The snapshot must
    not hold two versions of the same id. *)
Theorem Jars_update_converges (E : Env) (meta : Meta.t) (self self1 : Jars.t)
  (w w1 : World) (d : bool) :
  NoDup (map MetaVersion.id (Meta.minecraft meta)) ->
  (forall mc_version, In mc_version (Meta.minecraft meta) ->
     NoDup (dict_keys (MetaVersion.jars mc_version))) ->
  Jars.update E meta (self, w) = (Return d, (self1, w1)) ->
  forall mc_version jar_name meta_jar,
    In mc_version (Meta.minecraft meta) ->
    In (jar_name, meta_jar) (MetaVersion.jars mc_version) ->
    exists inner jar,
      dict_get (MetaVersion.id mc_version) (Jars.versions self1) = Some inner
      /\ dict_get jar_name inner = Some jar
      /\ JarsJar.jar_sha1_meta jar = MetaJar.sha1 meta_jar.
Proof.
  intros Hnd Hkeys Hrun mc_version jar_name meta_jar Hv Hj.
  destruct (Jars_update_settles E meta self self1 w w1 d Hnd Hkeys Hrun mc_version Hv)
    as [_ Hall].
  exact (Hall (jar_name, meta_jar) Hj).
Qed.

Lemma Jars_update_converges_witness :
  let run := Jars.update Example.env_store Example.meta_server_added
               (Example.jars_without_server, Example.world_without_server) in
  exists inner jar,
    dict_get "1.0" (Jars.versions (fst (snd run))) = Some inner
    /\ dict_get "server" inner = Some jar
    /\ JarsJar.jar_sha1_meta jar = "sha1:jar-s".
Proof.
  cbv zeta.
  destruct (Jars.update Example.env_store Example.meta_server_added
              (Example.jars_without_server, Example.world_without_server))
    as [o [self1 w1]] eqn:Hr.
  assert (Ho : o = Return true).
  { apply (f_equal fst) in Hr. vm_compute in Hr. congruence. }
  subst o. cbn [fst snd].
  apply (Jars_update_converges Example.env_store Example.meta_server_added
           Example.jars_without_server self1 Example.world_without_server w1 true)
    with (mc_version := MetaVersion.mk "1.0" "1.0" 3 "sha1:d"
            [("client", Example.meta_jar_of "1.0" "1.0" 3 "client" "c");
             ("server", Example.meta_jar_of "1.0" "1.0" 3 "server" "s");
             ("windows_server", Example.meta_jar_of "1.0" "1.0" 3 "windows_server" "w")])
         (meta_jar := Example.meta_jar_of "1.0" "1.0" 3 "server" "s").
  - simpl. repeat constructor. simpl. tauto.
  - intros v [Hv | []]. subst v. vm_compute. repeat constructor; simpl; intuition congruence.
  - exact Hr.
  - left. reflexivity.
  - right. left. reflexivity.
Defined.

Lemma Jars_update_keeps_records_witness :
  let run := Jars.update Example.env_store Example.meta_server_added
               (Example.jars_without_server, Example.world_without_server) in
  exists inner' jar',
    dict_get "1.0" (Jars.versions (fst (snd run))) = Some inner'
    /\ dict_get "windows_server" inner' = Some jar'
    /\ JarsJar_same_identity (Example.jar_of "1.0" "1.0" 3 "windows_server" "w") jar'.
Proof.
  cbv zeta.
  destruct (Jars.update Example.env_store Example.meta_server_added
              (Example.jars_without_server, Example.world_without_server))
    as [o [self1 w1]] eqn:Hr.
  cbn [fst snd].
  apply (Jars_update_keeps_records Example.env_store Example.meta_server_added
           Example.jars_without_server self1 Example.world_without_server w1 o
           "1.0" "windows_server"
           [("client", Example.jar_of "1.0" "1.0" 3 "client" "c");
            ("windows_server", Example.jar_of "1.0" "1.0" 3 "windows_server" "w")]).
  - exact Hr.
  - reflexivity.
  - reflexivity.
Defined.

Lemma Index_update_mapping_timestamp (jar : JarsJar.t) (self self' : Index.t)
  (r : outcome bool) :
  Index.update_mapping jar self = (r, self') ->
  Index.timestamp self' = Index.timestamp self.
Proof.
  unfold Index.update_mapping. munfold. unfold dict_mem.
  destruct (dict_get (JarsJar.version_id jar) (Index.mappings self)) as [inner |] eqn:Hv;
    cbn [negb Index.mappings Index.set_version].
  - rewrite Hv.
    destruct (dict_get (JarsJar.jar_key jar) inner) as [m |] eqn:Hk; cbn [negb];
      [| intros H; inversion H; reflexivity].
    rewrite Hv, Hk.
    destruct (IndexMapping.update jar m) as [[[] | e] m'];
      cbn [Index.mappings]; try rewrite dict_get_set_same;
      intros H; inversion H; reflexivity.
  - rewrite dict_get_set_same. simpl. intros H; inversion H; reflexivity.
Qed.

Lemma Index_update_pass_timestamp (jars : Jars.t) (self self' : Index.t)
  (r : outcome bool) :
  Index_update_pass jars self = (r, self') ->
  Index.timestamp self' = Index.timestamp self.
Proof.
  unfold Index_update_pass.
  apply (for_dirty_related (fun a b => Index.timestamp b = Index.timestamp a)).
  - reflexivity.
  - intros a b c H1 H2. congruence.
  - intros x s r0 s' _ Hx. eapply Index_update_mapping_timestamp. exact Hx.
Qed.

Lemma Index_update_settles (jars : Jars.t) (self self1 : Index.t) (d : bool) :
  NoDup (map Index_key (Jars.all jars)) ->
  Index.update jars self = (Return d, self1) ->
  forall jar, In jar (Jars.all jars) -> Index_settled jar (Index.mappings self1).
Proof.
  intros Hnd Hrun. unfold Index.update in Hrun.
  unfold bind at 1 in Hrun.
  destruct (for_dirty (Jars.all jars) Index.update_mapping false self)
    as [[d1 | e] s1] eqn:Hloop; [| discriminate].
  assert (Hstep : forall x s b s', True -> True ->
            Index.update_mapping x s = (Return b, s') ->
            True /\ Index_settled x (Index.mappings s')
            /\ forall g, Index_settled g (Index.mappings s) -> Index_key x <> Index_key g ->
                 Index_settled g (Index.mappings s')).
  { intros x s b s' _ _ Hx. split; [exact I |].
    apply Index_update_mapping_updated in Hx.
    split; [exact (proj1 (Index_settled_of_updated x x _ _ Hx)) |].
    intros g. exact (proj2 (Index_settled_of_updated x g _ _ Hx)). }
  destruct (for_dirty_settles Index.t JarsJar.t (string * string)
              Index.update_mapping Index_key (fun _ => True) (fun _ => True)
              (fun jar s => Index_settled jar (Index.mappings s)) Hstep
              (Jars.all jars) Hnd (fun _ _ => I) self s1 false d1 I Hloop)
    as [_ [Hall _]].
  destruct d1; munfold.
  - destruct (Util.sort_dict_key _ true (Index.mappings s1)) as [ms | e] eqn:Hsort;
      [| discriminate].
    inversion Hrun; subst. simpl. intros jar Hjar.
    destruct (Hall jar Hjar) as [inner [G1 G2]]. exists inner. split; [| exact G2].
    rewrite (dict_get_sort_dict_key _ _ _ _ _ _ Hsort). exact G1.
  - inversion Hrun; subst. exact Hall.
Qed.

(** X15: A completed [Index.update] has caught up with the whole Jars snapshot:
    for every archive record of the snapshot the index holds, under the
    version id and the key of the record, exactly the mapping derived from
    it.  The time stamp is not touched: only [save] stamps it.  The
    snapshot must not hold two records of the same version id and key. *)
Theorem Index_update_converges (jars : Jars.t) (self self1 : Index.t) (d : bool) :
  NoDup (map Index_key (Jars.all jars)) ->
  Index.update jars self = (Return d, self1) ->
  (forall jar, In jar (Jars.all jars) ->
     exists inner,
       dict_get (JarsJar.version_id jar) (Index.mappings self1) = Some inner
       /\ dict_get (JarsJar.jar_key jar) inner = Some (IndexMapping.from_jar jar))
  /\ Index.timestamp self1 = Index.timestamp self.
Proof.
  intros Hnd Hrun. split.
  - exact (Index_update_settles jars self self1 d Hnd Hrun).
  - unfold Index.update in Hrun. unfold bind at 1 in Hrun.
    fold (Index_update_pass jars) in Hrun.
    destruct (Index_update_pass jars self) as [[d1 | e] s1] eqn:Hpass; [| discriminate].
    apply Index_update_pass_timestamp in Hpass.
    destruct d1; munfold.
    + destruct (Util.sort_dict_key _ true (Index.mappings s1)); inversion Hrun; subst.
      simpl. exact Hpass.
    + inversion Hrun; subst. exact Hpass.
Qed.

Lemma Index_update_converges_witness :
  let jars := Jars.mk [("1.0", [("client", Example.jar_of "1.0" "1.0" 3 "client" "c");
                                ("server", Example.jar_of "1.0" "1.0" 3 "server" "s")])] in
  let run := Index.update jars Index.empty in
  fst run = Return true
  /\ (exists inner,
         dict_get "1.0" (Index.mappings (snd run)) = Some inner
         /\ dict_get "server" inner
            = Some (IndexMapping.from_jar (Example.jar_of "1.0" "1.0" 3 "server" "s")))
  /\ Index.timestamp (snd run) = Index.timestamp Index.empty.
Proof.
  cbv zeta. split; [vm_compute; reflexivity |].
  match goal with
  | |- context [Index.update ?j ?s] =>
      destruct (Index_update_converges j s (snd (Index.update j s)) true) as [H1 H2]
  end.
  - vm_compute. repeat constructor; simpl; intuition congruence.
  - vm_compute. reflexivity.
  - split; [| exact H2].
    apply (H1 (Example.jar_of "1.0" "1.0" 3 "server" "s")).
    right. left. reflexivity.
Defined.

(** X16: A dirty [Index.update] orders the outer map by descending release time,
    where the release time of a version key is looked up in the mappings of
    the index itself as the loop left them (the first mapping, in map
    order, whose version id or version file id is the key).  The sorted map
    holds the same entries as the map the loop left. *)
Theorem Index_update_orders_by_own_mappings (jars : Jars.t) (self self' : Index.t) :
  Index.update jars self = (Return true, self') ->
  exists pass,
    Index_update_pass jars self = (Return true, pass)
    /\ Permutation (Index.mappings self') (Index.mappings pass)
    /\ exists times,
         Forall2 (fun k t => Index.get_version_release_time pass k = Return t)
           (dict_keys (Index.mappings self')) times
         /\ StronglySorted (fun a b => (b <= a)%Z) times.
Proof.
  intros H. unfold Index.update in H. unfold bind at 1 in H.
  fold (Index_update_pass jars) in H.
  destruct (Index_update_pass jars self) as [[d | e] pass] eqn:Hpass; [| discriminate].
  destruct d; [| munfold; discriminate].
  munfold.
  destruct (Util.sort_dict_key _ true (Index.mappings pass)) as [ms | e] eqn:Hsort;
    [| discriminate].
  inversion H; subst. exists pass. split; [reflexivity |]. simpl. split.
  - unfold Util.sort_dict_key, sorted in Hsort.
    destruct (decorate _ (Index.mappings pass)) as [l | e] eqn:Hd; [| discriminate].
    inversion Hsort; subst.
    destruct (decorate_Return _ _ _ _ _ Hd) as [Hm _].
    rewrite <- Hm. apply Permutation_map. apply sort_decorated_perm.
  - eapply sort_dict_key_descending. exact Hsort.
Qed.

Lemma Index_update_orders_by_own_mappings_witness :
  let jars := Jars.mk [("1.0", [("client", Example.jar_of "1.0" "1.0" 3 "client" "c")]);
                       ("2.0", [("client", Example.jar_of "2.0" "2.0" 8 "client" "a")])] in
  exists pass,
    Index_update_pass jars Index.empty = (Return true, pass)
    /\ dict_keys (Index.mappings pass) = ["1.0"; "2.0"]
    /\ dict_keys (Index.mappings (snd (Index.update jars Index.empty))) = ["2.0"; "1.0"].
Proof.
  cbv zeta.
  match goal with
  | |- context [Index.update ?j ?s] =>
      destruct (Index_update_orders_by_own_mappings j s (snd (Index.update j s)))
        as [pass [H1 _]]; [vm_compute; reflexivity | exists pass]
  end.
  split; [exact H1 |].
  split; [| vm_compute; reflexivity].
  vm_compute in H1. inversion H1. reflexivity.
Defined.

(** ** update.py: the pipeline *)

Lemma Meta_pull_and_update_closed (E : Env) (latest_commit : string)
  (versions_dir : list File) (self : Meta.t) :
  Meta.commit self = latest_commit ->
  Meta.pull_and_update E latest_commit versions_dir self = (Return false, self).
Proof.
  intros H. unfold Meta.pull_and_update. munfold.
  apply String.eqb_eq in H. rewrite H. reflexivity.
Qed.

Lemma Meta_pull_and_update_open (E : Env) (latest_commit : string)
  (versions_dir : list File) (self : Meta.t) :
  Meta.commit self <> latest_commit ->
  Meta.pull_and_update E latest_commit versions_dir self
  = match Meta.update E versions_dir (Meta.set_commit latest_commit self) with
    | (Return _, self') => (Return true, self')
    | (Raise e, self') => (Raise e, self')
    end.
Proof.
  intros H. unfold Meta.pull_and_update. munfold.
  apply String.eqb_neq in H. rewrite H.
  destruct (Meta.update E versions_dir (Meta.set_commit latest_commit self)) as [[d | e] s];
    reflexivity.
Qed.

Lemma Meta_pull_and_update_commit (E : Env) (latest_commit : string)
  (versions_dir : list File) (self self' : Meta.t) (d : bool) :
  Meta.pull_and_update E latest_commit versions_dir self = (Return d, self') ->
  Meta.commit self' = latest_commit.
Proof.
  intros H.
  destruct (String.eqb_spec (Meta.commit self) latest_commit) as [He | Hne].
  - rewrite Meta_pull_and_update_closed in H by exact He. inversion H; subst. reflexivity.
  - rewrite Meta_pull_and_update_open in H by exact Hne.
    destruct (Meta.update E versions_dir (Meta.set_commit latest_commit self))
      as [[d1 | e] s] eqn:Hu; [| discriminate].
    inversion H; subst. apply Meta_update_commit in Hu. exact Hu.
Qed.

Lemma Update_update_stages (E : Env) (latest_commit : string) (versions_dir : list File)
  (now : Z) (disk : Update.Disk) (w : World) :
  Update.update E latest_commit versions_dir now (disk, w)
  = Update_stages E latest_commit versions_dir now disk w.
Proof.
  unfold Update.update, Update_stages, Update.load, Update.save, Update.call,
    Update.call_io, Index.save.
  munfold. cbn [fst snd].
  destruct (Meta.pull_and_update E latest_commit versions_dir (Update.meta_json disk))
    as [[[] | e] meta];
    cbn [fst snd Update.set_meta_json Update.set_jars_json Update.meta_json
           Update.jars_json Update.index_json];
    try reflexivity.
  destruct (Jars.update E meta (Update.jars_json disk, w)) as [[[] | e] [jars w1]];
    cbn [fst snd Update.set_meta_json Update.set_jars_json Update.meta_json
           Update.jars_json Update.index_json];
    try reflexivity.
  destruct (Index.update jars (Update.index_json disk)) as [[[] | e] index];
    cbn [fst snd]; reflexivity.
Qed.

(** X17: The pipeline works once per upstream commit.  When the stored commit
    hash is the head commit, a run changes nothing, on disk or in the file
    system, whatever the state of the other snapshots.  When the Meta stage
    raises, nothing has been saved.  When it returns, [meta.json] carries the
    head commit from then on, also if the Jars or the Index stage raises
    afterwards: a further run at the same head commit does nothing, so the
    stage that failed is not attempted again before upstream moves. *)
Theorem Update_runs_once_per_commit (E : Env) (latest_commit : string)
  (versions_dir : list File) (now : Z) (disk disk' : Update.Disk) (w w' : World)
  (r : outcome unit) :
  Update.update E latest_commit versions_dir now (disk, w) = (r, (disk', w')) ->
  (Meta.commit (Update.meta_json disk) = latest_commit ->
   r = Return tt /\ disk' = disk /\ w' = w)
  /\ (forall e,
        fst (Meta.pull_and_update E latest_commit versions_dir (Update.meta_json disk))
        = Raise e ->
        r = Raise e /\ disk' = disk /\ w' = w)
  /\ (forall d,
        fst (Meta.pull_and_update E latest_commit versions_dir (Update.meta_json disk))
        = Return d ->
        Meta.commit (Update.meta_json disk') = latest_commit
        /\ forall versions_dir' now',
             Update.update E latest_commit versions_dir' now' (disk', w')
             = (Return tt, (disk', w'))).
Proof.
  rewrite Update_update_stages. unfold Update_stages. intros Hrun.
  assert (Hgate : forall (k : Update.Disk) (v : World),
             Meta.commit (Update.meta_json k) = latest_commit ->
             forall versions_dir' now',
               Update.update E latest_commit versions_dir' now' (k, v) = (Return tt, (k, v))).
  { intros k v Hk versions_dir' now'. rewrite Update_update_stages. unfold Update_stages.
    rewrite Meta_pull_and_update_closed by exact Hk. reflexivity. }
  split; [| split].
  - intros Hc. rewrite Meta_pull_and_update_closed in Hrun by exact Hc.
    inversion Hrun; subst. auto.
  - intros e He.
    destruct (Meta.pull_and_update E latest_commit versions_dir (Update.meta_json disk))
      as [o meta]. simpl in He. subst o. inversion Hrun; subst. auto.
  - intros d Hd.
    destruct (Meta.pull_and_update E latest_commit versions_dir (Update.meta_json disk))
      as [o meta] eqn:Hp. simpl in Hd. subst o.
    pose proof (Meta_pull_and_update_commit E latest_commit versions_dir _ _ _ Hp) as Hc.
    assert (Hc' : Meta.commit (Update.meta_json disk') = latest_commit).
    { revert Hc. destruct d.
      - destruct (Jars.update E meta (Update.jars_json disk, w)) as [[[] | e] [jars w1]];
          cbv zeta in Hrun.
        + destruct (Index.update jars (Update.index_json disk)) as [[[] | e] index];
            inversion Hrun; subst; intros Hc; exact Hc.
        + inversion Hrun; subst. intros Hc. exact Hc.
        + inversion Hrun; subst. intros Hc. exact Hc.
      - intros _. inversion Hrun; subst.
        destruct (String.eqb_spec (Meta.commit (Update.meta_json disk')) latest_commit)
          as [He | Hne]; [exact He |].
        rewrite Meta_pull_and_update_open in Hp by exact Hne.
        destruct (Meta.update E versions_dir _) as [[d1 | e] s]; discriminate. }
    split; [exact Hc' |]. apply Hgate. exact Hc'.
Qed.

Lemma Update_runs_once_per_commit_witness :
  let disk := {| Update.meta_json := Meta.empty;
                 Update.jars_json := Jars.empty;
                 Update.index_json := Index.empty |} in
  let run := Update.update Example.env1 "c1" Example.dir1 99 (disk, Example.empty_world) in
  fst run = Return tt
  /\ Meta.commit (Update.meta_json (fst (snd run))) = "c1"
  /\ Update.update Example.env1 "c1" [] 100 (snd run) = (Return tt, snd run).
Proof.
  cbv zeta.
  match goal with
  | |- context [Update.update ?E ?c ?dir ?now (?disk, ?w)] =>
      destruct (Update_runs_once_per_commit E c dir now disk
                  (fst (snd (Update.update E c dir now (disk, w)))) w
                  (snd (snd (Update.update E c dir now (disk, w))))
                  (fst (Update.update E c dir now (disk, w))))
        as [_ [_ H]]; [vm_compute; reflexivity |]
  end.
  destruct (H true ltac:(vm_compute; reflexivity)) as [H1 H2].
  split; [vm_compute; reflexivity |].
  split; [exact H1 |].
  rewrite surjective_pairing at 1. rewrite (surjective_pairing (snd _)) at 1.
  rewrite H2. vm_compute. reflexivity.
Defined.

(** X18: What a run of the pipeline writes.  Each snapshot is afterwards either
    what it was or the result of a dirty update of the old snapshot against
    the snapshot of the stage before as this run has saved it: [jars.json]
    against the new [meta.json], [index.json] against the new [jars.json].
    The index is stamped with the time of the save exactly when it is
    rewritten, and the file system is touched by the Jars stage only. *)
Theorem Update_saves_stage_by_stage (E : Env) (latest_commit : string)
  (versions_dir : list File) (now : Z) (disk disk' : Update.Disk) (w w' : World)
  (r : outcome unit) :
  Update.update E latest_commit versions_dir now (disk, w) = (r, (disk', w')) ->
  (Update.meta_json disk' = Update.meta_json disk
   \/ Meta.pull_and_update E latest_commit versions_dir (Update.meta_json disk)
      = (Return true, Update.meta_json disk'))
  /\ (Update.jars_json disk' = Update.jars_json disk
      \/ Jars.update E (Update.meta_json disk') (Update.jars_json disk, w)
         = (Return true, (Update.jars_json disk', w')))
  /\ (Update.index_json disk' = Update.index_json disk
      \/ exists index,
           Index.update (Update.jars_json disk') (Update.index_json disk)
           = (Return true, index)
           /\ Update.index_json disk' = Index.mk now (Index.mappings index))
  /\ (w' = w
      \/ exists r1 jars,
           Jars.update E (Update.meta_json disk') (Update.jars_json disk, w)
           = (r1, (jars, w'))).
Proof.
  rewrite Update_update_stages. unfold Update_stages. intros Hrun.
  destruct (Meta.pull_and_update E latest_commit versions_dir (Update.meta_json disk))
    as [[[] | e] meta] eqn:Hp;
    [| inversion Hrun; subst; auto | inversion Hrun; subst; auto].
  destruct (Jars.update E meta (Update.jars_json disk, w)) as [[[] | e] [jars w1]] eqn:Hj;
    cbv zeta in Hrun.
  - destruct (Index.update jars (Update.index_json disk)) as [[[] | e] index] eqn:Hi;
      inversion Hrun; subst; cbn [Update.meta_json Update.jars_json Update.index_json
        Update.set_meta_json Update.set_jars_json Update.set_index_json];
      (split; [right; reflexivity |]); (split; [right; exact Hj |]);
      (split; [| right; exists (Return true), jars; exact Hj]).
    + right. exists index. split; [exact Hi | reflexivity].
    + left. reflexivity.
    + left. reflexivity.
  - inversion Hrun; subst. cbn [Update.meta_json Update.jars_json Update.index_json
      Update.set_meta_json].
    split; [right; reflexivity |]. split; [left; reflexivity |].
    split; [left; reflexivity |]. right. exists (Return false), jars. exact Hj.
  - inversion Hrun; subst. cbn [Update.meta_json Update.jars_json Update.index_json
      Update.set_meta_json].
    split; [right; reflexivity |]. split; [left; reflexivity |].
    split; [left; reflexivity |]. right. exists (Raise e), jars. exact Hj.
Qed.

Lemma Update_saves_stage_by_stage_witness :
  let disk := {| Update.meta_json := Meta.empty;
                 Update.jars_json := Jars.empty;
                 Update.index_json := Index.empty |} in
  let run := Update.update Example.env1 "c1" Example.dir1 99 (disk, Example.empty_world) in
  fst run = Return tt
  /\ Index.timestamp (Update.index_json (fst (snd run))) = 99%Z
  /\ (Update.index_json (fst (snd run)) = Index.empty
      \/ exists index,
           Index.update (Update.jars_json (fst (snd run))) Index.empty
           = (Return true, index)
           /\ Update.index_json (fst (snd run)) = Index.mk 99 (Index.mappings index)).
Proof.
  cbv zeta.
  match goal with
  | |- context [Update.update ?E ?c ?dir ?now (?disk, ?w)] =>
      destruct (Update_saves_stage_by_stage E c dir now disk
                  (fst (snd (Update.update E c dir now (disk, w)))) w
                  (snd (snd (Update.update E c dir now (disk, w))))
                  (fst (Update.update E c dir now (disk, w))))
        as [_ [_ [H _]]]; [vm_compute; reflexivity |]
  end.
  split; [vm_compute; reflexivity |].
  split; [vm_compute; reflexivity | exact H].
Defined.

(** X19: A completed run at a new head commit leaves the stores consistent with
    each other, provided every item is named once (descriptor stems, stored
    file ids, version ids of the saved Meta snapshot, records of the saved
    Jars snapshot): [meta.json] carries the head commit and, for every
    descriptor file, a version with its stem and hash; [jars.json] holds a
    record with the upstream hash for every archive of [meta.json]; and
    when [jars.json] has been rewritten, [index.json] holds for every
    record of [jars.json] the mapping derived from it. *)
Theorem Update_brings_stores_up_to_date (E : Env) (latest_commit : string)
  (versions_dir : list File) (now : Z) (disk disk' : Update.Disk) (w w' : World) :
  (forall b, sha1_hexdigest E b <> EmptyString) ->
  NoDup (map file_stem versions_dir) ->
  NoDup (map MetaVersion.file_id (Meta.minecraft (Update.meta_json disk))) ->
  Meta.commit (Update.meta_json disk) <> latest_commit ->
  Update.update E latest_commit versions_dir now (disk, w) = (Return tt, (disk', w')) ->
  NoDup (map MetaVersion.id (Meta.minecraft (Update.meta_json disk'))) ->
  (forall mc_version, In mc_version (Meta.minecraft (Update.meta_json disk')) ->
     NoDup (dict_keys (MetaVersion.jars mc_version))) ->
  NoDup (map Index_key (Jars.all (Update.jars_json disk'))) ->
  Meta.commit (Update.meta_json disk') = latest_commit
  /\ (forall file, In file versions_dir ->
        exists v,
          In v (Meta.minecraft (Update.meta_json disk'))
          /\ MetaVersion.file_id v = file_stem file
          /\ MetaVersion.sha1 v = sha1_hexdigest E (file_bytes file))
  /\ (forall mc_version jar_name meta_jar,
        In mc_version (Meta.minecraft (Update.meta_json disk')) ->
        In (jar_name, meta_jar) (MetaVersion.jars mc_version) ->
        exists inner jar,
          dict_get (MetaVersion.id mc_version) (Jars.versions (Update.jars_json disk'))
          = Some inner
          /\ dict_get jar_name inner = Some jar
          /\ JarsJar.jar_sha1_meta jar = MetaJar.sha1 meta_jar)
  /\ (Update.jars_json disk' <> Update.jars_json disk ->
      forall jar, In jar (Jars.all (Update.jars_json disk')) ->
        exists inner,
          dict_get (JarsJar.version_id jar) (Index.mappings (Update.index_json disk'))
          = Some inner
          /\ dict_get (JarsJar.jar_key jar) inner = Some (IndexMapping.from_jar jar)).
Proof.
  intros Hsha Hstems Hids Hcommit Hrun Hvids Hkeys Hrecs.
  rewrite Update_update_stages in Hrun. unfold Update_stages in Hrun.
  rewrite Meta_pull_and_update_open in Hrun by exact Hcommit.
  destruct (Meta.update E versions_dir
              (Meta.set_commit latest_commit (Update.meta_json disk)))
    as [[d0 | e] meta] eqn:Hm; [| discriminate].
  destruct (Meta_update_settles E versions_dir
              (Meta.set_commit latest_commit (Update.meta_json disk)) meta d0
              Hsha Hstems Hids Hm)
    as [Hfiles _].
  pose proof (Meta_update_commit E versions_dir _ _ _ Hm) as Hc.
  cbn [Meta.commit Meta.set_commit] in Hc.
  destruct (Jars.update E meta (Update.jars_json disk, w)) as [[d1 | e] [jars w1]] eqn:Hj;
    [| discriminate].
  assert (Hmeta : Update.meta_json disk' = meta
                  /\ Update.jars_json disk' = jars).
  { destruct d1; cbv zeta in Hrun.
    - destruct (Index.update jars (Update.index_json disk)) as [[[] | e] index];
        inversion Hrun; subst; split; reflexivity.
    - inversion Hrun; subst. apply Jars_update_false in Hj. inversion Hj; subst.
      split; reflexivity. }
  destruct Hmeta as [Hmeta Hjars].
  rewrite Hmeta in Hvids, Hkeys |- *. rewrite Hjars in Hrecs |- *.
  split; [exact Hc |]. split; [exact Hfiles |]. split.
  - intros mc_version jar_name meta_jar Hv Hjar.
    destruct (Jars_update_settles E meta _ jars w w1 d1 Hvids Hkeys Hj mc_version Hv)
      as [_ Hall].
    exact (Hall (jar_name, meta_jar) Hjar).
  - intros Hchanged. destruct d1; cbv zeta in Hrun.
    + destruct (Index.update jars (Update.index_json disk)) as [[d2 | e] index] eqn:Hi;
        [| discriminate].
      pose proof (Index_update_settles jars _ index d2 Hrecs Hi) as Hall.
      assert (Hindex : Index.mappings (Update.index_json disk') = Index.mappings index).
      { destruct d2; inversion Hrun; subst disk'; cbn [Update.index_json
          Update.set_index_json Update.set_jars_json Update.set_meta_json Index.mappings];
          [reflexivity |].
        apply Index_update_false in Hi. subst index. reflexivity. }
      rewrite Hindex. exact Hall.
    + apply Jars_update_false in Hj. inversion Hj; subst. contradiction.
Qed.

Lemma Update_brings_stores_up_to_date_witness :
  let disk := {| Update.meta_json := Meta.empty;
                 Update.jars_json := Jars.empty;
                 Update.index_json := Index.empty |} in
  let run := Update.update Example.env1 "c1" Example.dir1 99 (disk, Example.empty_world) in
  fst run = Return tt
  /\ Meta.commit (Update.meta_json (fst (snd run))) = "c1"
  /\ exists inner jar,
       dict_get "1.20.1" (Jars.versions (Update.jars_json (fst (snd run)))) = Some inner
       /\ dict_get "client" inner = Some jar
       /\ JarsJar.jar_sha1_meta jar = "sha1:jar-1".
Proof.
  cbv zeta.
  match goal with
  | |- context [Update.update ?E ?c ?dir ?now (?disk, ?w)] =>
      destruct (Update_brings_stores_up_to_date E c dir now disk
                  (fst (snd (Update.update E c dir now (disk, w)))) w
                  (snd (snd (Update.update E c dir now (disk, w)))))
        as [H1 [_ [H3 _]]]
  end.
  - intros b. simpl. discriminate.
  - simpl. repeat constructor. simpl. tauto.
  - simpl. constructor.
  - simpl. discriminate.
  - vm_compute. reflexivity.
  - vm_compute. repeat constructor. simpl. tauto.
  - intros v Hv. vm_compute in Hv. destruct Hv as [Hv | []]. subst v.
    vm_compute. repeat constructor. simpl. tauto.
  - vm_compute. repeat constructor. simpl. tauto.
  - split; [vm_compute; reflexivity |]. split; [exact H1 |].
    apply (H3 Example.meta_version_1_20_1 "client" Example.meta_jar_1_20_1).
    + vm_compute. left. reflexivity.
    + left. reflexivity.
Defined.

(** ** Further witnesses *)

Lemma MetaVersion_update_stores_downloads_witness :
  let run := MetaVersion.update Example.env1
               {| file_name := "1.20.1.json"; file_bytes := Example.bytes "d1" |}
               MetaVersion.empty in
  fst run = Return true
  /\ MetaVersion.id (snd run) = "1.20.1"
  /\ dict_get "client_mappings" (MetaVersion.jars (snd run)) = None.
Proof.
  cbv zeta.
  match goal with
  | |- context [MetaVersion.update ?E ?f ?s] =>
      destruct (MetaVersion_update_stores_downloads E f s (snd (MetaVersion.update E f s))
                  Example.descriptor_1_20_1 "1.20.1" "7" 7
                  [("client", {| dl_sha1 := Some "sha1:jar-1"; dl_url := Some "u1" |});
                   ("client_mappings", {| dl_sha1 := Some "m"; dl_url := Some "um" |})])
        as [[H1 _] [_ [H3 _]]]
  end.
  - simpl. discriminate.
  - reflexivity.
  - reflexivity.
  - reflexivity.
  - reflexivity.
  - reflexivity.
  - simpl. repeat constructor; simpl; intuition discriminate.
  - vm_compute. reflexivity.
  - split; [vm_compute; reflexivity |]. split; [exact H1 |].
    rewrite (H3 "client_mappings"); [reflexivity |].
    left. unfold JAR_NAMES. simpl. intuition discriminate.
Defined.

Lemma sort_dict_key_reverse_witness :
  Util.sort_dict_key
    (fun i : string * Z => if Z.eqb (snd i) 0 then Raise (NotFound (fst i)) else Return (snd i))
    true [("a", 1%Z); ("b", 0%Z); ("c", 2%Z)]
  = Raise (NotFound "b").
Proof.
  apply (proj1 (sort_dict_key_reverse
                  (fun i : string * Z =>
                     if Z.eqb (snd i) 0 then Raise (NotFound (fst i)) else Return (snd i))
                  [("a", 1%Z); ("b", 0%Z); ("c", 2%Z)])
           [("a", 1%Z)] ("b", 0%Z) [("c", 2%Z)]).
  - reflexivity.
  - intros y [Hy | []]. subst y. exists 1%Z. reflexivity.
  - reflexivity.
Defined.

(** ** meta.py: a failed reconcile *)

Lemma MetaVersion_downloads_loop_header (items : list (string * Download))
  (self self' : MetaVersion.t) (r : outcome unit) :
  for_each items (fun item => MetaVersion.update_download (fst item) (snd item)) self
  = (r, self') ->
  same_header self self'.
Proof.
  intros Hrun.
  apply (for_each_preserves (fun s => same_header self s)
           (fun item => MetaVersion.update_download (fst item) (snd item)) items)
    with (s := self) (r := r); [| exact Hrun |].
  - intros x s r0 s' _ Hx [A1 [A2 [A3 A4]]].
    destruct (MetaVersion_update_download_header _ _ _ _ _ Hx) as [B1 [B2 [B3 B4]]].
    unfold same_header. repeat split; congruence.
  - unfold same_header. auto.
Qed.

(** X20: A failed [MetaVersion.update].  When the descriptor does not parse, or
    lacks its id or a readable release time, the stored hash and the jars
    map are as they were.  Every later failure (no downloads member, a
    download without hash or URL, an identity mismatch of a stored record)
    comes after the new hash has been stored: on the version so left, the
    reconcile of the same file returns not-dirty at once. *)
Theorem MetaVersion_update_failure (E : Env) (file : File) (self self' : MetaVersion.t)
  (e : exn) :
  MetaVersion.update E file self = (Raise e, self') ->
  (MetaVersion.sha1 self' = MetaVersion.sha1 self
   /\ MetaVersion.jars self' = MetaVersion.jars self
   /\ (json_load E (file_bytes file) = None
       \/ exists data,
            json_load E (file_bytes file) = Some data
            /\ (json_id data = None
                \/ json_releaseTime data = None
                \/ exists text,
                     json_releaseTime data = Some text /\ fromisoformat E text = None)))
  \/ (MetaVersion.sha1 self <> sha1_hexdigest E (file_bytes file)
      /\ MetaVersion.sha1 self' = sha1_hexdigest E (file_bytes file)
      /\ MetaVersion.file_id self' = file_stem file
      /\ MetaVersion.update E file self' = (Return false, self')).
Proof.
  intros Hrun.
  destruct (String.eqb_spec (MetaVersion.sha1 self) (sha1_hexdigest E (file_bytes file)))
    as [He | Hne].
  { rewrite MetaVersion_update_skip in Hrun by exact He. discriminate. }
  destruct (json_load E (file_bytes file)) as [data |] eqn:H1.
  2:{ left. unfold MetaVersion.update in Hrun. munfold.
      apply String.eqb_neq in Hne. rewrite Hne, H1 in Hrun.
      inversion Hrun; subst. auto. }
  destruct (json_id data) as [id |] eqn:H2.
  2:{ left. unfold MetaVersion.update in Hrun. munfold.
      apply String.eqb_neq in Hne. rewrite Hne, H1, H2 in Hrun.
      inversion Hrun; subst. split; [reflexivity |]. split; [reflexivity |].
      right. exists data. auto. }
  destruct (json_releaseTime data) as [text |] eqn:H3.
  2:{ left. unfold MetaVersion.update in Hrun. munfold.
      apply String.eqb_neq in Hne. rewrite Hne, H1, H2, H3 in Hrun.
      inversion Hrun; subst. split; [reflexivity |]. split; [reflexivity |].
      right. exists data. auto. }
  destruct (fromisoformat E text) as [t |] eqn:H4.
  2:{ left. unfold MetaVersion.update in Hrun. munfold.
      apply String.eqb_neq in Hne. rewrite Hne, H1, H2, H3, H4 in Hrun.
      inversion Hrun; subst. split; [reflexivity |]. split; [reflexivity |].
      right. exists data. split; [reflexivity |]. right. right. exists text. auto. }
  right. split; [exact Hne |].
  assert (Hleft : MetaVersion.sha1 self' = sha1_hexdigest E (file_bytes file)
                  /\ MetaVersion.file_id self' = file_stem file).
  { destruct (json_downloads data) as [downloads |] eqn:H5.
    - rewrite (MetaVersion_update_run E file self data id text t downloads
                 Hne H1 H2 H3 H4 H5) in Hrun.
      destruct (for_each _ _ _) as [[[] | e1] s1] eqn:Hloop; [discriminate |].
      inversion Hrun; subst.
      destruct (MetaVersion_downloads_loop_header _ _ _ _ Hloop) as [_ [B2 [_ B4]]].
      simpl in B2, B4. auto.
    - unfold MetaVersion.update in Hrun. munfold.
      apply String.eqb_neq in Hne. rewrite Hne, H1, H2, H3, H4, H5 in Hrun.
      inversion Hrun; subst. simpl. auto. }
  destruct Hleft as [Hs Hf]. split; [exact Hs |]. split; [exact Hf |].
  apply MetaVersion_update_skip. exact Hs.
Qed.

Lemma MetaVersion_update_failure_witness :
  let E := Example.toy_env
             [("d", {| json_id := Some "1.0";
                       json_releaseTime := Some "3";
                       json_downloads :=
                         Some [("client", {| dl_sha1 := Some "h"; dl_url := None |})] |})]
             [] [] in
  let file := {| file_name := "1.0.json"; file_bytes := Example.bytes "d" |} in
  let run := MetaVersion.update E file MetaVersion.empty in
  fst run = Raise (KeyError "url")
  /\ MetaVersion.sha1 (snd run) = "sha1:d"
  /\ MetaVersion.update E file (snd run) = (Return false, snd run).
Proof.
  cbv zeta.
  split; [vm_compute; reflexivity |].
  match goal with
  | |- context [MetaVersion.update ?E ?f MetaVersion.empty] =>
      destruct (MetaVersion_update_failure E f MetaVersion.empty
                  (snd (MetaVersion.update E f MetaVersion.empty)) (KeyError "url"))
        as [[H _] | [_ [H1 [_ H3]]]]; [vm_compute; reflexivity | |]
  end.
  - vm_compute in H. discriminate.
  - split; [| exact H3]. vm_compute. reflexivity.
Defined.

(** ** jars.py: the outcome of the final sort *)

Lemma find_some_exists {X : Type} (f : X -> bool) (l : list X) :
  (exists x, In x l /\ f x = true) -> exists y, find f l = Some y.
Proof.
  induction l as [| a l IH]; intros [x [Hin Hx]]; [destruct Hin |].
  simpl. destruct (f a) eqn:Ha; [eexists; reflexivity |].
  apply IH. destruct Hin as [-> | Hin]; [congruence |]. exists x. auto.
Qed.

Lemma Jars_get_version_release_time_found (self : Jars.t) (version : string) :
  (exists jar, In jar (Jars.all self) /\ Jars.mentions version jar = true) ->
  exists t, Jars.get_version_release_time self version = Return t.
Proof.
  intros H. unfold Jars.get_version_release_time.
  destruct (find_some_exists _ _ H) as [y Hy]. rewrite Hy. eexists. reflexivity.
Qed.

Lemma Jars_get_version_release_time_missing (self : Jars.t) (version : string) :
  (forall jar, In jar (Jars.all self) -> Jars.mentions version jar = false) ->
  Jars.get_version_release_time self version = Raise (NotFound version).
Proof.
  intros H. unfold Jars.get_version_release_time.
  rewrite (find_none_iff _ _ H). reflexivity.
Qed.

(** X21: When the loop of [Jars.update] has been dirty, the outcome is decided
    by the final sort.  If every version key of the store is mentioned by
    some record of the store (as version id or as version file id), the
    update returns dirty with the same entries, reordered.  Otherwise it
    raises the not-found error of the first key, in map order, that no
    record mentions, and leaves the store as the loop left it, with all
    fetches and conversions done but the map unsorted. *)
Theorem Jars_update_final_sort (E : Env) (meta : Meta.t) (self pass : Jars.t)
  (w w1 : World) :
  Jars_update_pass E meta (self, w) = (Return true, (pass, w1)) ->
  ((forall k, In k (dict_keys (Jars.versions pass)) ->
      exists jar, In jar (Jars.all pass) /\ Jars.mentions k jar = true) ->
   exists self',
     Jars.update E meta (self, w) = (Return true, (self', w1))
     /\ Permutation (Jars.versions self') (Jars.versions pass))
  /\ (forall pre k inner post,
        Jars.versions pass = (pre ++ (k, inner) :: post)%list ->
        (forall k0, In k0 (dict_keys pre) ->
           exists jar, In jar (Jars.all pass) /\ Jars.mentions k0 jar = true) ->
        (forall jar, In jar (Jars.all pass) -> Jars.mentions k jar = false) ->
        Jars.update E meta (self, w) = (Raise (NotFound k), (pass, w1))).
Proof.
  intros Hpass.
  assert (Hupd : Jars.update E meta (self, w)
                 = match Util.sort_dict_key
                           (fun i => Jars.get_version_release_time pass (fst i)) true
                           (Jars.versions pass) with
                   | Return vs => (Return true, (Jars.mk vs, w1))
                   | Raise e => (Raise e, (pass, w1))
                   end).
  { unfold Jars.update. unfold bind at 1. fold (Jars_update_pass E meta).
    rewrite Hpass. munfold. cbn [fst snd].
    destruct (Util.sort_dict_key _ true (Jars.versions pass)); reflexivity. }
  rewrite Hupd. unfold Util.sort_dict_key, sorted. split.
  - intros Hall.
    destruct (decorate_returns
                (fun i : string * dict JarsJar.t =>
                   Jars.get_version_release_time pass (fst i))
                (Jars.versions pass)) as [l Hl].
    { intros x Hx. apply Jars_get_version_release_time_found. apply Hall.
      unfold dict_keys. apply in_map. exact Hx. }
    rewrite Hl. eexists. split; [reflexivity |]. cbn [Jars.versions].
    destruct (decorate_Return _ _ _ _ _ Hl) as [Hm _].
    rewrite <- Hm. apply Permutation_map. apply sort_decorated_perm.
  - intros pre k inner post Hsplit Hpre Hk. rewrite Hsplit.
    rewrite (decorate_raises_first
               (fun i : string * dict JarsJar.t =>
                  Jars.get_version_release_time pass (fst i))
               pre (k, inner) post (NotFound k)); [reflexivity | |].
    + intros y Hy. apply Jars_get_version_release_time_found. apply Hpre.
      unfold dict_keys. apply in_map. exact Hy.
    + apply Jars_get_version_release_time_missing. exact Hk.
Qed.

Lemma Jars_update_final_sort_witness :
  exists self',
    Jars.update Example.env_store Example.meta_server_added
      (Example.jars_without_server, Example.world_without_server)
    = (Return true,
       (self',
        snd (snd (Jars_update_pass Example.env_store Example.meta_server_added
                    (Example.jars_without_server, Example.world_without_server)))))
    /\ Permutation (Jars.versions self')
         (Jars.versions
            (fst (snd (Jars_update_pass Example.env_store Example.meta_server_added
                         (Example.jars_without_server, Example.world_without_server))))).
Proof.
  apply (proj1 (Jars_update_final_sort Example.env_store Example.meta_server_added
                  Example.jars_without_server _ Example.world_without_server _
                  ltac:(vm_compute; reflexivity))).
  intros k Hk. vm_compute in Hk. destruct Hk as [Hk | []]. subst k.
  exists (Example.jar_of "1.0" "1.0" 3 "client" "c").
  split; [vm_compute; left; reflexivity | vm_compute; reflexivity].
Defined.

(** ** jars.py: what is fetched *)

Lemma fetched_only_refl (allowed : string -> Prop) (w : World) : fetched_only allowed w w.
Proof. exists []. split; [symmetry; apply app_nil_r | constructor]. Qed.

Lemma fetched_only_trans (allowed : string -> Prop) (a b c : World) :
  fetched_only allowed a b -> fetched_only allowed b c -> fetched_only allowed a c.
Proof.
  intros [f1 [H1 A1]] [f2 [H2 A2]]. exists (f1 ++ f2)%list. split.
  - rewrite H2, H1, app_assoc. reflexivity.
  - apply Forall_app. auto.
Qed.

Lemma JarsJar_update_requests (E : Env) (meta_jar : MetaJar.t) (self self' : JarsJar.t)
  (w w' : World) (r : outcome bool) :
  JarsJar.update E meta_jar (self, w) = (r, (self', w')) ->
  requests w' = requests w \/ requests w' = (requests w ++ [MetaJar.url meta_jar])%list.
Proof.
  intros Hrun.
  destruct (String.eqb_spec (MetaJar.sha1 meta_jar) (JarsJar.jar_sha1_meta self))
    as [He | Hne].
  - rewrite JarsJar_update_closed in Hrun by exact He. inversion Hrun; subst. auto.
  - rewrite JarsJar_update_open in Hrun by exact Hne.
    unfold JarsJar_update_steps in Hrun.
    pose proof (JarsJar_download_requests E meta_jar self w) as Hdr.
    destruct (JarsJar.download E meta_jar self w) as [[[] | e1] w1];
      [| inversion Hrun; subst; exact Hdr].
    destruct (JarsJar.extract_bundle E self w1) as [[ub | e2] w2] eqn:Hx;
      apply JarsJar_extract_bundle_world in Hx; subst w2;
      [| inversion Hrun; subst; exact Hdr].
    pose proof (JarsJar_unbundle_requests self ub w1) as Hur.
    destruct (JarsJar.unbundle self ub w1) as [[[] | e3] w3];
      [| inversion Hrun; subst; simpl in *; rewrite Hur; exact Hdr].
    pose proof (JarsJar_mappingio_requests E self w3) as Hmr.
    destruct (JarsJar.mappingio E self w3) as [[[] | e4] w4];
      [| inversion Hrun; subst; simpl in *; rewrite Hmr, Hur; exact Hdr].
    cbv zeta in Hrun. simpl in *.
    destruct (files w4 (JarsJar.jar_path self)); inversion Hrun; subst;
      rewrite Hmr, Hur; exact Hdr.
Qed.

Lemma fetched_only_step (allowed : string -> Prop) (url : string) (w w' : World) :
  allowed url ->
  requests w' = requests w \/ requests w' = (requests w ++ [url])%list ->
  fetched_only allowed w w'.
Proof.
  intros Ha [H | H].
  - exists []. split; [rewrite H; symmetry; apply app_nil_r | constructor].
  - exists [url]. split; [exact H | repeat constructor; exact Ha].
Qed.

Lemma Jars_update_jar_requests (E : Env) (allowed : string -> Prop)
  (version jar_name : string) (meta_jar : MetaJar.t) (st st' : Jars.t * World)
  (r : outcome bool) :
  allowed (MetaJar.url meta_jar) ->
  Jars.update_jar E version jar_name meta_jar st = (r, st') ->
  fetched_only allowed (snd st) (snd st').
Proof.
  destruct st as [self w]. intros Ha Hrun.
  destruct (dict_get version (Jars.versions self)) as [inner |] eqn:Hv.
  - destruct (dict_get jar_name inner) as [jar |] eqn:Hj.
    + rewrite (Jars_update_jar_existing E version jar_name meta_jar self w inner jar Hv Hj)
        in Hrun.
      destruct (JarsJar.update E meta_jar (jar, w)) as [[vd | e] [jar' w1]] eqn:Hu;
        apply JarsJar_update_requests in Hu;
        [cbv zeta in Hrun; destruct vd |]; inversion Hrun; subst; cbn [snd];
        apply (fetched_only_step allowed _ _ _ Ha Hu).
    + rewrite (Jars_update_jar_new E version jar_name meta_jar self w inner Hv Hj) in Hrun.
      unfold JarsJar.from_meta_jar in Hrun. cbv zeta in Hrun.
      destruct (JarsJar.update E meta_jar _) as [[d | e] [jar' w1]] eqn:Hu;
        apply JarsJar_update_requests in Hu;
        inversion Hrun; subst; cbn [snd];
        apply (fetched_only_step allowed _ _ _ Ha Hu).
  - unfold Jars.update_jar in Hrun. munfold. cbn [fst snd] in Hrun. rewrite Hv in Hrun.
    inversion Hrun; subst. apply fetched_only_refl.
Qed.

Lemma Jars_loop_requests {X : Type} (allowed : string -> Prop)
  (body : X -> M (Jars.t * World) bool) (xs : list X) :
  (forall x s r s', In x xs -> body x s = (r, s') -> fetched_only allowed (snd s) (snd s')) ->
  forall dirty s r s', for_dirty xs body dirty s = (r, s') ->
    fetched_only allowed (snd s) (snd s').
Proof.
  apply (for_dirty_related (fun a b => fetched_only allowed (snd a) (snd b))).
  - intros s. apply fetched_only_refl.
  - intros a b c. apply fetched_only_trans.
Qed.

Lemma Jars_update_version_requests (E : Env) (allowed : string -> Prop)
  (mc_version : MetaVersion.t) (st st' : Jars.t * World) (r : outcome bool) :
  (forall item, In item (MetaVersion.jars mc_version) -> allowed (MetaJar.url (snd item))) ->
  Jars.update_version E mc_version st = (r, st') ->
  fetched_only allowed (snd st) (snd st').
Proof.
  destruct st as [self w]. intros Ha. unfold Jars.update_version.
  unfold bind at 1. unfold on_self at 1, zoom at 1, get at 1. cbn [fst snd].
  unfold bind at 1.
  destruct (dict_mem (MetaVersion.id mc_version) (Jars.versions self)); cbn [negb].
  - unfold ret at 1. intros Hrun.
    apply (Jars_loop_requests allowed) in Hrun; [exact Hrun |].
    intros x s r0 s' Hx Hb. eapply Jars_update_jar_requests; [apply Ha, Hx | exact Hb].
  - munfold. cbn [fst snd]. intros Hrun.
    apply (Jars_loop_requests allowed) in Hrun; [exact Hrun |].
    intros x s r0 s' Hx Hb. eapply Jars_update_jar_requests; [apply Ha, Hx | exact Hb].
Qed.

(** X22: [Jars.update] fetches nothing but archives of the Meta snapshot:
    whatever its outcome, the requests it has made are appended to the
    earlier ones, and each goes to the URL of an archive that a version of
    the snapshot lists. *)
Theorem Jars_update_fetches_only_meta_urls (E : Env) (meta : Meta.t) (self self' : Jars.t)
  (w w' : World) (r : outcome bool) :
  Jars.update E meta (self, w) = (r, (self', w')) ->
  exists fetched,
    requests w' = (requests w ++ fetched)%list
    /\ forall url, In url fetched ->
         exists mc_version jar_name meta_jar,
           In mc_version (Meta.minecraft meta)
           /\ In (jar_name, meta_jar) (MetaVersion.jars mc_version)
           /\ MetaJar.url meta_jar = url.
Proof.
  intros Hrun.
  assert (H : fetched_only (Meta_url meta) w w').
  { unfold Jars.update in Hrun. unfold bind at 1 in Hrun.
    destruct (for_dirty (rev (Meta.minecraft meta)) (Jars.update_version E) false (self, w))
      as [[d1 | e] [s1 w1]] eqn:Hloop;
      apply (Jars_loop_requests (Meta_url meta)) in Hloop;
      try (intros x s r0 s' Hx Hb;
           apply (Jars_update_version_requests E (Meta_url meta) x s s' r0);
           [| exact Hb];
           intros [k mj] Hitem; exists x, k, mj;
           split; [apply in_rev; exact Hx | split; [exact Hitem | reflexivity]]);
      cbn [snd] in Hloop.
    - destruct d1; munfold; cbn [fst snd] in Hrun.
      + destruct (Util.sort_dict_key _ true (Jars.versions s1));
          inversion Hrun; subst; exact Hloop.
      + inversion Hrun; subst. exact Hloop.
    - inversion Hrun; subst. exact Hloop. }
  destruct H as [fetched [H1 H2]]. exists fetched. split; [exact H1 |].
  intros url Hurl. rewrite Forall_forall in H2. exact (H2 url Hurl).
Qed.

Lemma Jars_update_fetches_only_meta_urls_witness :
  exists fetched,
    requests (snd (snd (Jars.update Example.env_store Example.meta_server_added
                          (Example.jars_without_server, Example.world_without_server))))
    = (requests Example.world_without_server ++ fetched)%list
    /\ forall url, In url fetched ->
         exists mc_version jar_name meta_jar,
           In mc_version (Meta.minecraft Example.meta_server_added)
           /\ In (jar_name, meta_jar) (MetaVersion.jars mc_version)
           /\ MetaJar.url meta_jar = url.
Proof.
  apply (Jars_update_fetches_only_meta_urls Example.env_store Example.meta_server_added
           Example.jars_without_server
           (fst (snd (Jars.update Example.env_store Example.meta_server_added
                        (Example.jars_without_server, Example.world_without_server))))
           Example.world_without_server _
           (fst (Jars.update Example.env_store Example.meta_server_added
                   (Example.jars_without_server, Example.world_without_server)))).
  vm_compute. reflexivity.
Defined.

(** ** index.py: the index after an update *)

Lemma dict2_get_updated {V : Type} (version key : string) (x : V) (ms ms' : dict (dict V))
  (v k : string) :
  dict2_updated version key x ms ms' ->
  dict2_get v k ms'
  = if String.eqb version v && String.eqb key k then Some x else dict2_get v k ms.
Proof.
  intros [H1 [inner' [H2 [H3 H4]]]]. unfold dict2_get.
  destruct (String.eqb_spec version v) as [<- | Hv]; simpl.
  - rewrite H2. destruct (String.eqb_spec key k) as [<- | Hk].
    + exact H3.
    + apply H4. congruence.
  - rewrite H1 by congruence. reflexivity.
Qed.

Lemma find_app_last {X : Type} (f : X -> bool) (l : list X) (x : X) :
  find f (l ++ [x])%list
  = match find f l with
    | Some y => Some y
    | None => if f x then Some x else None
    end.
Proof.
  induction l as [| a l IH]; simpl; [reflexivity |].
  destruct (f a); [reflexivity | exact IH].
Qed.

Lemma Index_update_pass_merges (xs : list JarsJar.t) :
  forall (self self' : Index.t) (d0 d : bool),
    for_dirty xs Index.update_mapping d0 self = (Return d, self') ->
    forall version key,
      dict2_get version key (Index.mappings self')
      = match find (Index_files_under version key) (rev xs) with
        | Some jar => Some (IndexMapping.from_jar jar)
        | None => dict2_get version key (Index.mappings self)
        end.
Proof.
  induction xs as [| x xs IH]; intros self self' d0 d Hrun version key.
  - simpl in Hrun. unfold ret in Hrun. inversion Hrun; subst. reflexivity.
  - simpl in Hrun. unfold bind in Hrun.
    destruct (Index.update_mapping x self) as [[d1 | e] s1] eqn:Hx; [| discriminate].
    rewrite (IH s1 self' _ d Hrun version key).
    simpl rev. rewrite find_app_last.
    destruct (find (Index_files_under version key) (rev xs)); [reflexivity |].
    apply Index_update_mapping_updated in Hx.
    rewrite (dict2_get_updated _ _ _ _ _ version key Hx).
    unfold Index_files_under.
    destruct (String.eqb (JarsJar.version_id x) version && String.eqb (JarsJar.jar_key x) key);
      reflexivity.
Qed.

(** X23: A completed [Index.update] has merged the Jars snapshot into the
    index: under a version id and a key, the index holds the mapping derived
    from the snapshot record of that version id and key (the last such
    record, should there be several), and where the snapshot has no such
    record it holds what it held before.  Nothing is ever removed. *)
Theorem Index_update_merges (jars : Jars.t) (self self' : Index.t) (d : bool) :
  Index.update jars self = (Return d, self') ->
  forall version key,
    dict2_get version key (Index.mappings self')
    = match find (Index_files_under version key) (rev (Jars.all jars)) with
      | Some jar => Some (IndexMapping.from_jar jar)
      | None => dict2_get version key (Index.mappings self)
      end.
Proof.
  intros Hrun version key. unfold Index.update in Hrun. unfold bind at 1 in Hrun.
  destruct (for_dirty (Jars.all jars) Index.update_mapping false self)
    as [[d1 | e] s1] eqn:Hloop; [| discriminate].
  rewrite <- (Index_update_pass_merges _ _ _ _ _ Hloop version key).
  destruct d1; munfold.
  - destruct (Util.sort_dict_key _ true (Index.mappings s1)) as [ms | e] eqn:Hsort;
      [| discriminate].
    inversion Hrun; subst. unfold dict2_get. cbn [Index.mappings].
    rewrite (dict_get_sort_dict_key _ _ _ _ _ _ Hsort). reflexivity.
  - inversion Hrun; subst. reflexivity.
Qed.

Lemma Index_update_merges_witness :
  let jars := Jars.mk [("1.0", [("client", Example.jar_of "1.0" "1.0" 3 "client" "c")])] in
  let old := IndexMapping.from_jar (Example.jar_of "0.9" "0.9" 1 "server" "s") in
  let index := Index.mk 5 [("0.9", [("server", old)])] in
  dict2_get "1.0" "client" (Index.mappings (snd (Index.update jars index)))
  = Some (IndexMapping.from_jar (Example.jar_of "1.0" "1.0" 3 "client" "c"))
  /\ dict2_get "0.9" "server" (Index.mappings (snd (Index.update jars index))) = Some old.
Proof.
  cbv zeta.
  match goal with
  | |- context [Index.update ?j ?s] =>
      pose proof (Index_update_merges j s (snd (Index.update j s)) true
                    ltac:(vm_compute; reflexivity)) as H
  end.
  split.
  - rewrite (H "1.0" "client"). reflexivity.
  - rewrite (H "0.9" "server"). reflexivity.
Defined.
